(** * hindunity-backend: the Flask handlers of [src/api/index.py] and
      [src/endpoints.py], embedded as state-and-exception passing programs.

    The two route files are embedded separately ([Module Index] for
    [src/api/index.py], [Module Endpoints] for [src/endpoints.py]); what the
    two files share word for word (the loop of [delete_media_from_storage],
    the storage-key computations, the presence checks and the [except]
    block of the ingestion handlers) is defined once.

    A handler takes the value of [request.json]: a JSON document, [JNull]
    when [request.json] is [None].

    External collaborators (identity provider, database, object store, the
    clocks) are modelled by a [world]: the tables and the bucket are explicit
    state, every SDK call is appended to a trace, and whether a call raises
    (and what a login returns) is read from oracles indexed by the number
    of calls of that kind made so far, so that every definition below
    evaluates on concrete inputs.

    Not modelled: [print] output (only the evaluation of an argument that
    can raise, [len(media_urls)], is kept), CORS headers, the OPTIONS
    preflight branch, JSON numbers that are not integers, a body that Flask
    itself refuses to parse, and a failure of [create_client] or
    [boto3.client] when a client object is built. *)

From Stdlib Require Import String Ascii List ZArith Lia Bool.
From Stdlib Require Import DecimalString DecimalZ.
Import ListNotations.
Local Open Scope string_scope.
Local Open Scope list_scope.
Set Warnings "-register-all".

(* ===================================================================== *)
(** * Python values                                                        *)
(* ===================================================================== *)

(** A parsed JSON document, as [request.json] yields it.  A [JObj] is the
    item list of the Python dict (keys pairwise distinct, in insertion
    order); [dict_lookup] returns the first binding of a key. *)
Inductive json : Type :=
| JNull
| JBool (b : bool)
| JNum (n : Z)
| JStr (s : string)
| JList (l : list json)
| JObj (o : list (string * json)).

(** A dict with string keys: a request body, a [post_data] record, a row. *)
Definition dict := list (string * json).
Definition row := dict.

(** Python truthiness, the test behind [if x:], [not x] and [all([...])]. *)
Definition py_truthy (v : json) : bool :=
  match v with
  | JNull => false
  | JBool b => b
  | JNum n => negb (Z.eqb n 0)
  | JStr s => negb (String.eqb s "")
  | JList l => match l with [] => false | _ :: _ => true end
  | JObj o => match o with [] => false | _ :: _ => true end
  end.

Definition py_type_name (v : json) : string :=
  match v with
  | JNull => "NoneType"
  | JBool _ => "bool"
  | JNum _ => "int"
  | JStr _ => "str"
  | JList _ => "list"
  | JObj _ => "dict"
  end.

Fixpoint json_eqb (a b : json) {struct a} : bool :=
  match a, b with
  | JNull, JNull => true
  | JBool x, JBool y => Bool.eqb x y
  | JNum x, JNum y => Z.eqb x y
  | JStr x, JStr y => String.eqb x y
  | JList x, JList y =>
      (fix go (l1 l2 : list json) {struct l1} : bool :=
         match l1, l2 with
         | [], [] => true
         | u :: l1', v :: l2' => json_eqb u v && go l1' l2'
         | _, _ => false
         end) x y
  | JObj x, JObj y =>
      (fix go (l1 l2 : list (string * json)) {struct l1} : bool :=
         match l1, l2 with
         | [], [] => true
         | (k1, u) :: l1', (k2, v) :: l2' =>
             String.eqb k1 k2 && json_eqb u v && go l1' l2'
         | _, _ => false
         end) x y
  | _, _ => false
  end.

Fixpoint dict_lookup (k : string) (d : dict) : option json :=
  match d with
  | [] => None
  | (k', v) :: d' => if String.eqb k k' then Some v else dict_lookup k d'
  end.

(** [d[k] = v] on a dict: the binding is replaced in place when the key is
    there, appended otherwise. *)
Fixpoint dict_set (k : string) (v : json) (d : dict) : dict :=
  match d with
  | [] => [(k, v)]
  | (k', v') :: d' =>
      if String.eqb k k' then (k, v) :: d' else (k', v') :: dict_set k v d'
  end.

(** [d.update(changes)]. *)
Definition dict_update (changes d : dict) : dict :=
  fold_left (fun acc kv => dict_set (fst kv) (snd kv) acc) changes d.

(* ===================================================================== *)
(** * Python strings                                                       *)
(* ===================================================================== *)

(** [s.split(sep)] for a non-empty [sep]: left-to-right, non-overlapping.
    [skip] counts the characters of a matched separator still to be
    dropped; [cur] is the piece being read, reversed. *)
Fixpoint rev_string (acc s : string) : string :=
  match s with
  | EmptyString => acc
  | String c s' => rev_string (String c acc) s'
  end.

Fixpoint split_aux (sep s : string) (skip : nat) (cur : string) : list string :=
  match s with
  | EmptyString => [rev_string "" cur]
  | String c s' =>
      match skip with
      | S k => split_aux sep s' k cur
      | O =>
          if String.prefix sep s
          then rev_string "" cur :: split_aux sep s' (String.length sep - 1) ""
          else split_aux sep s' 0 (String c cur)
      end
  end.

Definition py_split (sep s : string) : list string := split_aux sep s 0 "".

(** [sub in s] on two strings, [sub] non-empty. *)
Fixpoint py_contains (sub s : string) : bool :=
  match s with
  | EmptyString => false
  | String _ s' => String.prefix sub s || py_contains sub s'
  end.

(** [f"{n}"] for a Python int. *)
Definition py_str_int (n : Z) : string := NilEmpty.string_of_int (Z.to_int n).

(** [f"{x}"] where [x] is the result of [os.getenv]: the string, or the
    text [None]. *)
Definition py_str_opt (x : option string) : string :=
  match x with
  | Some s => s
  | None => "None"
  end.

(** Python's [str()] on scalar JSON values.  The handlers take the
    formatter of request fields as a parameter; this one instantiates it in
    the examples.  Containers are rendered by [repr] in Python, which is
    not modelled: this function is not used on them. *)
Definition py_str_scalar (v : json) : string :=
  match v with
  | JNull => "None"
  | JBool true => "True"
  | JBool false => "False"
  | JNum n => py_str_int n
  | JStr s => s
  | JList _ => "[...]"
  | JObj _ => "{...}"
  end.

(* ===================================================================== *)
(** * Exceptions                                                           *)
(* ===================================================================== *)

(** The exception classes the handlers can meet.  [Exception] stands for
    the [Exception("Bot login failed")] of the source and for the errors
    the SDKs raise (their text comes from the environment). *)
Inductive exn : Type :=
| Exception (msg : string)
| AttributeError (msg : string)
| TypeError (msg : string)
| KeyError (key : string)
| IndexError (msg : string).

(** [str(e)]. *)
Definition str_exn (e : exn) : string :=
  match e with
  | Exception m => m
  | AttributeError m => m
  | TypeError m => m
  | KeyError k => "'" ++ k ++ "'"
  | IndexError m => m
  end.

Inductive result (A : Type) : Type :=
| Ok (a : A)
| Raise (e : exn).
Arguments Ok {A} a.
Arguments Raise {A} e.

(* ===================================================================== *)
(** * The world outside the handlers                                       *)
(* ===================================================================== *)

(** What an SDK call gives back: a value, or an exception. *)
Inductive sdk_result (A : Type) : Type :=
| Returned (a : A)
| Raised (e : exn).
Arguments Returned {A} a.
Arguments Raised {A} e.

(** The identity provider's answer to [sign_in_with_password]: an
    [AuthResponse] whose [session] and [user] are both optional. *)
Record Session : Type := { access_token : string }.
Record User : Type := { id : string }.
Record AuthResponse : Type := { session : option Session; user : option User }.

(** The three tables the handlers touch. *)
Inductive table : Type := posts | twitter_posts | twitter_id_map.

(** One entry per call that leaves the process, in the order issued.  A
    call is recorded when it is made, whether or not it then raises. *)
Inductive event : Type :=
| EvLogin
| EvDbInsert (t : table) (r : row)
| EvDbSelect (t : table) (col : string) (v : json)
| EvDbUpdate (t : table) (changes : dict) (col : string) (v : json)
| EvS3Delete (bucket : option string) (key : string).

(** The environment: configuration and the oracles that decide what the
    outside does.  [e_now n] and [e_time_ms n] are what the [n]-th reading
    of the clock shows, as [datetime.now()] in microseconds and as
    [int(time.time() * 1000)]; [e_login n] is the identity provider's
    answer to the [n]-th login; [e_db_fault n] and [e_s3_fault n] say
    whether the [n]-th database call and the [n]-th [delete_object] raise;
    [e_presign n] is the signing function when the clock has been read [n]
    times. *)
Record env : Type := {
  e_bucket : option string;
  e_now : nat -> Z;
  e_time_ms : nat -> Z;
  e_login : nat -> sdk_result (option AuthResponse);
  e_db_fault : nat -> option exn;
  e_s3_fault : nat -> option exn;
  e_presign : nat -> option string -> string -> json -> sdk_result string
}.

(** [class AuthManager]: the three attributes set by [__init__]. *)
Record AuthManager : Type := {
  token : option string;
  user_id : option string;
  expires_at : option Z
}.

(** The state of the process and of the services behind it. *)
Record world : Type := {
  w_env : env;
  w_clock : nat;
  w_logins : nat;
  w_db_calls : nat;
  w_s3_calls : nat;
  w_auth : AuthManager;
  w_supabase : bool;
  w_supabase_admin : bool;
  w_s3_client : bool;
  w_postgrest_token : option (option string);
  w_posts : list row;
  w_twitter_posts : list row;
  w_twitter_id_map : list row;
  w_bucket : list string;
  w_trace : list event
}.

(** [w_env] is the environment, which nothing modifies.  [w_clock],
    [w_logins], [w_db_calls] and [w_s3_calls] count the clock readings,
    the logins, the database calls and the [delete_object] calls made so
    far.  [w_auth] is the global [auth_manager]; [w_supabase],
    [w_supabase_admin] and [w_s3_client] say whether the lazily built
    client of that name exists; [w_postgrest_token] is the token last given
    to [supabase.postgrest.auth].  [w_posts] is the live table,
    [w_twitter_posts] the pending table, [w_twitter_id_map] the username
    mapping, [w_bucket] the keys of the objects in the bucket, and
    [w_trace] the calls issued, oldest first. *)

Definition set_clock (x : nat) (w : world) : world :=
  {| w_env := w_env w; w_clock := x; w_logins := w_logins w;
     w_db_calls := w_db_calls w; w_s3_calls := w_s3_calls w;
     w_auth := w_auth w; w_supabase := w_supabase w;
     w_supabase_admin := w_supabase_admin w; w_s3_client := w_s3_client w;
     w_postgrest_token := w_postgrest_token w; w_posts := w_posts w;
     w_twitter_posts := w_twitter_posts w;
     w_twitter_id_map := w_twitter_id_map w; w_bucket := w_bucket w;
     w_trace := w_trace w |}.

Definition set_logins (x : nat) (w : world) : world :=
  {| w_env := w_env w; w_clock := w_clock w; w_logins := x;
     w_db_calls := w_db_calls w; w_s3_calls := w_s3_calls w;
     w_auth := w_auth w; w_supabase := w_supabase w;
     w_supabase_admin := w_supabase_admin w; w_s3_client := w_s3_client w;
     w_postgrest_token := w_postgrest_token w; w_posts := w_posts w;
     w_twitter_posts := w_twitter_posts w;
     w_twitter_id_map := w_twitter_id_map w; w_bucket := w_bucket w;
     w_trace := w_trace w |}.

Definition set_db_calls (x : nat) (w : world) : world :=
  {| w_env := w_env w; w_clock := w_clock w; w_logins := w_logins w;
     w_db_calls := x; w_s3_calls := w_s3_calls w; w_auth := w_auth w;
     w_supabase := w_supabase w; w_supabase_admin := w_supabase_admin w;
     w_s3_client := w_s3_client w; w_postgrest_token := w_postgrest_token w;
     w_posts := w_posts w; w_twitter_posts := w_twitter_posts w;
     w_twitter_id_map := w_twitter_id_map w; w_bucket := w_bucket w;
     w_trace := w_trace w |}.

Definition set_s3_calls (x : nat) (w : world) : world :=
  {| w_env := w_env w; w_clock := w_clock w; w_logins := w_logins w;
     w_db_calls := w_db_calls w; w_s3_calls := x; w_auth := w_auth w;
     w_supabase := w_supabase w; w_supabase_admin := w_supabase_admin w;
     w_s3_client := w_s3_client w; w_postgrest_token := w_postgrest_token w;
     w_posts := w_posts w; w_twitter_posts := w_twitter_posts w;
     w_twitter_id_map := w_twitter_id_map w; w_bucket := w_bucket w;
     w_trace := w_trace w |}.

Definition set_auth (x : AuthManager) (w : world) : world :=
  {| w_env := w_env w; w_clock := w_clock w; w_logins := w_logins w;
     w_db_calls := w_db_calls w; w_s3_calls := w_s3_calls w; w_auth := x;
     w_supabase := w_supabase w; w_supabase_admin := w_supabase_admin w;
     w_s3_client := w_s3_client w; w_postgrest_token := w_postgrest_token w;
     w_posts := w_posts w; w_twitter_posts := w_twitter_posts w;
     w_twitter_id_map := w_twitter_id_map w; w_bucket := w_bucket w;
     w_trace := w_trace w |}.

Definition set_supabase (x : bool) (w : world) : world :=
  {| w_env := w_env w; w_clock := w_clock w; w_logins := w_logins w;
     w_db_calls := w_db_calls w; w_s3_calls := w_s3_calls w;
     w_auth := w_auth w; w_supabase := x;
     w_supabase_admin := w_supabase_admin w; w_s3_client := w_s3_client w;
     w_postgrest_token := w_postgrest_token w; w_posts := w_posts w;
     w_twitter_posts := w_twitter_posts w;
     w_twitter_id_map := w_twitter_id_map w; w_bucket := w_bucket w;
     w_trace := w_trace w |}.

Definition set_supabase_admin (x : bool) (w : world) : world :=
  {| w_env := w_env w; w_clock := w_clock w; w_logins := w_logins w;
     w_db_calls := w_db_calls w; w_s3_calls := w_s3_calls w;
     w_auth := w_auth w; w_supabase := w_supabase w; w_supabase_admin := x;
     w_s3_client := w_s3_client w; w_postgrest_token := w_postgrest_token w;
     w_posts := w_posts w; w_twitter_posts := w_twitter_posts w;
     w_twitter_id_map := w_twitter_id_map w; w_bucket := w_bucket w;
     w_trace := w_trace w |}.

Definition set_s3_client (x : bool) (w : world) : world :=
  {| w_env := w_env w; w_clock := w_clock w; w_logins := w_logins w;
     w_db_calls := w_db_calls w; w_s3_calls := w_s3_calls w;
     w_auth := w_auth w; w_supabase := w_supabase w;
     w_supabase_admin := w_supabase_admin w; w_s3_client := x;
     w_postgrest_token := w_postgrest_token w; w_posts := w_posts w;
     w_twitter_posts := w_twitter_posts w;
     w_twitter_id_map := w_twitter_id_map w; w_bucket := w_bucket w;
     w_trace := w_trace w |}.

Definition set_postgrest_token (x : option (option string)) (w : world) : world :=
  {| w_env := w_env w; w_clock := w_clock w; w_logins := w_logins w;
     w_db_calls := w_db_calls w; w_s3_calls := w_s3_calls w;
     w_auth := w_auth w; w_supabase := w_supabase w;
     w_supabase_admin := w_supabase_admin w; w_s3_client := w_s3_client w;
     w_postgrest_token := x; w_posts := w_posts w;
     w_twitter_posts := w_twitter_posts w;
     w_twitter_id_map := w_twitter_id_map w; w_bucket := w_bucket w;
     w_trace := w_trace w |}.

Definition set_bucket (x : list string) (w : world) : world :=
  {| w_env := w_env w; w_clock := w_clock w; w_logins := w_logins w;
     w_db_calls := w_db_calls w; w_s3_calls := w_s3_calls w;
     w_auth := w_auth w; w_supabase := w_supabase w;
     w_supabase_admin := w_supabase_admin w; w_s3_client := w_s3_client w;
     w_postgrest_token := w_postgrest_token w; w_posts := w_posts w;
     w_twitter_posts := w_twitter_posts w;
     w_twitter_id_map := w_twitter_id_map w; w_bucket := x;
     w_trace := w_trace w |}.

Definition set_trace (x : list event) (w : world) : world :=
  {| w_env := w_env w; w_clock := w_clock w; w_logins := w_logins w;
     w_db_calls := w_db_calls w; w_s3_calls := w_s3_calls w;
     w_auth := w_auth w; w_supabase := w_supabase w;
     w_supabase_admin := w_supabase_admin w; w_s3_client := w_s3_client w;
     w_postgrest_token := w_postgrest_token w; w_posts := w_posts w;
     w_twitter_posts := w_twitter_posts w;
     w_twitter_id_map := w_twitter_id_map w; w_bucket := w_bucket w;
     w_trace := x |}.

Definition get_table (t : table) (w : world) : list row :=
  match t with
  | posts => w_posts w
  | twitter_posts => w_twitter_posts w
  | twitter_id_map => w_twitter_id_map w
  end.

Definition set_table (t : table) (rows : list row) (w : world) : world :=
  {| w_env := w_env w; w_clock := w_clock w; w_logins := w_logins w;
     w_db_calls := w_db_calls w; w_s3_calls := w_s3_calls w;
     w_auth := w_auth w; w_supabase := w_supabase w;
     w_supabase_admin := w_supabase_admin w; w_s3_client := w_s3_client w;
     w_postgrest_token := w_postgrest_token w; w_posts := match t with posts => rows | _ => w_posts w end;
     w_twitter_posts := match t with twitter_posts => rows | _ => w_twitter_posts w end;
     w_twitter_id_map := match t with twitter_id_map => rows | _ => w_twitter_id_map w end; w_bucket := w_bucket w;
     w_trace := w_trace w |}.

(* ===================================================================== *)
(** * The monad of handler code: state, and exceptions that keep it        *)
(* ===================================================================== *)

(** A Python statement sequence: it reads and mutates the world and either
    yields a value or raises; what was mutated before a [raise] stays
    mutated. *)
Definition M (A : Type) : Type := world -> result A * world.

Definition ret {A : Type} (a : A) : M A := fun w => (Ok a, w).

Definition raise {A : Type} (e : exn) : M A := fun w => (Raise e, w).

Definition bind {A B : Type} (m : M A) (k : A -> M B) : M B :=
  fun w =>
    match m w with
    | (Ok a, w') => k a w'
    | (Raise e, w') => (Raise e, w')
    end.

(** [try: m  except Exception as e: h e]. *)
Definition try_except {A : Type} (m : M A) (h : exn -> M A) : M A :=
  fun w =>
    match m w with
    | (Ok a, w') => (Ok a, w')
    | (Raise e, w') => h e w'
    end.

Declare Scope py_scope.
Delimit Scope py_scope with py.
Notation "x <- m ;; k" := (bind m (fun x => k))
  (at level 61, m at next level, right associativity) : py_scope.
Notation "m ;;; k" := (bind m (fun _ => k))
  (at level 61, right associativity) : py_scope.
Local Open Scope py_scope.

Definition get_world : M world := fun w => (Ok w, w).
Definition modify (f : world -> world) : M unit := fun w => (Ok tt, f w).

Definition log_event (ev : event) : M unit :=
  modify (fun w => set_trace (w_trace w ++ [ev]) w).

Definition of_fault (f : option exn) : M unit :=
  match f with
  | Some e => raise e
  | None => ret tt
  end.

Definition of_sdk {A : Type} (r : sdk_result A) : M A :=
  match r with
  | Returned a => ret a
  | Raised e => raise e
  end.

(* ===================================================================== *)
(** * Python operations that can raise                                     *)
(* ===================================================================== *)

Definition no_attribute (v : json) (attr : string) : exn :=
  AttributeError ("'" ++ py_type_name v ++ "' object has no attribute '" ++ attr ++ "'").

(** [d.get(k, default)]; only a dict has [get]. *)
Definition py_get (d : json) (k : string) (default : json) : M json :=
  match d with
  | JObj o =>
      match dict_lookup k o with
      | Some v => ret v
      | None => ret default
      end
  | _ => raise (no_attribute d "get")
  end.

(** [row[k]] on a dict. *)
Definition py_getitem (d : dict) (k : string) : M json :=
  match dict_lookup k d with
  | Some v => ret v
  | None => raise (KeyError k)
  end.

(** [l[0]]. *)
Definition py_first {A : Type} (l : list A) : M A :=
  match l with
  | x :: _ => ret x
  | [] => raise (IndexError "list index out of range")
  end.

Fixpoint chars_of (s : string) : list json :=
  match s with
  | EmptyString => []
  | String c s' => JStr (String c EmptyString) :: chars_of s'
  end.

(** [len(v)]. *)
Definition py_len (v : json) : M nat :=
  match v with
  | JStr s => ret (String.length s)
  | JList l => ret (List.length l)
  | JObj o => ret (List.length o)
  | _ => raise (TypeError ("object of type '" ++ py_type_name v ++ "' has no len()"))
  end.

(** The items [for x in v] visits. *)
Definition py_iter (v : json) : M (list json) :=
  match v with
  | JStr s => ret (chars_of s)
  | JList l => ret l
  | JObj o => ret (map (fun kv => JStr (fst kv)) o)
  | _ => raise (TypeError ("'" ++ py_type_name v ++ "' object is not iterable"))
  end.

(** [sub in v] for a string [sub]: substring test on a string, membership
    on a list, key membership on a dict. *)
Definition py_in (sub : string) (v : json) : M bool :=
  match v with
  | JStr s => ret (py_contains sub s)
  | JList l => ret (existsb (json_eqb (JStr sub)) l)
  | JObj o => ret (existsb (fun kv => String.eqb sub (fst kv)) o)
  | _ => raise (TypeError ("argument of type '" ++ py_type_name v ++ "' is not iterable"))
  end.

(** [v.split(sep)]; only a string has [split]. *)
Definition py_split_method (v : json) (sep : string) : M (list string) :=
  match v with
  | JStr s => ret (py_split sep s)
  | _ => raise (no_attribute v "split")
  end.

(* ===================================================================== *)
(** * SDK calls                                                            *)
(* ===================================================================== *)

(** [datetime.now()]. *)
Definition datetime_now : M Z :=
  w <- get_world ;;
  modify (set_clock (S (w_clock w))) ;;;
  ret (e_now (w_env w) (w_clock w)).

(** [timedelta(hours=1)], in microseconds. *)
Definition one_hour : Z := 3600000000.

(** [int(time.time() * 1000)]. *)
Definition time_millis : M Z :=
  w <- get_world ;;
  modify (set_clock (S (w_clock w))) ;;;
  ret (e_time_ms (w_env w) (w_clock w)).

(** [supabase.auth.sign_in_with_password({...})] with the bot's credentials. *)
Definition sign_in_with_password : M (option AuthResponse) :=
  w <- get_world ;;
  modify (set_logins (S (w_logins w))) ;;;
  log_event EvLogin ;;;
  of_sdk (e_login (w_env w) (w_logins w)).

(** The start of every database call: record it, then learn whether the
    database raises. *)
Definition db_call (ev : event) : M unit :=
  w <- get_world ;;
  modify (set_db_calls (S (w_db_calls w))) ;;;
  log_event ev ;;;
  of_fault (e_db_fault (w_env w) (w_db_calls w)).

(** The filter [.eq(col, v)]: the rows whose column [col] equals [v]. *)
Definition row_matches (col : string) (v : json) (r : row) : bool :=
  match dict_lookup col r with
  | Some cell => json_eqb cell v
  | None => false
  end.

(** [client.table(t).insert(r).execute()]; [.data] is the inserted rows. *)
Definition table_insert (t : table) (r : row) : M (list row) :=
  db_call (EvDbInsert t r) ;;;
  modify (fun w => set_table t (get_table t w ++ [r]) w) ;;;
  ret [r].

(** [client.table(t).select(proj).eq(col, v).execute()]; [.data] is the
    matching rows, projected on the column [proj]. *)
Definition project (proj : string) (r : row) : row :=
  match dict_lookup proj r with
  | Some v => [(proj, v)]
  | None => []
  end.

Definition table_select_eq (t : table) (proj col : string) (v : json) : M (list row) :=
  db_call (EvDbSelect t col v) ;;;
  w <- get_world ;;
  ret (map (project proj) (filter (row_matches col v) (get_table t w))).

(** [client.table(t).update(changes).eq(col, v).execute()]; [.data] is the
    rows that were updated, as they are after the update. *)
Definition update_rows (changes : dict) (col : string) (v : json) (rows : list row) : list row :=
  map (fun r => if row_matches col v r then dict_update changes r else r) rows.

Definition table_update_eq (t : table) (changes : dict) (col : string) (v : json) : M (list row) :=
  db_call (EvDbUpdate t changes col v) ;;;
  w <- get_world ;;
  let hit := filter (row_matches col v) (get_table t w) in
  modify (fun w => set_table t (update_rows changes col v (get_table t w)) w) ;;;
  ret (map (dict_update changes) hit).

(** [s3_client.delete_object(Bucket=bucket, Key=key)]. *)
Definition s3_delete_object (bucket : option string) (key : string) : M unit :=
  w <- get_world ;;
  modify (set_s3_calls (S (w_s3_calls w))) ;;;
  log_event (EvS3Delete bucket key) ;;;
  of_fault (e_s3_fault (w_env w) (w_s3_calls w)) ;;;
  modify (fun w => set_bucket (filter (fun k => negb (String.eqb k key)) (w_bucket w)) w).

(** [s3_client.generate_presigned_url('put_object', Params={...},
    ExpiresIn=300)]: computed locally from the credentials. *)
Definition generate_presigned_url (bucket : option string) (key : string)
    (content_type : json) : M string :=
  w <- get_world ;;
  of_sdk (e_presign (w_env w) (w_clock w) bucket key content_type).

(* ===================================================================== *)
(** * Code shared by the two route files                                   *)
(* ===================================================================== *)

Record response : Type := { status : Z; body : json }.

(** [jsonify({...}), code]. *)
Definition jsonify (o : dict) (code : Z) : response := {| status := code; body := JObj o |}.

Definition failure (msg : string) (code : Z) : response :=
  jsonify [("success", JBool false); ("error", JStr msg)] code.

(** The bucket's public-URL prefix, [f'{s3_bucket}.s3.amazonaws.com/']. *)
Definition bucket_prefix (bucket : option string) : string :=
  py_str_opt bucket ++ ".s3.amazonaws.com/".

(** The body of the inner [try] of [delete_media_from_storage]. *)
Definition delete_one (bucket : option string) (media_url : json) : M unit :=
  found <- py_in (bucket_prefix bucket) media_url ;;
  if found then
    parts <- py_split_method media_url (bucket_prefix bucket) ;;
    match nth_error parts 1 with
    | Some s3_key => s3_delete_object bucket s3_key
    | None => raise (IndexError "list index out of range")
    end
  else ret tt.

(** The [for media_url in media_urls] loop, each round in its own
    [try ... except Exception]. *)
Fixpoint delete_each (bucket : option string) (media_urls : list json) : M unit :=
  match media_urls with
  | [] => ret tt
  | media_url :: rest =>
      try_except (delete_one bucket media_url) (fun _ => ret tt) ;;;
      delete_each bucket rest
  end.

(** [file_name.split('.')[-1]]. *)
Definition file_ext_of (file_name : json) : M string :=
  parts <- py_split_method file_name "." ;;
  ret (List.last parts "").

(** [f"{folder}/{user_id}/{timestamp}.{file_ext}"]. *)
Definition upload_s3_key (folder user_id : string) (timestamp : Z) (file_ext : string) : string :=
  folder ++ "/" ++ user_id ++ "/" ++ py_str_int timestamp ++ "." ++ file_ext.

(** [f"avatars/{user_id}/avatar.{file_ext}"]. *)
Definition avatar_s3_key (user_id file_ext : string) : string :=
  "avatars/" ++ user_id ++ "/avatar." ++ file_ext.

(** ['post-images' if file_type == 'image' else 'post-videos']. *)
Definition folder_of (file_type : json) : string :=
  if json_eqb file_type (JStr "image") then "post-images" else "post-videos".

(** [f"https://{bucket}.s3.amazonaws.com/{s3_key}"]. *)
Definition public_url_of (bucket : option string) (s3_key : string) : string :=
  "https://" ++ py_str_opt bucket ++ ".s3.amazonaws.com/" ++ s3_key.

Definition upload_response (presigned_url public_url s3_key : string) : response :=
  jsonify [("upload_url", JStr presigned_url);
           ("public_url", JStr public_url);
           ("s3_key", JStr s3_key)] 200.

Definition error_only (msg : string) (code : Z) : response :=
  jsonify [("error", JStr msg)] code.

Definition rows_json (rows : list row) : json := JList (map JObj rows).

(** [self.token and ...]: a token counts as cached when it is a non-empty
    string. *)
Definition token_truthy (t : option string) : bool :=
  match t with
  | Some s => negb (String.eqb s "")
  | None => false
  end.

Definition json_of_opt (x : option string) : json :=
  match x with
  | Some s => JStr s
  | None => JNull
  end.

Definition with_token (t : option string) (a : AuthManager) : AuthManager :=
  {| token := t; user_id := user_id a; expires_at := expires_at a |}.
Definition with_user_id (u : option string) (a : AuthManager) : AuthManager :=
  {| token := token a; user_id := u; expires_at := expires_at a |}.
Definition with_expires_at (e : option Z) (a : AuthManager) : AuthManager :=
  {| token := token a; user_id := user_id a; expires_at := e |}.

(** [AuthManager.__init__]. *)
Definition new_auth_manager : AuthManager :=
  {| token := None; user_id := None; expires_at := None |}.

(** The part of [get_token] after the cache test: ask the identity
    provider, then assign the three attributes one after the other.
    [client] is how the route file reaches its Supabase client. *)
Definition login_and_refresh (client : M unit) : M (option string) :=
  client ;;;
  auth <- sign_in_with_password ;;
  match auth with
  | None => raise (Exception "Bot login failed")
  | Some a =>
      match session a with
      | None => raise (Exception "Bot login failed")
      | Some s =>
          modify (fun w => set_auth (with_token (Some (access_token s)) (w_auth w)) w) ;;;
          uid <- match user a with
                 | Some u => ret (id u)
                 | None => raise (AttributeError "'NoneType' object has no attribute 'id'")
                 end ;;
          modify (fun w => set_auth (with_user_id (Some uid) (w_auth w)) w) ;;;
          now <- datetime_now ;;
          modify (fun w => set_auth (with_expires_at (Some (now + one_hour)%Z) (w_auth w)) w) ;;;
          w <- get_world ;;
          ret (token (w_auth w))
      end
  end.

(** The columns of a post record, in the order of the dict literal of
    [accept_twitter_post]. *)
Definition post_columns : list string :=
  ["user_id"; "content"; "post_type"; "media_url"; "twitter_unique_id";
   "twitter_username"; "source"; "location"; "link_preview"].

(** [{c: post[c] for c in columns}], evaluated left to right. *)
Fixpoint copy_columns (columns : list string) (post : dict) : M dict :=
  match columns with
  | [] => ret []
  | c :: rest =>
      v <- py_getitem post c ;;
      d <- copy_columns rest post ;;
      ret ((c, v) :: d)
  end.

(** The [except Exception as e:] block of the two post-ingestion handlers,
    the same text in both files: clean up the media of the original
    request, then answer 500.  [cleanup] is the file's
    [delete_media_from_storage]. *)
Definition ingestion_except (cleanup : json -> M unit) (request_json : json)
    (e : exn) : M response :=
  media_urls <- (if py_truthy request_json
                 then py_get request_json "media_url" (JList [])
                 else ret (JList [])) ;;
  (if py_truthy media_urls
   then (_ <- py_len media_urls ;; cleanup media_urls)
   else ret tt) ;;;
  ret (failure (str_exn e) 500).

(** The three presence checks of the post-ingestion handlers; [k] is what
    the handler does once they pass. *)
Definition validate_post (data : json) (k : M response) : M response :=
  if negb (py_truthy data) then ret (failure "No data provided" 400) else
  content <- py_get data "content" JNull ;;
  if negb (py_truthy content) then ret (failure "content is required" 400) else
  twitter_unique_id <- py_get data "twitter_unique_id" JNull ;;
  if negb (py_truthy twitter_unique_id)
  then ret (failure "twitter_unique_id is required" 400)
  else k.

(** From [media_urls = data.get("media_url", [])] to the [return ..., 201]:
    the insert of [post_data] into table [t]. *)
Definition insert_post (t : table) (data : json) (post_data : dict) : M response :=
  media_urls <- py_get data "media_url" (JList []) ;;
  (if py_truthy media_urls then (_ <- py_len media_urls ;; ret tt) else ret tt) ;;;
  rows <- table_insert t post_data ;;
  ret (jsonify [("success", JBool true);
                ("data", rows_json rows);
                ("message", JStr "Post created successfully")] 201).

(* ===================================================================== *)
(** * src/api/index.py                                                     *)
(* ===================================================================== *)

Module Index.

Definition DEFAULT_BOT_USER_ID : string := "bdb9c10d-1127-476e-8b71-18acecc74824".

(** The three lazily built clients: built on first use, kept afterwards.
    Building a client contacts nobody. *)
Definition get_supabase : M unit :=
  w <- get_world ;;
  if w_supabase w then ret tt
  else modify (set_supabase true).

Definition get_supabase_admin : M unit :=
  w <- get_world ;;
  if w_supabase_admin w then ret tt
  else modify (set_supabase_admin true).

Definition get_s3_client : M unit :=
  w <- get_world ;;
  if w_s3_client w then ret tt
  else modify (set_s3_client true).

Definition get_s3_bucket : M (option string) :=
  w <- get_world ;;
  ret (e_bucket (w_env w)).

(** [AuthManager.get_token]:
    [if self.token and self.expires_at and datetime.now() < self.expires_at]. *)
Definition get_token : M (option string) :=
  w <- get_world ;;
  let self := w_auth w in
  cached <- (if token_truthy (token self) then
               match expires_at self with
               | Some e => now <- datetime_now ;; ret (now <? e)%Z
               | None => ret false
               end
             else ret false) ;;
  if cached then ret (token self)
  else login_and_refresh get_supabase.

Definition get_user_id : M (option string) :=
  get_token ;;;
  w <- get_world ;;
  ret (user_id (w_auth w)).

Definition delete_media_from_storage (media_urls : json) : M unit :=
  if negb (py_truthy media_urls) then ret tt else
  try_except
    (get_s3_client ;;;
     s3_bucket <- get_s3_bucket ;;
     _ <- py_len media_urls ;;
     urls <- py_iter media_urls ;;
     delete_each s3_bucket urls)
    (fun _ => ret tt).

(** [/api/get-upload-url]; [fmt] is Python's [str()], applied by the
    f-string to [user_id]. *)
Definition get_upload_url (fmt : json -> string) (request_json : json) : M response :=
  try_except
    (let data := request_json in
     user_id <- py_get data "user_id" JNull ;;
     file_type <- py_get data "file_type" JNull ;;
     file_name <- py_get data "file_name" JNull ;;
     content_type <- py_get data "content_type" JNull ;;
     if negb (forallb py_truthy [user_id; file_type; file_name; content_type])
     then ret (error_only "Missing required fields" 400) else
     get_s3_client ;;;
     s3_bucket <- get_s3_bucket ;;
     timestamp <- time_millis ;;
     file_ext <- file_ext_of file_name ;;
     let s3_key := upload_s3_key (folder_of file_type) (fmt user_id) timestamp file_ext in
     presigned_url <- generate_presigned_url s3_bucket s3_key content_type ;;
     ret (upload_response presigned_url (public_url_of s3_bucket s3_key) s3_key))
    (fun e => ret (error_only (str_exn e) 500)).

(** [/api/get-avatar-upload-url]. *)
Definition get_avatar_upload_url (fmt : json -> string) (request_json : json) : M response :=
  try_except
    (let data := request_json in
     user_id <- py_get data "user_id" JNull ;;
     file_name <- py_get data "file_name" JNull ;;
     content_type <- py_get data "content_type" JNull ;;
     if negb (forallb py_truthy [user_id; file_name; content_type])
     then ret (error_only "Missing required fields" 400) else
     get_s3_client ;;;
     s3_bucket <- get_s3_bucket ;;
     file_ext <- file_ext_of file_name ;;
     let s3_key := avatar_s3_key (fmt user_id) file_ext in
     presigned_url <- generate_presigned_url s3_bucket s3_key content_type ;;
     ret (upload_response presigned_url (public_url_of s3_bucket s3_key) s3_key))
    (fun e => ret (error_only (str_exn e) 500)).

(** The head of [create_post_by_bot], before [data = request.json]. *)
Definition acquire_identity : M (option string) :=
  token <- get_token ;;
  user_id <- get_user_id ;;
  get_supabase ;;;
  modify (set_postgrest_token (Some token)) ;;;
  ret user_id.

(** [/botposts]: the [try] block of [create_post_by_bot]. *)
Definition create_post_by_bot_try (request_json : json) : M response :=
  user_id <- acquire_identity ;;
  let data := request_json in
  validate_post data
    (content <- py_get data "content" JNull ;;
     post_type <- py_get data "post_type" (JStr "text") ;;
     media_url <- py_get data "media_url" JNull ;;
     twitter_unique_id <- py_get data "twitter_unique_id" JNull ;;
     twitter_username <- py_get data "twitter_username" JNull ;;
     source <- py_get data "source" (JStr "twitter") ;;
     location <- py_get data "location" JNull ;;
     link_preview <- py_get data "link_preview" JNull ;;
     let post_data :=
       [("user_id", json_of_opt user_id);
        ("content", content);
        ("post_type", post_type);
        ("media_url", media_url);
        ("twitter_unique_id", twitter_unique_id);
        ("twitter_username", twitter_username);
        ("source", source);
        ("location", location);
        ("link_preview", link_preview)] in
     insert_post posts data post_data).

(** The handler: its [try] block, and the [except Exception] block. *)
Definition create_post_by_bot (request_json : json) : M response :=
  try_except
    (create_post_by_bot_try request_json)
    (ingestion_except delete_media_from_storage request_json).

(** The [if twitter_username: ... else: ...] of the approval variant:
    whose post this is. *)
Definition resolve_user_id (twitter_username : json) : M json :=
  if py_truthy twitter_username then
    try_except
      (mapping <- table_select_eq twitter_id_map "user_id" "username" twitter_username ;;
       match mapping with
       | first :: _ => py_getitem first "user_id"
       | [] => ret (JStr DEFAULT_BOT_USER_ID)
       end)
      (fun _ => ret (JStr DEFAULT_BOT_USER_ID))
  else ret (JStr DEFAULT_BOT_USER_ID).

(** [/pendingbotposts]: the [try] block of
    [create_post_by_bot_for_approval]. *)
Definition create_post_by_bot_for_approval_try (request_json : json) : M response :=
  let data := request_json in
  validate_post data
    (twitter_username <- py_get data "twitter_username" JNull ;;
     get_supabase_admin ;;;
     user_id <- resolve_user_id twitter_username ;;
     content <- py_get data "content" JNull ;;
     post_type <- py_get data "post_type" (JStr "text") ;;
     media_url <- py_get data "media_url" JNull ;;
     twitter_unique_id <- py_get data "twitter_unique_id" JNull ;;
     source <- py_get data "source" (JStr "twitter") ;;
     location <- py_get data "location" JNull ;;
     link_preview <- py_get data "link_preview" JNull ;;
     let post_data :=
       [("user_id", user_id);
        ("content", content);
        ("post_type", post_type);
        ("media_url", media_url);
        ("twitter_unique_id", twitter_unique_id);
        ("twitter_username", twitter_username);
        ("source", source);
        ("location", location);
        ("link_preview", link_preview)] in
     insert_post twitter_posts data post_data).

(** The handler: its [try] block, and the [except Exception] block. *)
Definition create_post_by_bot_for_approval (request_json : json) : M response :=
  try_except
    (create_post_by_bot_for_approval_try request_json)
    (ingestion_except delete_media_from_storage request_json).

(** [/admin/accept-twitter-post]. *)
Definition accept_twitter_post (request_json : json) : M response :=
  try_except
    (let data := request_json in
     missing <- (if negb (py_truthy data) then ret true
                 else v <- py_get data "twitter_unique_id" JNull ;;
                      ret (negb (py_truthy v))) ;;
     if missing then ret (failure "twitter_unique_id is required" 400) else
     twitter_unique_id <- py_get data "twitter_unique_id" JNull ;;
     get_supabase_admin ;;;
     updated <- table_update_eq twitter_posts [("status", JStr "accepted")]
                  "twitter_unique_id" twitter_unique_id ;;
     match updated with
     | [] => ret (failure "Twitter post not found" 404)
     | post :: _ =>
         post_data <- copy_columns post_columns post ;;
         rows <- table_insert posts post_data ;;
         ret (jsonify [("success", JBool true);
                       ("data", rows_json rows);
                       ("message", JStr "Post accepted and published successfully")] 200)
     end)
    (fun e => ret (failure (str_exn e) 500)).

(** [/delete-media]. *)
Definition delete_media (request_json : json) : M response :=
  try_except
    (let data := request_json in
     media_urls <- py_get data "media_urls" (JList []) ;;
     if negb (py_truthy media_urls)
     then ret (failure "No media URLs provided" 400) else
     _ <- py_len media_urls ;;
     delete_media_from_storage media_urls ;;;
     n <- py_len media_urls ;;
     ret (jsonify [("success", JBool true);
                   ("message", JStr ("Deleted " ++ py_str_int (Z.of_nat n)
                                     ++ " media files"))] 200))
    (fun e => ret (failure (str_exn e) 500)).

(** [/api/delete-user].  [admin_delete_user] is the SDK call
    [supabase_admin.auth.admin.delete_user(user_id)], whose effect lies
    outside the tables, the bucket and the credential cache. *)
Definition delete_user (admin_delete_user : json -> M unit) (request_json : json)
    : M response :=
  try_except
    (let data := request_json in
     if negb (py_truthy data) then ret (failure "No data provided" 400) else
     user_id <- py_get data "user_id" JNull ;;
     if negb (py_truthy user_id) then ret (failure "user_id is required" 400) else
     get_supabase_admin ;;;
     admin_delete_user user_id ;;;
     ret (jsonify [("success", JBool true);
                   ("message", JStr "User deleted successfully")] 200))
    (fun e => ret (failure (str_exn e) 500)).

End Index.

(* ===================================================================== *)
(** * src/endpoints.py                                                     *)
(* ===================================================================== *)

Module Endpoints.

(** [AuthManager.get_token]:
    [if self.token and datetime.now() < self.expires_at].  The clock is
    read before the comparison, and comparing a datetime with [None]
    raises. *)
Definition get_token : M (option string) :=
  w <- get_world ;;
  let self := w_auth w in
  cached <- (if token_truthy (token self) then
               now <- datetime_now ;;
               match expires_at self with
               | Some e => ret (now <? e)%Z
               | None => raise (TypeError "'<' not supported between instances of 'datetime.datetime' and 'NoneType'")
               end
             else ret false) ;;
  if cached then ret (token self)
  else login_and_refresh (ret tt).

Definition get_user_id : M (option string) :=
  get_token ;;;
  w <- get_world ;;
  ret (user_id (w_auth w)).

(** [S3_BUCKET], read from the configuration when the module is loaded. *)
Definition S3_BUCKET : M (option string) :=
  w <- get_world ;;
  ret (e_bucket (w_env w)).

Definition delete_media_from_storage (media_urls : json) : M unit :=
  if negb (py_truthy media_urls) then ret tt else
  try_except
    (_ <- py_len media_urls ;;
     urls <- py_iter media_urls ;;
     s3_bucket <- S3_BUCKET ;;
     delete_each s3_bucket urls)
    (fun _ => ret tt).

(** [data = request.json or {}]. *)
Definition json_or_empty (request_json : json) : json :=
  if py_truthy request_json then request_json else JObj [].

(** [/api/get-upload-url]. *)
Definition get_upload_url (fmt : json -> string) (request_json : json) : M response :=
  try_except
    (let data := json_or_empty request_json in
     user_id <- py_get data "user_id" JNull ;;
     file_type <- py_get data "file_type" JNull ;;
     file_name <- py_get data "file_name" JNull ;;
     content_type <- py_get data "content_type" JNull ;;
     if negb (forallb py_truthy [user_id; file_type; file_name; content_type])
     then ret (error_only "Missing required fields" 400) else
     timestamp <- time_millis ;;
     file_ext <- file_ext_of file_name ;;
     s3_bucket <- S3_BUCKET ;;
     let s3_key := upload_s3_key (folder_of file_type) (fmt user_id) timestamp file_ext in
     presigned_url <- generate_presigned_url s3_bucket s3_key content_type ;;
     ret (upload_response presigned_url (public_url_of s3_bucket s3_key) s3_key))
    (fun e => ret (error_only (str_exn e) 500)).

(** [/api/get-avatar-upload-url]. *)
Definition get_avatar_upload_url (fmt : json -> string) (request_json : json) : M response :=
  try_except
    (let data := json_or_empty request_json in
     user_id <- py_get data "user_id" JNull ;;
     file_name <- py_get data "file_name" JNull ;;
     content_type <- py_get data "content_type" JNull ;;
     if negb (forallb py_truthy [user_id; file_name; content_type])
     then ret (error_only "Missing required fields" 400) else
     file_ext <- file_ext_of file_name ;;
     s3_bucket <- S3_BUCKET ;;
     let s3_key := avatar_s3_key (fmt user_id) file_ext in
     presigned_url <- generate_presigned_url s3_bucket s3_key content_type ;;
     ret (upload_response presigned_url (public_url_of s3_bucket s3_key) s3_key))
    (fun e => ret (error_only (str_exn e) 500)).

(** The head of both post-ingestion handlers, before
    [data = request.json]. *)
Definition acquire_identity : M (option string) :=
  token <- get_token ;;
  user_id <- get_user_id ;;
  modify (set_postgrest_token (Some token)) ;;;
  ret user_id.

(** The dict literal [post_data] of this file: no [link_preview]. *)
Definition build_post_data (user_id : option string) (data : json) : M dict :=
  content <- py_get data "content" JNull ;;
  post_type <- py_get data "post_type" (JStr "text") ;;
  media_url <- py_get data "media_url" JNull ;;
  twitter_unique_id <- py_get data "twitter_unique_id" JNull ;;
  twitter_username <- py_get data "twitter_username" JNull ;;
  source <- py_get data "source" (JStr "twitter") ;;
  location <- py_get data "location" JNull ;;
  ret [("user_id", json_of_opt user_id);
       ("content", content);
       ("post_type", post_type);
       ("media_url", media_url);
       ("twitter_unique_id", twitter_unique_id);
       ("twitter_username", twitter_username);
       ("source", source);
       ("location", location)].

(** [/botposts]: the [try] block of [create_post_by_bot]. *)
Definition create_post_by_bot_try (request_json : json) : M response :=
  user_id <- acquire_identity ;;
  let data := request_json in
  validate_post data
    (post_data <- build_post_data user_id data ;;
     insert_post posts data post_data).

(** The handler: its [try] block, and the [except Exception] block. *)
Definition create_post_by_bot (request_json : json) : M response :=
  try_except
    (create_post_by_bot_try request_json)
    (ingestion_except delete_media_from_storage request_json).

(** [/pendingbotposts]: the [try] block of
    [create_post_by_bot_for_approval], the same as that of [/botposts] but
    for the table [twitter_posts]. *)
Definition create_post_by_bot_for_approval_try (request_json : json) : M response :=
  user_id <- acquire_identity ;;
  let data := request_json in
  validate_post data
    (post_data <- build_post_data user_id data ;;
     insert_post twitter_posts data post_data).

(** The handler: its [try] block, and the [except Exception] block. *)
Definition create_post_by_bot_for_approval (request_json : json) : M response :=
  try_except
    (create_post_by_bot_for_approval_try request_json)
    (ingestion_except delete_media_from_storage request_json).

(** [/delete-media]. *)
Definition delete_media (request_json : json) : M response :=
  try_except
    (let data := json_or_empty request_json in
     media_urls <- py_get data "media_urls" (JList []) ;;
     if negb (py_truthy media_urls)
     then ret (failure "No media URLs provided" 400) else
     _ <- py_len media_urls ;;
     delete_media_from_storage media_urls ;;;
     n <- py_len media_urls ;;
     ret (jsonify [("success", JBool true);
                   ("message", JStr ("Deleted " ++ py_str_int (Z.of_nat n)
                                     ++ " media files"))] 200))
    (fun e => ret (failure (str_exn e) 500)).

End Endpoints.

(* ===================================================================== *)
(** * Concrete environments and requests used by the examples              *)
(* ===================================================================== *)

Module Sample.

Definition alice_auth : AuthResponse :=
  {| session := Some {| access_token := "tok-1" |};
     user := Some {| id := "bot-7" |} |}.

(** Everything works: logins succeed, nothing raises, the clock advances
    by one second per reading. *)
Definition calm : env :=
  {| e_bucket := Some "media";
     e_now := fun n => (1000000 * Z.of_nat n)%Z;
     e_time_ms := fun n => (1700000000000 + Z.of_nat n)%Z;
     e_login := fun _ => Returned (Some alice_auth);
     e_db_fault := fun _ => None;
     e_s3_fault := fun _ => None;
     e_presign := fun _ _ key _ => Returned ("https://signed/" ++ key)%string |}.

(** As [calm], but every database call raises. *)
Definition db_down : env :=
  {| e_bucket := Some "media";
     e_now := e_now calm;
     e_time_ms := e_time_ms calm;
     e_login := e_login calm;
     e_db_fault := fun _ => Some (Exception "connection refused");
     e_s3_fault := fun _ => None;
     e_presign := e_presign calm |}.

(** As [calm], but the first database call of the process raises. *)
Definition first_db_call_fails : env :=
  {| e_bucket := Some "media";
     e_now := e_now calm;
     e_time_ms := e_time_ms calm;
     e_login := e_login calm;
     e_db_fault := fun n => match n with
                            | O => Some (Exception "statement timeout")
                            | S _ => None
                            end;
     e_s3_fault := fun _ => None;
     e_presign := e_presign calm |}.

(** As [calm], but the identity provider answers without a session. *)
Definition no_session : env :=
  {| e_bucket := Some "media";
     e_now := e_now calm;
     e_time_ms := e_time_ms calm;
     e_login := fun _ => Returned (Some {| session := None; user := None |});
     e_db_fault := fun _ => None;
     e_s3_fault := fun _ => None;
     e_presign := e_presign calm |}.

(** As [calm], but every [delete_object] raises. *)
Definition s3_down : env :=
  {| e_bucket := Some "media";
     e_now := e_now calm;
     e_time_ms := e_time_ms calm;
     e_login := e_login calm;
     e_db_fault := fun _ => None;
     e_s3_fault := fun _ => Some (Exception "AccessDenied");
     e_presign := e_presign calm |}.

(** A freshly started process in environment [E]. *)
Definition boot (E : env) : world :=
  {| w_env := E; w_clock := 0; w_logins := 0; w_db_calls := 0; w_s3_calls := 0;
     w_auth := new_auth_manager;
     w_supabase := false; w_supabase_admin := false; w_s3_client := false;
     w_postgrest_token := None;
     w_posts := []; w_twitter_posts := []; w_twitter_id_map := [];
     w_bucket := ["post-images/u1/1.png"; "post-images/u1/2.png"];
     w_trace := [] |}.

Definition url1 : string := "https://media.s3.amazonaws.com/post-images/u1/1.png".
Definition url2 : string := "https://media.s3.amazonaws.com/post-images/u1/2.png".

Definition good_post_fields : dict :=
  [("content", JStr "hello"); ("twitter_unique_id", JStr "t1");
   ("media_url", JList [JStr url1; JStr url2])].

Definition good_post : json := JObj good_post_fields.

(** A complete request without media. *)
Definition text_post_fields : dict :=
  [("content", JStr "hello"); ("twitter_unique_id", JStr "t1")].

(** No [content]; the media of the request were already uploaded. *)
Definition no_content : json :=
  JObj [("twitter_unique_id", JStr "t1"); ("media_url", JList [JStr url1])].

(** The process after a first, successful [get_token]. *)
Definition logged_in : world := snd (Index.get_token (boot calm)).

Definition pending_row : row :=
  [("user_id", JStr "u9"); ("content", JStr "hi"); ("post_type", JStr "text");
   ("media_url", JNull); ("twitter_unique_id", JStr "t2");
   ("twitter_username", JStr "someone"); ("source", JStr "twitter");
   ("location", JNull); ("link_preview", JNull); ("status", JStr "pending")].

Definition avatar_request (file_name content_type : string) : dict :=
  [("user_id", JStr "u1"); ("file_name", JStr file_name);
   ("content_type", JStr content_type)].

Definition upload_request (file_name : string) : dict :=
  [("user_id", JStr "u1"); ("file_type", JStr "image");
   ("file_name", JStr file_name); ("content_type", JStr "image/png")].

(** The answer that carries storage key [k]. *)
Definition answer (k : string) : response :=
  upload_response ("https://signed/" ++ k) (public_url_of (Some "media") k) k.

(** [w], after the clock has been read [n] times. *)
Definition later (n : nat) (w : world) : world := set_clock n w.

(** A pending post by the Twitter user [someone], whom the mapping table
    knows as [u9]. *)
Definition post_by_someone : dict :=
  [("content", JStr "hi"); ("twitter_unique_id", JStr "t2");
   ("twitter_username", JStr "someone")].

Definition mapping_row : row := [("username", JStr "someone"); ("user_id", JStr "u9")].

Definition with_pending (rows : list row) (w : world) : world :=
  set_table twitter_posts rows w.

Definition with_mapping (rows : list row) (w : world) : world :=
  set_table twitter_id_map rows w.

(** As [calm], but the identity provider answers with a session and no
    user. *)
Definition no_user : env :=
  {| e_bucket := Some "media";
     e_now := e_now calm;
     e_time_ms := e_time_ms calm;
     e_login := fun _ => Returned (Some {| session := Some {| access_token := "tok-1" |};
                                           user := None |});
     e_db_fault := fun _ => None;
     e_s3_fault := fun _ => None;
     e_presign := e_presign calm |}.

(** As [calm], but the second database call of the process raises. *)
Definition second_db_call_fails : env :=
  {| e_bucket := Some "media";
     e_now := e_now calm;
     e_time_ms := e_time_ms calm;
     e_login := e_login calm;
     e_db_fault := fun n => match n with
                            | 1 => Some (Exception "duplicate key")
                            | _ => None
                            end;
     e_s3_fault := fun _ => None;
     e_presign := e_presign calm |}.

(** An SDK call that deletes the user, and one that is refused. *)
Definition admin_ok (user_id : json) : M unit := ret tt.
Definition admin_refused (user_id : json) : M unit := raise (Exception "User not found").

End Sample.

(* ===================================================================== *)
(** * Vocabulary of the properties                                         *)
(* ===================================================================== *)

(** The [s3_key] entry of an upload response. *)
Definition response_s3_key (r : response) : option json :=
  match body r with
  | JObj b => dict_lookup "s3_key" b
  | _ => None
  end.

(** The extension of a file name: what follows its last dot. *)
Definition extension (file_name : string) : string :=
  List.last (py_split "." file_name) "".

(** The two route files' versions of a handler. *)
Definition avatar_upload_handler (h : (json -> string) -> json -> M response) : Prop :=
  h = Index.get_avatar_upload_url \/ h = Endpoints.get_avatar_upload_url.

Definition upload_handler (h : (json -> string) -> json -> M response) : Prop :=
  h = Index.get_upload_url \/ h = Endpoints.get_upload_url.

(** The epoch-millisecond timestamp a request handled in world [w] gets:
    the next reading of the clock. *)
Definition timestamp_at (w : world) : Z := e_time_ms (w_env w) (w_clock w).

(** The two route files' [AuthManager.get_token]. *)
Definition token_getter (g : M (option string)) : Prop :=
  g = Index.get_token \/ g = Endpoints.get_token.

(** A cached token exists and the clock, read now, is before the stored
    expiry. *)
Definition cache_fresh (w : world) : bool :=
  token_truthy (token (w_auth w)) &&
  match expires_at (w_auth w) with
  | Some e => (e_now (w_env w) (w_clock w) <? e)%Z
  | None => false
  end.

(** No cached token, or the clock, read now, has reached the stored
    expiry. *)
Definition cache_stale (w : world) : bool :=
  negb (token_truthy (token (w_auth w))) ||
  match expires_at (w_auth w) with
  | Some e => negb (e_now (w_env w) (w_clock w) <? e)%Z
  | None => false
  end.

(** What the identity provider answers to the next login. *)
Definition next_login (w : world) : sdk_result (option AuthResponse) :=
  e_login (w_env w) (w_logins w).

(** The next login returns, but without a session. *)
Definition login_without_session (w : world) : bool :=
  match next_login w with
  | Returned None => true
  | Returned (Some a) =>
      match session a with
      | None => true
      | Some _ => false
      end
  | Raised _ => false
  end.

(** The last reading of the clock made before the world became [w]. *)
Definition last_reading (w : world) : Z := e_now (w_env w) (Nat.pred (w_clock w)).

(** Time does not run backwards. *)
Definition clock_monotone (E : env) : Prop :=
  forall i j : nat, i <= j -> (e_now E i <= e_now E j)%Z.

(** The two route files' Media Cleanup. *)
Definition cleanup_function (f : json -> M unit) : Prop :=
  f = Index.delete_media_from_storage \/ f = Endpoints.delete_media_from_storage.

(** A URL is well formed for [bucket] when it contains the bucket's
    public-URL prefix; its storage key is then the second piece of the
    split at that prefix. *)
Definition well_formed_url (bucket : option string) (url : string) : bool :=
  py_contains (bucket_prefix bucket) url.

Definition storage_key (bucket : option string) (url : string) : string :=
  nth 1 (py_split (bucket_prefix bucket) url) "".

(** The [delete_object] calls Media Cleanup owes to a list of URLs: one
    per well-formed URL, in the order of the list. *)
Definition deletions (bucket : option string) (urls : list string) : list event :=
  map (fun url => EvS3Delete bucket (storage_key bucket url))
      (filter (well_formed_url bucket) urls).

(** The four Post Ingestion routes: the [try] block, the whole handler and
    the Media Cleanup of its file. *)
Inductive ingestion_route :
  (json -> M response) -> (json -> M response) -> (json -> M unit) -> Prop :=
| index_direct :
    ingestion_route Index.create_post_by_bot_try Index.create_post_by_bot
      Index.delete_media_from_storage
| index_pending :
    ingestion_route Index.create_post_by_bot_for_approval_try
      Index.create_post_by_bot_for_approval Index.delete_media_from_storage
| endpoints_direct :
    ingestion_route Endpoints.create_post_by_bot_try Endpoints.create_post_by_bot
      Endpoints.delete_media_from_storage
| endpoints_pending :
    ingestion_route Endpoints.create_post_by_bot_for_approval_try
      Endpoints.create_post_by_bot_for_approval Endpoints.delete_media_from_storage.

(** The request carries no media: [media_url] is absent, null or the empty
    list. *)
Definition no_media (o : dict) : Prop :=
  dict_lookup "media_url" o = None \/
  dict_lookup "media_url" o = Some JNull \/
  dict_lookup "media_url" o = Some (JList []).

(** [data.get(k)] on a dict. *)
Definition field (k : string) (o : dict) : json :=
  match dict_lookup k o with
  | Some v => v
  | None => JNull
  end.

(** What a Post Ingestion request lacks, as the validation error words it:
    a body that is missing (or empty), then [content], then
    [twitter_unique_id], each missing or empty.  [None] when nothing is
    missing (or when the body is not a JSON object). *)
Definition missing_item (data : json) : option string :=
  if negb (py_truthy data) then Some "No data provided"
  else match data with
       | JObj o =>
           if negb (py_truthy (field "content" o)) then Some "content is required"
           else if negb (py_truthy (field "twitter_unique_id" o))
                then Some "twitter_unique_id is required"
                else None
       | _ => None
       end.

(** The stored data a request could damage: the three tables and the
    bucket. *)
Definition same_data (w w' : world) : Prop :=
  w_posts w' = w_posts w /\
  w_twitter_posts w' = w_twitter_posts w /\
  w_twitter_id_map w' = w_twitter_id_map w /\
  w_bucket w' = w_bucket w.

(** From [w] to [w'] the process called nobody but the identity provider:
    no database call, no storage call, and the trace grew by logins only. *)
Definition only_logins (w w' : world) : Prop :=
  w_env w' = w_env w /\
  same_data w w' /\
  w_db_calls w' = w_db_calls w /\
  w_s3_calls w' = w_s3_calls w /\
  w_logins w <= w_logins w' /\
  w_trace w' = w_trace w ++ repeat EvLogin (w_logins w' - w_logins w).

(** C2 as the specification words it, for one handler: an incomplete
    request is answered 400 with the missing item named, and neither the
    tables nor the bucket change. *)
Definition rejects_without_effect (h : json -> M response) : Prop :=
  forall (data : json) (msg : string) (w : world),
    missing_item data = Some msg ->
    fst (h data w) = Ok (failure msg 400) /\ same_data w (snd (h data w)).

(** C3 as the specification words it, for one handler: when an incomplete
    request is answered 400, no call has left the process. *)
Definition rejects_before_any_io (h : json -> M response) : Prop :=
  forall (data : json) (msg : string) (w w' : world) (r : response),
    missing_item data = Some msg ->
    h data w = (Ok r, w') -> status r = 400%Z ->
    w_trace w' = w_trace w.

(** The three Post Ingestion routes that fetch the bot's token and user id
    before they look at the request: how they fetch it, and the handler. *)
Inductive token_first_route : M (option string) -> (json -> M response) -> Prop :=
| token_first_index_direct :
    token_first_route Index.acquire_identity Index.create_post_by_bot
| token_first_endpoints_direct :
    token_first_route Endpoints.acquire_identity Endpoints.create_post_by_bot
| token_first_endpoints_pending :
    token_first_route Endpoints.acquire_identity Endpoints.create_post_by_bot_for_approval.

(** The change Approval Transfer makes to a pending row. *)
Definition accepted : dict := [("status", JStr "accepted")].

(** The pending rows whose [twitter_unique_id] is [tuid]. *)
Definition pending_matches (tuid : json) (w : world) : list row :=
  filter (row_matches "twitter_unique_id" tuid) (w_twitter_posts w).

(** A row has all of the listed columns. *)
Definition has_columns (columns : list string) (r : row) : bool :=
  forallb (fun c => match dict_lookup c r with Some _ => true | None => false end)
          columns.

(** The post record made of the nine substantive fields of a row. *)
Definition copy_of (r : row) : dict :=
  map (fun c => (c, field c r)) post_columns.

(** The call Approval Transfer makes first, and the answer of a completed
    transfer. *)
Definition accept_update (tuid : json) : event :=
  EvDbUpdate twitter_posts accepted "twitter_unique_id" tuid.

Definition transferred (record : dict) : response :=
  jsonify [("success", JBool true);
           ("data", rows_json [record]);
           ("message", JStr "Post accepted and published successfully")] 200.

(** Whether the database raises at the next call, and at the one after. *)
Definition next_db_fault (w : world) : option exn := e_db_fault (w_env w) (w_db_calls w).
Definition second_db_fault (w : world) : option exn :=
  e_db_fault (w_env w) (S (w_db_calls w)).

(** The fixed default identity. *)
Definition default_identity : json := JStr Index.DEFAULT_BOT_USER_ID.

(** Whose post a pending post is, in the specification's words: with a
    [twitter_username] supplied, the [user_id] of the first row of the
    mapping table under that username; the default identity when no row
    matches, when the lookup raises, and when no username is supplied. *)
Definition mapped_user_id (twitter_username : json) (w : world) : json :=
  if py_truthy twitter_username then
    match next_db_fault w with
    | Some _ => default_identity
    | None =>
        match filter (row_matches "username" twitter_username) (w_twitter_id_map w) with
        | m :: _ =>
            match dict_lookup "user_id" m with
            | Some u => u
            | None => default_identity
            end
        | [] => default_identity
        end
    end
  else default_identity.

(** The lookup a supplied username costs. *)
Definition lookup_events (twitter_username : json) : list event :=
  if py_truthy twitter_username
  then [EvDbSelect twitter_id_map "username" twitter_username]
  else [].

(** C6 as the specification words it, for one handler of the pending
    variant: a request that is accepted (201) has looked the supplied
    username up and has put one record in the pending table, whose
    [user_id] is the mapped one. *)
Definition records_mapped_identity (h : json -> M response) : Prop :=
  forall (o : dict) (w w' : world) (r : response),
    h (JObj o) w = (Ok r, w') -> status r = 201%Z ->
    exists record : dict,
      dict_lookup "user_id" record
        = Some (mapped_user_id (field "twitter_username" o) w) /\
      w_twitter_posts w' = w_twitter_posts w ++ [record] /\
      w_trace w' =
        w_trace w ++ lookup_events (field "twitter_username" o)
                  ++ [EvDbInsert twitter_posts record].

(** A text without a dot, as a decimal numeral is. *)
Definition dotless (s : string) : Prop :=
  forall c, In c (list_ascii_of_string s) -> c <> "."%char.

(** A text without a slash, as the name of a bucket is. *)
Fixpoint slashless (s : string) : bool :=
  match s with
  | EmptyString => true
  | String c s' => negb (Ascii.eqb c "/") && slashless s'
  end.

(** No occurrence of [sep] starts inside [h] when [h] is followed by
    [tail]. *)
Fixpoint no_match_inside (sep h tail : string) : Prop :=
  match h with
  | EmptyString => True
  | String _ h' =>
      String.prefix sep (h ++ tail) = false /\ no_match_inside sep h' tail
  end.

(** The [public_url] entry of an upload response. *)
Definition response_public_url (r : response) : option json :=
  match body r with
  | JObj b => dict_lookup "public_url" b
  | _ => None
  end.

(** Any of the four handlers that issue an upload URL. *)
Definition issues_upload_url (h : (json -> string) -> json -> M response) : Prop :=
  upload_handler h \/ avatar_upload_handler h.

(** [data.get(k, default)] on a dict. *)
Definition field_or (k : string) (default : json) (o : dict) : json :=
  match dict_lookup k o with
  | Some v => v
  | None => default
  end.

(** The fields an upload request must carry, and whether a request
    carries them all, none of them empty. *)
Definition upload_fields : list string :=
  ["user_id"; "file_type"; "file_name"; "content_type"].
Definition avatar_fields : list string := ["user_id"; "file_name"; "content_type"].
Definition all_present (fields : list string) (o : dict) : bool :=
  forallb (fun k => py_truthy (field k o)) fields.

(** The two route files' [/delete-media], each with the Media Cleanup of
    its file. *)
Inductive delete_media_route : (json -> M response) -> (json -> M unit) -> Prop :=
| delete_media_index :
    delete_media_route Index.delete_media Index.delete_media_from_storage
| delete_media_endpoints :
    delete_media_route Endpoints.delete_media Endpoints.delete_media_from_storage.

(** The answer of [/delete-media] for [n] URLs. *)
Definition deleted (n : nat) : response :=
  jsonify [("success", JBool true);
           ("message", JStr ("Deleted " ++ py_str_int (Z.of_nat n) ++ " media files"))]
          200.

(** The request names nothing to delete: [media_urls] is absent, null or
    the empty list. *)
Definition no_media_urls (o : dict) : Prop :=
  dict_lookup "media_urls" o = None \/
  dict_lookup "media_urls" o = Some JNull \/
  dict_lookup "media_urls" o = Some (JList []).

(** The keys a list of URLs names. *)
Definition named_keys (bucket : option string) (urls : list string) : list string :=
  map (storage_key bucket) (filter (well_formed_url bucket) urls).

Definition is_delete (ev : event) : Prop :=
  exists bucket key, ev = EvS3Delete bucket key.

(** From [w] to [w'] nothing happened but [delete_object] calls: the
    tables, the credential cache and the counts of the other calls are
    what they were, and the bucket has gained no object. *)
Definition only_deletes (w w' : world) : Prop :=
  w_env w' = w_env w /\
  w_auth w' = w_auth w /\
  w_posts w' = w_posts w /\
  w_twitter_posts w' = w_twitter_posts w /\
  w_twitter_id_map w' = w_twitter_id_map w /\
  w_logins w' = w_logins w /\
  w_db_calls w' = w_db_calls w /\
  w_clock w' = w_clock w /\
  (forall k, In k (w_bucket w') -> In k (w_bucket w)) /\
  exists evs, w_trace w' = w_trace w ++ evs /\ Forall is_delete evs.

(** No [delete_object] call raises. *)
Definition storage_up (E : env) : Prop := forall n, e_s3_fault E n = None.

(** The record a post-ingestion handler assembles, up to [location]: the
    owner, then the fields of the request, [post_type] and [source] with
    their defaults. *)
Definition post_record (owner : json) (o : dict) : dict :=
  [("user_id", owner);
   ("content", field "content" o);
   ("post_type", field_or "post_type" (JStr "text") o);
   ("media_url", field "media_url" o);
   ("twitter_unique_id", field "twitter_unique_id" o);
   ("twitter_username", field "twitter_username" o);
   ("source", field_or "source" (JStr "twitter") o);
   ("location", field "location" o)].

(** The answer of an accepted post-ingestion request. *)
Definition created (record : dict) : response :=
  jsonify [("success", JBool true);
           ("data", rows_json [record]);
           ("message", JStr "Post created successfully")] 201.

(** The four ingestion handlers. *)
Definition ingestion_handler (h : json -> M response) : Prop :=
  h = Index.create_post_by_bot \/ h = Index.create_post_by_bot_for_approval \/
  h = Endpoints.create_post_by_bot \/ h = Endpoints.create_post_by_bot_for_approval.

(** A body that is not empty and is not a JSON object. *)
Definition not_an_object (data : json) : bool :=
  py_truthy data && match data with JObj _ => false | _ => true end.

(** The answer of a completed [/api/delete-user]. *)
Definition user_deleted : response :=
  jsonify [("success", JBool true); ("message", JStr "User deleted successfully")] 200.

(** The handlers whose [except] block only builds an answer. *)
Inductive answering_handler : (json -> M response) -> Prop :=
| answers_index_upload fmt : answering_handler (Index.get_upload_url fmt)
| answers_index_avatar fmt : answering_handler (Index.get_avatar_upload_url fmt)
| answers_index_delete_media : answering_handler Index.delete_media
| answers_index_delete_user call : answering_handler (Index.delete_user call)
| answers_index_accept : answering_handler Index.accept_twitter_post
| answers_endpoints_upload fmt : answering_handler (Endpoints.get_upload_url fmt)
| answers_endpoints_avatar fmt : answering_handler (Endpoints.get_avatar_upload_url fmt)
| answers_endpoints_delete_media : answering_handler Endpoints.delete_media.

(** The login answers with a session but without a user. *)
Definition session_without_user (w : world) (s : Session) : Prop :=
  next_login w = Returned (Some {| session := Some s; user := None |}).



(** The request's [media_url] is absent, null or a list: what the data
    model allows. *)
Definition media_listed (o : dict) : Prop :=
  no_media o \/ exists urls : list json, dict_lookup "media_url" o = Some (JList urls).

(** The record [/pendingbotposts] of [src/api/index.py] assembles for the
    request [o] received in the world [w]: that of [post_record] under the
    identity the mapping lookup gives, and [link_preview]. *)
Definition pending_record (o : dict) (w : world) : dict :=
  post_record (mapped_user_id (field "twitter_username" o) w) o
  ++ [("link_preview", field "link_preview" o)].

(** What the database does at the insert of a pending post received in the
    world [w]: the insert is the database call after the mapping lookup,
    when one is made, and the next call otherwise. *)
Definition pending_insert_fault (o : dict) (w : world) : option exn :=
  e_db_fault (w_env w)
    (w_db_calls w + List.length (lookup_events (field "twitter_username" o))).

(* ===================================================================== *)
(** * Strings: facts about [split], [in] and decimal numerals              *)
(* ===================================================================== *)

Lemma split_aux_nonempty (sep s : string) (skip : nat) (cur : string) :
  split_aux sep s skip cur <> [].
Proof.
  revert skip cur.
  induction s as [|c s IH]; intros skip cur; cbn [split_aux].
  - discriminate.
  - destruct skip as [|k].
    + destruct (String.prefix sep (String c s)); [discriminate | apply IH].
    + apply IH.
Qed.

(** A string that contains the separator splits into at least two pieces,
    so that [split(sep)[1]] is there. *)
Lemma split_aux_second (sep s cur : string) :
  py_contains sep s = true ->
  exists k, nth_error (split_aux sep s 0 cur) 1 = Some k.
Proof.
  revert cur.
  induction s as [|c s IH]; intros cur H.
  - discriminate.
  - cbn [py_contains] in H. cbn [split_aux].
    destruct (String.prefix sep (String c s)) eqn:Hp.
    + pose proof (split_aux_nonempty sep s (String.length sep - 1) "") as Hne.
      destruct (split_aux sep s (String.length sep - 1) "") as [|k rest];
        [contradiction | exists k; reflexivity].
    + simpl in H. apply IH. exact H.
Qed.

Lemma py_split_second (sep s : string) :
  py_contains sep s = true ->
  exists k, nth_error (py_split sep s) 1 = Some k.
Proof. apply split_aux_second. Qed.

Lemma dotless_uint (d : Decimal.uint) : dotless (NilEmpty.string_of_uint d).
Proof.
  induction d as [|d IH|d IH|d IH|d IH|d IH|d IH|d IH|d IH|d IH|d IH];
    intros c Hc; simpl in Hc;
    try contradiction;
    (destruct Hc as [Hc | Hc]; [subst c; intros E; discriminate E | exact (IH c Hc)]).
Qed.

Lemma dotless_py_str_int (n : Z) : dotless (py_str_int n).
Proof.
  unfold py_str_int.
  destruct (Z.to_int n) as [d | d]; simpl.
  - apply dotless_uint.
  - intros c [Hc | Hc]; [subst c; intros E; discriminate E | exact (dotless_uint d c Hc)].
Qed.

Lemma py_str_int_inj (n m : Z) : py_str_int n = py_str_int m -> n = m.
Proof.
  unfold py_str_int. intros H.
  assert (Hi : Z.to_int n = Z.to_int m).
  { pose proof (NilEmpty.isi (Z.to_int n)) as Hn.
    pose proof (NilEmpty.isi (Z.to_int m)) as Hm.
    rewrite H in Hn. congruence. }
  rewrite <- (DecimalZ.of_to n), <- (DecimalZ.of_to m), Hi. reflexivity.
Qed.

(** Two texts that agree up to and including their first dot have the same
    part before it. *)
Lemma before_dot_inj (a b x y : string) :
  dotless a -> dotless b ->
  (a ++ String "."%char x)%string = (b ++ String "."%char y)%string -> a = b.
Proof.
  revert b.
  induction a as [|c a IH]; intros b Ha Hb H.
  - destruct b as [|c' b]; [reflexivity|].
    simpl in H. injection H as Hc _.
    exfalso. apply (Hb c'); [left; reflexivity | congruence].
  - destruct b as [|c' b].
    + simpl in H. injection H as Hc _.
      exfalso. apply (Ha c); [left; reflexivity | congruence].
    + simpl in H. injection H as Hc Hrest. subst c'.
      f_equal. apply IH; [ | | exact Hrest].
      * intros d Hd. apply Ha. right. exact Hd.
      * intros d Hd. apply Hb. right. exact Hd.
Qed.

Lemma string_app_cancel_l (p x y : string) :
  (p ++ x)%string = (p ++ y)%string -> x = y.
Proof.
  induction p as [|c p IH]; simpl; intros H; [exact H|].
  injection H as H. apply IH. exact H.
Qed.

(** The timestamp can be read back from a general upload key once the
    folder and the user are known. *)
Lemma upload_s3_key_inj (folder uid : string) (t1 t2 : Z) (e1 e2 : string) :
  upload_s3_key folder uid t1 e1 = upload_s3_key folder uid t2 e2 -> t1 = t2.
Proof.
  unfold upload_s3_key. intros H.
  apply string_app_cancel_l in H.
  apply (string_app_cancel_l "/") in H.
  apply string_app_cancel_l in H.
  apply (string_app_cancel_l "/") in H.
  apply py_str_int_inj.
  apply (before_dot_inj _ _ e1 e2); try apply dotless_py_str_int.
  exact H.
Qed.

(* ===================================================================== *)
(** * Running handler code symbolically                                    *)
(* ===================================================================== *)

(** A run is known once its result is: the world is whatever it left. *)
Lemma run_of_fst {A : Type} (p : result A * world) (r : result A) :
  fst p = r -> p = (r, snd p).
Proof. destruct p as [r' w]. cbn. intros ->. reflexivity. Qed.

Ltac unfold_monad :=
  unfold try_except, bind, ret, raise, get_world, modify, log_event,
    of_fault, of_sdk in *.

(** Case analysis on the scrutinee of the first [match] or [if] met in the
    goal (or in hypothesis [H]) that is not yet a constructor. *)
Ltac break_goal :=
  match goal with
  | |- context [match ?x with _ => _ end] =>
      lazymatch x with
      | context [match _ with _ => _ end] => fail
      | _ => destruct x eqn:?
      end
  end.

Ltac break_in H :=
  match type of H with
  | context [match ?x with _ => _ end] =>
      lazymatch x with
      | context [match _ with _ => _ end] => fail
      | _ => destruct x eqn:?
      end
  end.

(* ===================================================================== *)
(** * Upload keys                                                          *)
(* ===================================================================== *)



Lemma index_upload_key (fmt : json -> string) (o : dict) (uid ft : json) (fn : string)
    (w w' : world) (r : response) :
  dict_lookup "user_id" o = Some uid ->
  dict_lookup "file_type" o = Some ft ->
  dict_lookup "file_name" o = Some (JStr fn) ->
  Index.get_upload_url fmt (JObj o) w = (Ok r, w') ->
  status r = 200%Z ->
  response_s3_key r =
  Some (JStr (upload_s3_key (folder_of ft) (fmt uid) (timestamp_at w) (extension fn))).
Proof.
  intros Hu Ht Hf Hrun Hst.
  unfold Index.get_upload_url, Index.get_s3_client, Index.get_s3_bucket,
    generate_presigned_url, time_millis, py_get in Hrun.
  unfold_monad. rewrite Hu, Ht, Hf in Hrun. cbn in Hrun.
  repeat (break_in Hrun; cbn in Hrun);
    try (injection Hrun as <- <-); try discriminate; try reflexivity.
Qed.

Lemma endpoints_upload_key (fmt : json -> string) (o : dict) (uid ft : json) (fn : string)
    (w w' : world) (r : response) :
  dict_lookup "user_id" o = Some uid ->
  dict_lookup "file_type" o = Some ft ->
  dict_lookup "file_name" o = Some (JStr fn) ->
  Endpoints.get_upload_url fmt (JObj o) w = (Ok r, w') ->
  status r = 200%Z ->
  response_s3_key r =
  Some (JStr (upload_s3_key (folder_of ft) (fmt uid) (timestamp_at w) (extension fn))).
Proof.
  intros Hu Ht Hf Hrun Hst.
  unfold Endpoints.get_upload_url, Endpoints.S3_BUCKET,
    Endpoints.json_or_empty, generate_presigned_url, time_millis, py_get in Hrun.
  unfold_monad.
  destruct o as [|kv o']; [discriminate Hu|].
  cbn [py_truthy] in Hrun. rewrite Hu, Ht, Hf in Hrun. cbn in Hrun.
  repeat (break_in Hrun; cbn in Hrun);
    try (injection Hrun as <- <-); try discriminate; try reflexivity.
Qed.

(** C9. Two general upload requests for the same user and file type that
    are answered with an upload URL get distinct storage keys whenever the
    millisecond timestamps read for them differ; when the timestamps
    coincide and the extensions are the same, the two keys are the same
    key. *)
Theorem upload_keys_differ_when_timestamps_differ :
  forall (h1 h2 : (json -> string) -> json -> M response)
         (fmt : json -> string) (o1 o2 : dict) (uid ft : json) (fn1 fn2 : string)
         (w1 w1' w2 w2' : world) (r1 r2 : response),
    upload_handler h1 -> upload_handler h2 ->
    dict_lookup "user_id" o1 = Some uid ->
    dict_lookup "user_id" o2 = Some uid ->
    dict_lookup "file_type" o1 = Some ft ->
    dict_lookup "file_type" o2 = Some ft ->
    dict_lookup "file_name" o1 = Some (JStr fn1) ->
    dict_lookup "file_name" o2 = Some (JStr fn2) ->
    h1 fmt (JObj o1) w1 = (Ok r1, w1') -> status r1 = 200%Z ->
    h2 fmt (JObj o2) w2 = (Ok r2, w2') -> status r2 = 200%Z ->
    (timestamp_at w1 <> timestamp_at w2 -> response_s3_key r1 <> response_s3_key r2) /\
    (timestamp_at w1 = timestamp_at w2 -> extension fn1 = extension fn2 ->
     response_s3_key r1 = response_s3_key r2).
Proof.
  intros h1 h2 fmt o1 o2 uid ft fn1 fn2 w1 w1' w2 w2' r1 r2
    Hh1 Hh2 Hu1 Hu2 Ht1 Ht2 Hf1 Hf2 Hrun1 Hst1 Hrun2 Hst2.
  assert (K1 : response_s3_key r1 =
               Some (JStr (upload_s3_key (folder_of ft) (fmt uid) (timestamp_at w1) (extension fn1)))).
  { destruct Hh1 as [-> | ->];
      [apply (index_upload_key fmt o1 uid ft fn1 w1 w1')
      | apply (endpoints_upload_key fmt o1 uid ft fn1 w1 w1')]; assumption. }
  assert (K2 : response_s3_key r2 =
               Some (JStr (upload_s3_key (folder_of ft) (fmt uid) (timestamp_at w2) (extension fn2)))).
  { destruct Hh2 as [-> | ->];
      [apply (index_upload_key fmt o2 uid ft fn2 w2 w2')
      | apply (endpoints_upload_key fmt o2 uid ft fn2 w2 w2')]; assumption. }
  split.
  - intros Hne Heq. rewrite K1, K2 in Heq.
    injection Heq as Heq. apply Hne. eapply upload_s3_key_inj. exact Heq.
  - intros Hts Hext. rewrite K1, K2, Hts, Hext. reflexivity.
Qed.

Lemma upload_keys_differ_when_timestamps_differ_witness :
  response_s3_key (Sample.answer "post-images/u1/1700000000000.png") <>
  response_s3_key (Sample.answer "post-images/u1/1700000000001.png") /\
  response_s3_key (Sample.answer "post-images/u1/1700000000000.png") =
  response_s3_key (Sample.answer "post-images/u1/1700000000000.png").
Proof.
  split.
  - refine (proj1 (upload_keys_differ_when_timestamps_differ
           Index.get_upload_url Endpoints.get_upload_url
           py_str_scalar
           (Sample.upload_request "a.png") (Sample.upload_request "b.png")
           (JStr "u1") (JStr "image") "a.png" "b.png"
           (Sample.boot Sample.calm)
           (snd (Index.get_upload_url py_str_scalar
                   (JObj (Sample.upload_request "a.png")) (Sample.boot Sample.calm)))
           (Sample.later 1 (Sample.boot Sample.calm))
           (snd (Endpoints.get_upload_url py_str_scalar
                   (JObj (Sample.upload_request "b.png"))
                   (Sample.later 1 (Sample.boot Sample.calm))))
           (Sample.answer "post-images/u1/1700000000000.png")
           (Sample.answer "post-images/u1/1700000000001.png")
           _ _ _ _ _ _ _ _ _ _ _ _) _);
      try solve [left; reflexivity | right; reflexivity | reflexivity].
    vm_compute. discriminate.
  - refine (proj2 (upload_keys_differ_when_timestamps_differ
           Index.get_upload_url Endpoints.get_upload_url
           py_str_scalar
           (Sample.upload_request "a.png") (Sample.upload_request "b.png")
           (JStr "u1") (JStr "image") "a.png" "b.png"
           (Sample.boot Sample.calm)
           (snd (Index.get_upload_url py_str_scalar
                   (JObj (Sample.upload_request "a.png")) (Sample.boot Sample.calm)))
           (Sample.boot Sample.s3_down)
           (snd (Endpoints.get_upload_url py_str_scalar
                   (JObj (Sample.upload_request "b.png"))
                   (Sample.boot Sample.s3_down)))
           (Sample.answer "post-images/u1/1700000000000.png")
           (Sample.answer "post-images/u1/1700000000000.png")
           _ _ _ _ _ _ _ _ _ _ _ _) _ _);
      solve [left; reflexivity | right; reflexivity | reflexivity].
Defined.

(* ===================================================================== *)
(** * The credential cache                                                 *)
(* ===================================================================== *)

Ltac unfold_get_token :=
  unfold Index.get_token, Endpoints.get_token, login_and_refresh,
    Index.get_supabase, sign_in_with_password, datetime_now in *;
  unfold_monad.

Lemma get_token_fresh (g : M (option string)) (w : world) :
  token_getter g ->
  cache_fresh w = true ->
  g w = (Ok (token (w_auth w)), set_clock (S (w_clock w)) w).
Proof.
  unfold cache_fresh. intros [-> | ->] H;
    apply andb_true_iff in H; destruct H as [Ht He];
    destruct (expires_at (w_auth w)) as [e|] eqn:Hexp; try discriminate;
    unfold_get_token; rewrite Ht, Hexp; cbn; rewrite He; reflexivity.
Qed.

(** How many logins a call makes: one exactly when the cache test fails.
    In [src/endpoints.py] a token without an expiry makes the test itself
    raise, before any login. *)
Lemma index_get_token_trace (w : world) :
  w_trace (snd (Index.get_token w)) =
  if cache_fresh w then w_trace w else w_trace w ++ [EvLogin].
Proof.
  unfold cache_fresh, next_login. unfold_get_token.
  destruct (token_truthy (token (w_auth w))); cbn;
    [destruct (expires_at (w_auth w)) as [e|]; cbn;
     [destruct (e_now (w_env w) (w_clock w) <? e)%Z; cbn|]|];
    try reflexivity;
    destruct (w_supabase w); cbn;
    destruct (e_login (w_env w) (w_logins w)) as [[[[s|] [u|]]|]|x]; reflexivity.
Qed.

Lemma index_get_token_logins (w : world) :
  w_logins (snd (Index.get_token w)) =
  if cache_fresh w then w_logins w else S (w_logins w).
Proof.
  unfold cache_fresh, next_login. unfold_get_token.
  destruct (token_truthy (token (w_auth w))); cbn;
    [destruct (expires_at (w_auth w)) as [e|]; cbn;
     [destruct (e_now (w_env w) (w_clock w) <? e)%Z; cbn|]|];
    try reflexivity;
    destruct (w_supabase w); cbn;
    destruct (e_login (w_env w) (w_logins w)) as [[[[s|] [u|]]|]|x]; reflexivity.
Qed.

Lemma endpoints_get_token_trace (w : world) :
  w_trace (snd (Endpoints.get_token w)) =
  if cache_stale w then w_trace w ++ [EvLogin] else w_trace w.
Proof.
  unfold cache_stale, next_login. unfold_get_token.
  destruct (token_truthy (token (w_auth w))); cbn;
    [destruct (expires_at (w_auth w)) as [e|]; cbn;
     [destruct (e_now (w_env w) (w_clock w) <? e)%Z; cbn|]|];
    try reflexivity;
    destruct (e_login (w_env w) (w_logins w)) as [[[[s|] [u|]]|]|x]; reflexivity.
Qed.

Lemma endpoints_get_token_logins (w : world) :
  w_logins (snd (Endpoints.get_token w)) =
  if cache_stale w then S (w_logins w) else w_logins w.
Proof.
  unfold cache_stale, next_login. unfold_get_token.
  destruct (token_truthy (token (w_auth w))); cbn;
    [destruct (expires_at (w_auth w)) as [e|]; cbn;
     [destruct (e_now (w_env w) (w_clock w) <? e)%Z; cbn|]|];
    try reflexivity;
    destruct (e_login (w_env w) (w_logins w)) as [[[[s|] [u|]]|]|x]; reflexivity.
Qed.

Lemma cache_stale_not_fresh (w : world) :
  cache_stale w = true -> cache_fresh w = false.
Proof.
  unfold cache_stale, cache_fresh.
  destruct (token_truthy (token (w_auth w))); cbn; [|reflexivity].
  destruct (expires_at (w_auth w)) as [e|]; [|reflexivity].
  destruct (e_now (w_env w) (w_clock w) <? e)%Z; [discriminate | reflexivity].
Qed.

(** A call that finds the cache stale issues exactly one login. *)
Lemma get_token_stale_trace (g : M (option string)) (w : world) :
  token_getter g ->
  cache_stale w = true ->
  w_trace (snd (g w)) = w_trace w ++ [EvLogin] /\
  w_logins (snd (g w)) = S (w_logins w).
Proof.
  unfold cache_stale.
  intros [-> | ->] H; unfold_get_token;
    (destruct (token_truthy (token (w_auth w))); cbn in *;
     [destruct (expires_at (w_auth w)) as [e|]; cbn in *; [|discriminate];
      destruct (e_now (w_env w) (w_clock w) <? e)%Z; cbn in *; [discriminate|]|]);
    try destruct (w_supabase w); cbn;
    destruct (e_login (w_env w) (w_logins w)) as [[[[s|] [u|]]|]|x];
    split; reflexivity.
Qed.

(** A login that is granted fills the three attributes; the expiry is one
    hour after the clock reading taken for it. *)
Lemma get_token_stale_granted (g : M (option string)) (w : world) (s : Session) (u : User) :
  token_getter g ->
  cache_stale w = true ->
  next_login w = Returned (Some {| session := Some s; user := Some u |}) ->
  fst (g w) = Ok (Some (access_token s)) /\
  w_auth (snd (g w)) =
    {| token := Some (access_token s);
       user_id := Some (id u);
       expires_at := Some (last_reading (snd (g w)) + one_hour)%Z |}.
Proof.
  unfold cache_stale, next_login, last_reading.
  intros [-> | ->] H L; unfold_get_token;
    (destruct (token_truthy (token (w_auth w))); cbn in *;
     [destruct (expires_at (w_auth w)) as [e|]; cbn in *; [|discriminate];
      destruct (e_now (w_env w) (w_clock w) <? e)%Z; cbn in *; [discriminate|]|]);
    try destruct (w_supabase w); cbn;
    rewrite L; cbn; split; reflexivity.
Qed.

(** A login that comes back without a session raises before any attribute
    is assigned. *)
Lemma get_token_refused (g : M (option string)) (w : world) :
  token_getter g ->
  w_logins (snd (g w)) <> w_logins w ->
  login_without_session w = true ->
  fst (g w) = Raise (Exception "Bot login failed") /\
  w_auth (snd (g w)) = w_auth w.
Proof.
  unfold login_without_session, next_login.
  intros [-> | ->] Hl L;
    [rewrite index_get_token_logins in Hl | rewrite endpoints_get_token_logins in Hl].
  - destruct (cache_fresh w) eqn:F; [congruence|]. clear Hl.
    unfold cache_fresh in F. unfold_get_token.
    destruct (token_truthy (token (w_auth w))); cbn in *;
      [destruct (expires_at (w_auth w)) as [e|]; cbn in *;
       [destruct (e_now (w_env w) (w_clock w) <? e)%Z; cbn in *; [discriminate|]|]|];
      destruct (w_supabase w); cbn;
      destruct (e_login (w_env w) (w_logins w)) as [[[[s|] uu]|]|x];
      try discriminate; split; reflexivity.
  - destruct (cache_stale w) eqn:F; [|congruence]. clear Hl.
    unfold cache_stale in F. unfold_get_token.
    destruct (token_truthy (token (w_auth w))); cbn in *;
      [destruct (expires_at (w_auth w)) as [e|]; cbn in *; [|discriminate];
       destruct (e_now (w_env w) (w_clock w) <? e)%Z; cbn in *; [discriminate|]|];
      destruct (e_login (w_env w) (w_logins w)) as [[[[s|] uu]|]|x];
      try discriminate; split; reflexivity.
Qed.

(** Once the cache test has failed it keeps failing, as long as the
    attributes stay what they are and time does not run backwards. *)
Lemma cache_fresh_earlier (w w2 : world) :
  clock_monotone (w_env w) ->
  w_env w2 = w_env w -> w_auth w2 = w_auth w -> w_clock w <= w_clock w2 ->
  cache_fresh w = false -> cache_fresh w2 = false.
Proof.
  unfold cache_fresh. intros Hm He Ha Hc. rewrite He, Ha.
  destruct (token_truthy (token (w_auth w))); cbn; [|reflexivity].
  destruct (expires_at (w_auth w)) as [e|]; [|reflexivity].
  intros H. apply Z.ltb_ge in H. apply Z.ltb_ge.
  specialize (Hm _ _ Hc). lia.
Qed.

Lemma cache_stale_later (w w2 : world) :
  clock_monotone (w_env w) ->
  w_env w2 = w_env w -> w_auth w2 = w_auth w -> w_clock w <= w_clock w2 ->
  cache_stale w = true -> cache_stale w2 = true.
Proof.
  unfold cache_stale. intros Hm He Ha Hc. rewrite He, Ha.
  destruct (token_truthy (token (w_auth w))); cbn; [|reflexivity].
  destruct (expires_at (w_auth w)) as [e|]; [|discriminate].
  intros H. apply negb_true_iff in H. apply Z.ltb_ge in H.
  apply negb_true_iff. apply Z.ltb_ge.
  specialize (Hm _ _ Hc). lia.
Qed.

Lemma get_token_retries (g : M (option string)) (w w2 : world) :
  token_getter g ->
  w_logins (snd (g w)) <> w_logins w ->
  clock_monotone (w_env w) ->
  w_env w2 = w_env w -> w_auth w2 = w_auth w -> w_clock w <= w_clock w2 ->
  w_trace (snd (g w2)) = w_trace w2 ++ [EvLogin].
Proof.
  intros [-> | ->] Hl Hm He Ha Hc.
  - rewrite index_get_token_logins in Hl.
    destruct (cache_fresh w) eqn:F; [congruence|].
    rewrite index_get_token_trace.
    rewrite (cache_fresh_earlier w w2 Hm He Ha Hc F). reflexivity.
  - rewrite endpoints_get_token_logins in Hl.
    destruct (cache_stale w) eqn:F; [|congruence].
    rewrite endpoints_get_token_trace.
    rewrite (cache_stale_later w w2 Hm He Ha Hc F). reflexivity.
Qed.

(** C4. The credential cache of both route files.  A call made while a
    non-empty token is cached and the clock is before the stored expiry
    returns that token, issues no login and changes nothing but the count
    of clock readings.  A call made with no cached token, or once the
    expiry is reached, issues exactly one login; when the login yields a
    session and a user, the call returns the new token and stores token,
    user id, and as expiry the clock reading of the call plus one hour;
    when the login yields no session, the call raises the authentication
    error [Bot login failed]. *)
Theorem credential_cache_contract :
  forall (g : M (option string)) (w : world),
    token_getter g ->
    (cache_fresh w = true ->
     g w = (Ok (token (w_auth w)), set_clock (S (w_clock w)) w)) /\
    (cache_stale w = true ->
     (w_trace (snd (g w)) = w_trace w ++ [EvLogin] /\
      w_logins (snd (g w)) = S (w_logins w)) /\
     (forall (s : Session) (u : User),
        next_login w = Returned (Some {| session := Some s; user := Some u |}) ->
        fst (g w) = Ok (Some (access_token s)) /\
        w_auth (snd (g w)) =
          {| token := Some (access_token s);
             user_id := Some (id u);
             expires_at := Some (last_reading (snd (g w)) + one_hour)%Z |}) /\
     (login_without_session w = true ->
      fst (g w) = Raise (Exception "Bot login failed"))).
Proof.
  intros g w Hg. split.
  - apply get_token_fresh. exact Hg.
  - intros Hs.
    pose proof (get_token_stale_trace g w Hg Hs) as Ht.
    split; [exact Ht|]. split.
    + intros s u L. apply get_token_stale_granted; assumption.
    + intros L. apply (get_token_refused g w Hg); [|exact L].
      destruct Ht as [_ Hl]. rewrite Hl. apply Nat.neq_succ_diag_l.
Qed.

(** C10. A login that comes back without a session leaves the credential
    cache as it was: the call raises [Bot login failed] and [token],
    [user_id] and [expires_at] keep their values; and, time not running
    backwards, every later call that finds those attributes issues a login
    again. *)
Theorem failed_login_leaves_cache_untouched :
  forall (g : M (option string)) (w : world),
    token_getter g ->
    w_logins (snd (g w)) <> w_logins w ->
    login_without_session w = true ->
    fst (g w) = Raise (Exception "Bot login failed") /\
    w_auth (snd (g w)) = w_auth w /\
    (clock_monotone (w_env w) ->
     forall w2 : world,
       w_env w2 = w_env w -> w_auth w2 = w_auth (snd (g w)) ->
       w_clock w <= w_clock w2 ->
       w_trace (snd (g w2)) = w_trace w2 ++ [EvLogin]).
Proof.
  intros g w Hg Hl L.
  destruct (get_token_refused g w Hg Hl L) as [Hr Ha].
  split; [exact Hr|]. split; [exact Ha|].
  intros Hm w2 He Ha2 Hc.
  apply (get_token_retries g w w2 Hg Hl Hm He); [|exact Hc].
  rewrite Ha2. exact Ha.
Qed.

(* ===================================================================== *)
(** * Media Cleanup                                                        *)
(* ===================================================================== *)

(** One round of the loop: a malformed URL changes nothing; a well-formed
    one costs one [delete_object] call, and the round ends normally whether
    or not that call raises. *)
Lemma delete_round (bucket : option string) (url : string) (w : world) :
  exists w',
    try_except (delete_one bucket (JStr url)) (fun _ => ret tt) w = (Ok tt, w') /\
    w_env w' = w_env w /\
    w_trace w' =
      w_trace w ++ (if well_formed_url bucket url
                    then [EvS3Delete bucket (storage_key bucket url)] else []).
Proof.
  unfold well_formed_url, storage_key, delete_one, py_in, py_split_method,
    s3_delete_object.
  unfold_monad.
  destruct (py_contains (bucket_prefix bucket) url) eqn:Hc.
  - destruct (py_split_second _ _ Hc) as [k Hk].
    rewrite Hk. rewrite (nth_error_nth _ _ "" Hk).
    destruct (e_s3_fault (w_env w) (w_s3_calls w)); cbn;
      eexists; split; try reflexivity; split; reflexivity.
  - eexists. split; [reflexivity|]. split; [reflexivity|].
    rewrite app_nil_r. reflexivity.
Qed.

Lemma delete_each_run (bucket : option string) (urls : list string) (w : world) :
  exists w',
    delete_each bucket (map JStr urls) w = (Ok tt, w') /\
    w_env w' = w_env w /\
    w_trace w' = w_trace w ++ deletions bucket urls.
Proof.
  revert w.
  induction urls as [|url urls IH]; intros w.
  - exists w. cbn. rewrite app_nil_r. repeat split.
  - destruct (delete_round bucket url w) as [w1 [H1 [E1 T1]]].
    destruct (IH w1) as [w2 [H2 [E2 T2]]].
    exists w2. split; [|split].
    + cbn [map delete_each]. unfold bind at 1. rewrite H1. exact H2.
    + congruence.
    + rewrite T2, T1. unfold deletions. cbn [filter].
      destruct (well_formed_url bucket url); cbn [map];
        rewrite <- app_assoc; reflexivity.
Qed.

Lemma cleanup_never_raises (f : json -> M unit) (media_urls : json) (w : world) :
  cleanup_function f -> fst (f media_urls w) = Ok tt.
Proof.
  intros [-> | ->];
    unfold Index.delete_media_from_storage, Endpoints.delete_media_from_storage;
    (destruct (py_truthy media_urls); cbn [negb]; [|reflexivity]);
    unfold try_except;
    match goal with |- context [match ?m w with _ => _ end] => destruct (m w) as [[[]|e] w'] end;
    reflexivity.
Qed.

Lemma cleanup_trace (f : json -> M unit) (urls : list string) (w : world) :
  cleanup_function f ->
  w_trace (snd (f (JList (map JStr urls)) w)) =
  w_trace w ++ deletions (e_bucket (w_env w)) urls.
Proof.
  intros Hf.
  destruct urls as [|url urls].
  { destruct Hf as [-> | ->]; cbn; rewrite app_nil_r; reflexivity. }
  destruct Hf as [-> | ->];
    unfold Index.delete_media_from_storage, Endpoints.delete_media_from_storage,
      Index.get_s3_client, Index.get_s3_bucket, Endpoints.S3_BUCKET, py_len, py_iter;
    cbn [py_truthy map negb]; unfold_monad.
  - destruct (w_s3_client w) eqn:Hc.
    + destruct (delete_each_run (e_bucket (w_env w)) (url :: urls) w) as [w' [H [E T]]].
      cbn [map] in H. rewrite H. exact T.
    + destruct (delete_each_run (e_bucket (w_env w)) (url :: urls) (set_s3_client true w))
        as [w' [H [E T]]].
      cbn [map] in H. cbn [set_s3_client w_env]. rewrite H. exact T.
  - destruct (delete_each_run (e_bucket (w_env w)) (url :: urls) w) as [w' [H [E T]]].
    cbn [map] in H. rewrite H. exact T.
Qed.

(** C5. Media Cleanup, in both route files, never raises to its caller,
    whatever it is given.  Given a list of URLs it issues one
    [delete_object] call for each URL that contains the bucket's public-URL
    prefix, in the order of the list, and none for the others; this is so
    whichever of those calls raise, so no failed deletion keeps a later one
    from being attempted. *)
Theorem media_cleanup_best_effort :
  forall (f : json -> M unit) (w : world),
    cleanup_function f ->
    (forall media_urls : json, fst (f media_urls w) = Ok tt) /\
    (forall urls : list string,
       fst (f (JList (map JStr urls)) w) = Ok tt /\
       w_trace (snd (f (JList (map JStr urls)) w)) =
         w_trace w ++ deletions (e_bucket (w_env w)) urls).
Proof.
  intros f w Hf. split.
  - intros media_urls. apply cleanup_never_raises. exact Hf.
  - intros urls. split.
    + apply cleanup_never_raises. exact Hf.
    + apply cleanup_trace. exact Hf.
Qed.

(* ===================================================================== *)
(** * Post Ingestion: the failure path                                     *)
(* ===================================================================== *)

Lemma ingestion_route_cleanup (body h : json -> M response) (cleanup : json -> M unit) :
  ingestion_route body h cleanup ->
  cleanup_function cleanup /\
  forall request_json,
    h request_json =
    try_except (body request_json) (ingestion_except cleanup request_json).
Proof.
  intros []; (split; [first [left; reflexivity | right; reflexivity] | reflexivity]).
Qed.

Lemma except_with_media (cleanup : json -> M unit) (o : dict) (urls : list json)
    (e : exn) (w : world) :
  cleanup_function cleanup ->
  dict_lookup "media_url" o = Some (JList urls) -> urls <> [] ->
  ingestion_except cleanup (JObj o) e w =
  (Ok (failure (str_exn e) 500), snd (cleanup (JList urls) w)).
Proof.
  intros Hc Hm Hne.
  pose proof (cleanup_never_raises cleanup (JList urls) w Hc) as Hok.
  unfold ingestion_except, py_get, py_len. unfold_monad.
  destruct o as [|kv o']; [discriminate Hm|].
  cbn [py_truthy]. rewrite Hm.
  destruct urls as [|u urls']; [contradiction|].
  cbn [py_truthy].
  destruct (cleanup (JList (u :: urls')) w) as [r w'].
  cbn in Hok. subst r. reflexivity.
Qed.

Lemma except_without_media (cleanup : json -> M unit) (o : dict) (e : exn) (w : world) :
  no_media o ->
  ingestion_except cleanup (JObj o) e w = (Ok (failure (str_exn e) 500), w).
Proof.
  intros Hm.
  unfold ingestion_except, py_get. unfold_monad.
  destruct o as [|kv o']; [reflexivity|].
  cbn [py_truthy].
  destruct Hm as [Hm | [Hm | Hm]]; rewrite Hm; reflexivity.
Qed.

(** The insert is the last step of every [try] block: when the database
    raises at it, the block raises that error, the call having been
    made. *)
Lemma insert_post_fault (t : table) (o : dict) (post_data : dict) (w : world) (e : exn) :
  no_media o \/ (exists urls, dict_lookup "media_url" o = Some (JList urls)) ->
  next_db_fault w = Some e ->
  fst (insert_post t (JObj o) post_data w) = Raise e /\
  w_trace (snd (insert_post t (JObj o) post_data w))
    = w_trace w ++ [EvDbInsert t post_data] /\
  same_data w (snd (insert_post t (JObj o) post_data w)).
Proof.
  unfold next_db_fault, insert_post, table_insert, db_call, py_get, py_len, same_data.
  unfold_monad.
  intros Hm Hf.
  destruct Hm as [[Hm | [Hm | Hm]] | [urls Hm]]; rewrite Hm; cbn;
    try (destruct urls; cbn); rewrite Hf; cbn; repeat split.
Qed.

(** C1. On every Post Ingestion route of both files: when the [try] block
    raises — the insert, or any other step — on a request whose body
    carries a non-empty [media_url] list, the handler runs Media Cleanup on
    exactly that list, in the state the failure left, and then answers 500
    with the error's text; when [media_url] is absent, null or empty, it
    answers 500 and nothing changes after the failure. *)
Theorem failed_ingestion_cleans_up_media :
  forall (body h : json -> M response) (cleanup : json -> M unit)
         (o : dict) (w w_failed : world) (e : exn),
    ingestion_route body h cleanup ->
    body (JObj o) w = (Raise e, w_failed) ->
    (forall urls : list json,
       dict_lookup "media_url" o = Some (JList urls) -> urls <> [] ->
       h (JObj o) w =
       (Ok (failure (str_exn e) 500), snd (cleanup (JList urls) w_failed))) /\
    (no_media o ->
     h (JObj o) w = (Ok (failure (str_exn e) 500), w_failed)).
Proof.
  intros body h cleanup o w w_failed e Hr Hb.
  destruct (ingestion_route_cleanup body h cleanup Hr) as [Hc Hh].
  assert (Hrun : h (JObj o) w = ingestion_except cleanup (JObj o) e w_failed).
  { rewrite Hh. unfold try_except. rewrite Hb. reflexivity. }
  rewrite Hrun. split.
  - intros urls Hm Hne. apply except_with_media; assumption.
  - intros Hm. apply except_without_media. exact Hm.
Qed.

(* ===================================================================== *)
(** * Post Ingestion: validation                                           *)
(* ===================================================================== *)

Lemma only_logins_refl (w : world) : only_logins w w.
Proof.
  unfold only_logins, same_data. rewrite Nat.sub_diag. cbn. rewrite app_nil_r.
  repeat split; reflexivity || apply Nat.le_refl.
Qed.

Lemma only_logins_trans (w1 w2 w3 : world) :
  only_logins w1 w2 -> only_logins w2 w3 -> only_logins w1 w3.
Proof.
  unfold only_logins, same_data.
  intros (E1 & (P1 & Q1 & M1 & B1) & D1 & S1 & L1 & T1)
         (E2 & (P2 & Q2 & M2 & B2) & D2 & S2 & L2 & T2).
  repeat split; try congruence; try lia.
  rewrite T2, T1, <- app_assoc, <- repeat_app. do 2 f_equal. lia.
Qed.

Lemma only_logins_by (n : nat) (w w' : world) :
  w_env w' = w_env w -> same_data w w' ->
  w_db_calls w' = w_db_calls w -> w_s3_calls w' = w_s3_calls w ->
  w_logins w' = n + w_logins w ->
  w_trace w' = w_trace w ++ repeat EvLogin n ->
  only_logins w w'.
Proof.
  intros E D C S L T. unfold only_logins.
  split; [exact E|]. split; [exact D|]. split; [exact C|]. split; [exact S|].
  split; [lia|].
  rewrite T. do 2 f_equal. lia.
Qed.

Ltac solve_only_logins n :=
  apply (only_logins_by n); unfold same_data; cbn; rewrite ?app_nil_r;
  repeat split; reflexivity.

Lemma get_token_only_logins (g : M (option string)) (w : world) :
  token_getter g -> only_logins w (snd (g w)).
Proof.
  intros [-> | ->]; unfold_get_token;
    (destruct (token_truthy (token (w_auth w))); cbn;
     [destruct (expires_at (w_auth w)) as [e|]; cbn;
      [destruct (e_now (w_env w) (w_clock w) <? e)%Z; cbn|]|]);
    try destruct (w_supabase w); cbn;
    try (destruct (e_login (w_env w) (w_logins w)) as [[[[s|] [u|]]|]|x]; cbn);
    first [ solve_only_logins 0 | solve_only_logins 1 ].
Qed.

(** Fetching the token and the user id at the head of a handler calls
    nobody but the identity provider. *)
Lemma acquire_only_logins (acquire : M (option string)) (h : json -> M response)
    (w : world) :
  token_first_route acquire h -> only_logins w (snd (acquire w)).
Proof.
  intros Hr.
  assert (Hi : only_logins w (snd (Index.acquire_identity w))).
  { unfold Index.acquire_identity, Index.get_user_id, Index.get_supabase.
    unfold_monad.
    pose proof (get_token_only_logins Index.get_token w (or_introl eq_refl)) as H1.
    destruct (Index.get_token w) as [[tok|e] w1]; cbn [snd] in H1; [|exact H1].
    pose proof (get_token_only_logins Index.get_token w1 (or_introl eq_refl)) as H2.
    destruct (Index.get_token w1) as [[tok2|e] w2]; cbn [snd] in H2;
      cbv beta iota; cbn [snd];
      [|eapply only_logins_trans; eassumption].
    apply (only_logins_trans w w2); [eapply only_logins_trans; eassumption|].
    destruct (w_supabase w2); cbv beta iota; cbn [snd]; solve_only_logins 0. }
  assert (He : only_logins w (snd (Endpoints.acquire_identity w))).
  { unfold Endpoints.acquire_identity, Endpoints.get_user_id.
    unfold_monad.
    pose proof (get_token_only_logins Endpoints.get_token w (or_intror eq_refl)) as H1.
    destruct (Endpoints.get_token w) as [[tok|e] w1]; cbn [snd] in H1; [|exact H1].
    pose proof (get_token_only_logins Endpoints.get_token w1 (or_intror eq_refl)) as H2.
    destruct (Endpoints.get_token w1) as [[tok2|e] w2]; cbn [snd] in H2;
      cbv beta iota; cbn [snd];
      [|eapply only_logins_trans; eassumption].
    apply (only_logins_trans w w2); [eapply only_logins_trans; eassumption|].
    solve_only_logins 0. }
  destruct Hr; assumption.
Qed.

(** An incomplete request stops at the presence checks, which touch
    nothing. *)
Lemma validate_post_stops (data : json) (msg : string) (k : M response) (w : world) :
  missing_item data = Some msg ->
  validate_post data k w = (Ok (failure msg 400), w).
Proof.
  unfold missing_item, validate_post, field, py_get. unfold_monad.
  destruct (py_truthy data) eqn:Ht; cbn [negb].
  - destruct data as [| b | n | s | l | o]; try discriminate.
    destruct (dict_lookup "content" o) as [c|]; cbn;
      [destruct (py_truthy c); cbn|];
      try (intros [= <-]; reflexivity);
      destruct (dict_lookup "twitter_unique_id" o) as [t|]; cbn;
      try destruct (py_truthy t); cbn;
      try (intros [= <-]; reflexivity); discriminate.
  - intros [= <-]. reflexivity.
Qed.

(** The [except] block of the ingestion handlers answers 500 or lets an
    exception out; it never answers 400. *)
Lemma ingestion_except_status (cleanup : json -> M unit) (request_json : json)
    (e : exn) (w w' : world) (r : response) :
  ingestion_except cleanup request_json e w = (Ok r, w') -> status r = 500%Z.
Proof.
  unfold ingestion_except. unfold_monad. intros H.
  repeat (break_in H; try discriminate H);
    injection H as <- _; reflexivity.
Qed.

Lemma token_first_run (acquire : M (option string)) (h : json -> M response)
    (data : json) (msg : string) (w : world) :
  token_first_route acquire h ->
  missing_item data = Some msg ->
  (forall uid w1, acquire w = (Ok uid, w1) -> h data w = (Ok (failure msg 400), w1)) /\
  (forall e w1, acquire w = (Raise e, w1) ->
   forall r w', h data w = (Ok r, w') -> status r = 500%Z).
Proof.
  intros Hr Hm.
  destruct Hr;
    unfold Index.create_post_by_bot, Index.create_post_by_bot_try,
      Endpoints.create_post_by_bot, Endpoints.create_post_by_bot_try,
      Endpoints.create_post_by_bot_for_approval,
      Endpoints.create_post_by_bot_for_approval_try;
    unfold try_except, bind;
    (split;
     [ intros uid w1 Ha; rewrite Ha;
       rewrite (validate_post_stops data msg _ w1 Hm); reflexivity
     | intros e w1 Ha r w' Hx; rewrite Ha in Hx;
       eapply ingestion_except_status; exact Hx ]).
Qed.

Lemma index_pending_rejects (data : json) (msg : string) (w : world) :
  missing_item data = Some msg ->
  Index.create_post_by_bot_for_approval data w = (Ok (failure msg 400), w).
Proof.
  intros Hm.
  unfold Index.create_post_by_bot_for_approval,
    Index.create_post_by_bot_for_approval_try, try_except.
  rewrite (validate_post_stops data msg _ w Hm). reflexivity.
Qed.

(** C2, as the specification words it, fails on [/botposts] of
    [src/api/index.py]: the token is fetched before the request is looked
    at, so when the login is refused a request without [content] is
    answered 500, and the media it names are deleted. *)
Lemma incomplete_request_answered_500 :
  missing_item Sample.no_content = Some "content is required" /\
  fst (Index.create_post_by_bot Sample.no_content (Sample.boot Sample.no_session))
    = Ok (failure "Bot login failed" 500) /\
  w_bucket (Sample.boot Sample.no_session)
    = ["post-images/u1/1.png"; "post-images/u1/2.png"] /\
  w_bucket (snd (Index.create_post_by_bot Sample.no_content
                   (Sample.boot Sample.no_session)))
    = ["post-images/u1/2.png"] /\
  ~ rejects_without_effect Index.create_post_by_bot.
Proof.
  split; [vm_compute; reflexivity|].
  split; [vm_compute; reflexivity|].
  split; [vm_compute; reflexivity|].
  split; [vm_compute; reflexivity|].
  intros H.
  assert (Hm : missing_item Sample.no_content = Some "content is required")
    by (vm_compute; reflexivity).
  destruct (H Sample.no_content "content is required"
              (Sample.boot Sample.no_session) Hm) as [H1 _].
  vm_compute in H1. discriminate H1.
Qed.

(** C2, amended.  An incomplete Post Ingestion request — no body, or
    [content] or [twitter_unique_id] missing or empty — is answered 400
    with the missing item named, and the tables and the bucket stay as they
    were: always on [/pendingbotposts] of [src/api/index.py], which looks at
    the request first; on the three routes that first fetch the bot's token
    and user id, whenever that fetch succeeds. *)
Theorem incomplete_request_rejected :
  rejects_without_effect Index.create_post_by_bot_for_approval /\
  (forall (acquire : M (option string)) (h : json -> M response)
          (data : json) (msg : string) (w w1 : world) (uid : option string),
     token_first_route acquire h ->
     missing_item data = Some msg ->
     acquire w = (Ok uid, w1) ->
     h data w = (Ok (failure msg 400), w1) /\ same_data w w1).
Proof.
  split.
  - intros data msg w Hm. rewrite (index_pending_rejects data msg w Hm).
    split; [reflexivity | repeat split].
  - intros acquire h data msg w w1 uid Hr Hm Ha.
    destruct (token_first_run acquire h data msg w Hr Hm) as [Hok _].
    split; [exact (Hok uid w1 Ha)|].
    pose proof (acquire_only_logins acquire h w Hr) as Hl.
    rewrite Ha in Hl. destruct Hl as (_ & D & _). exact D.
Qed.

(** C3, as the specification words it, fails on [/botposts] of
    [src/api/index.py]: with no token cached, a request without [content]
    is answered 400 after a login has been made. *)
Lemma incomplete_request_answered_after_login :
  missing_item Sample.no_content = Some "content is required" /\
  fst (Index.create_post_by_bot Sample.no_content (Sample.boot Sample.calm))
    = Ok (failure "content is required" 400) /\
  w_trace (Sample.boot Sample.calm) = [] /\
  w_trace (snd (Index.create_post_by_bot Sample.no_content (Sample.boot Sample.calm)))
    = [EvLogin] /\
  ~ rejects_before_any_io Index.create_post_by_bot.
Proof.
  split; [vm_compute; reflexivity|].
  split; [vm_compute; reflexivity|].
  split; [vm_compute; reflexivity|].
  split; [vm_compute; reflexivity|].
  intros H.
  assert (Hm : missing_item Sample.no_content = Some "content is required")
    by (vm_compute; reflexivity).
  refine (_ (H Sample.no_content "content is required" (Sample.boot Sample.calm)
                (snd (Index.create_post_by_bot Sample.no_content (Sample.boot Sample.calm)))
                (failure "content is required" 400) Hm _ eq_refl)).
  - vm_compute. discriminate.
  - apply run_of_fst. vm_compute. reflexivity.
Qed.

(** C3, amended.  When an incomplete Post Ingestion request is answered
    400, no database call and no storage call has been made:
    [/pendingbotposts] of [src/api/index.py] has called nobody at all; the
    three routes that first fetch the bot's token and user id have called
    nobody but the identity provider (a login, when the cache held no valid
    token). *)
Theorem incomplete_request_makes_no_database_or_storage_call :
  rejects_before_any_io Index.create_post_by_bot_for_approval /\
  (forall (acquire : M (option string)) (h : json -> M response)
          (data : json) (msg : string) (w w' : world) (r : response),
     token_first_route acquire h ->
     missing_item data = Some msg ->
     h data w = (Ok r, w') -> status r = 400%Z ->
     only_logins w w').
Proof.
  split.
  - intros data msg w w' r Hm Hrun _.
    rewrite (index_pending_rejects data msg w Hm) in Hrun.
    injection Hrun as _ <-. reflexivity.
  - intros acquire h data msg w w' r Hr Hm Hrun Hst.
    destruct (token_first_run acquire h data msg w Hr Hm) as [Hok Hko].
    pose proof (acquire_only_logins acquire h w Hr) as Hl.
    destruct (acquire w) as [[uid|e] w1] eqn:Ha.
    + rewrite (Hok uid w1 eq_refl) in Hrun. injection Hrun as _ <-. exact Hl.
    + rewrite (Hko e w1 eq_refl r w' Hrun) in Hst. discriminate Hst.
Qed.

(* ===================================================================== *)
(** * Approval Transfer                                                    *)
(* ===================================================================== *)

Lemma dict_lookup_set_other (k k' : string) (v : json) (d : dict) :
  String.eqb k k' = false ->
  dict_lookup k (dict_set k' v d) = dict_lookup k d.
Proof.
  intros Hk.
  induction d as [|[k0 v0] d IH]; cbn.
  - rewrite Hk. reflexivity.
  - destruct (String.eqb k' k0) eqn:E0; cbn.
    + apply String.eqb_eq in E0. subst k0. rewrite Hk. reflexivity.
    + destruct (String.eqb k k0); [reflexivity | exact IH].
Qed.

Lemma update_rows_no_match (changes : dict) (col : string) (v : json) (rows : list row) :
  filter (row_matches col v) rows = [] ->
  update_rows changes col v rows = rows.
Proof.
  unfold update_rows.
  induction rows as [|r rows IH]; cbn; [reflexivity|].
  destruct (row_matches col v r); [discriminate|].
  intros H. rewrite (IH H). reflexivity.
Qed.

Lemma copy_columns_run (columns : list string) (post : dict) (w : world) :
  has_columns columns post = true ->
  copy_columns columns post w = (Ok (map (fun c => (c, field c post)) columns), w).
Proof.
  induction columns as [|c columns IH]; cbn; [reflexivity|].
  unfold py_getitem, field. unfold_monad.
  destruct (dict_lookup c post) as [v|]; cbn; [|discriminate].
  intros H. rewrite (IH H). reflexivity.
Qed.

(** Stamping [status] leaves the nine copied columns alone. *)
Lemma copy_of_accepted (r : row) :
  map (fun c => (c, field c (dict_update accepted r))) post_columns = copy_of r /\
  has_columns post_columns (dict_update accepted r) = has_columns post_columns r.
Proof.
  unfold copy_of, has_columns, post_columns, accepted, dict_update, field.
  cbn [fold_left fst snd map forallb].
  rewrite !dict_lookup_set_other by reflexivity.
  split; reflexivity.
Qed.

Ltac unfold_accept :=
  unfold Index.accept_twitter_post, Index.get_supabase_admin, table_update_eq,
    db_call, py_get;
  unfold_monad.

Lemma accept_no_match (o : dict) (tuid : json) (w : world) :
  dict_lookup "twitter_unique_id" o = Some tuid ->
  py_truthy tuid = true ->
  pending_matches tuid w = [] ->
  fst (Index.accept_twitter_post (JObj o) w) =
    Ok (match next_db_fault w with
        | None => failure "Twitter post not found" 404
        | Some e => failure (str_exn e) 500
        end) /\
  same_data w (snd (Index.accept_twitter_post (JObj o) w)) /\
  w_trace (snd (Index.accept_twitter_post (JObj o) w)) = w_trace w ++ [accept_update tuid].
Proof.
  unfold pending_matches, next_db_fault, accept_update, accepted, same_data.
  intros Hl Ht Hm.
  unfold_accept.
  destruct o as [|kv o']; [discriminate Hl|].
  cbn [py_truthy negb]. rewrite Hl, Ht. cbn [negb].
  destruct (w_supabase_admin w); cbn -[update_rows];
    destruct (e_db_fault (w_env w) (w_db_calls w)); cbn -[update_rows];
    rewrite ?Hm; cbn -[update_rows]; rewrite ?(update_rows_no_match _ _ _ _ Hm);
    repeat split; reflexivity.
Qed.

Lemma copy_columns_world (columns : list string) (post : dict) (w : world) :
  snd (copy_columns columns post w) = w.
Proof.
  induction columns as [|c columns IH]; cbn; [reflexivity|].
  unfold py_getitem. unfold_monad.
  destruct (dict_lookup c post) as [v|]; cbn; [|reflexivity].
  destruct (copy_columns columns post w) as [[d|e] w']; cbn in *; exact IH.
Qed.

Lemma accept_match (o : dict) (tuid : json) (r : row) (rest : list row) (w : world) :
  dict_lookup "twitter_unique_id" o = Some tuid ->
  py_truthy tuid = true ->
  pending_matches tuid w = r :: rest ->
  next_db_fault w = None ->
  w_twitter_posts (snd (Index.accept_twitter_post (JObj o) w)) =
    update_rows accepted "twitter_unique_id" tuid (w_twitter_posts w) /\
  (has_columns post_columns r = true ->
   w_trace (snd (Index.accept_twitter_post (JObj o) w)) =
     w_trace w ++ [accept_update tuid; EvDbInsert posts (copy_of r)] /\
   (second_db_fault w = None ->
    fst (Index.accept_twitter_post (JObj o) w) = Ok (transferred (copy_of r)) /\
    w_posts (snd (Index.accept_twitter_post (JObj o) w)) = w_posts w ++ [copy_of r])).
Proof.
  unfold pending_matches, next_db_fault, second_db_fault, accept_update, transferred.
  intros Hl Ht Hm Hf.
  destruct (copy_of_accepted r) as [Hcopy Hcols].
  unfold_accept. unfold table_insert, db_call. unfold_monad.
  destruct o as [|kv o']; [discriminate Hl|].
  cbn [py_truthy negb]. rewrite Hl, Ht. cbn [negb].
  destruct (w_supabase_admin w); cbn -[copy_columns update_rows dict_update post_columns];
    rewrite Hf; cbn -[copy_columns update_rows dict_update post_columns];
    rewrite Hm; cbn -[copy_columns update_rows dict_update post_columns];
    fold accepted;
    match goal with
    | |- context [copy_columns post_columns ?post ?w1] =>
        pose proof (copy_columns_world post_columns post w1) as Hw;
        pose proof (copy_columns_run post_columns post w1) as Hrun;
        destruct (copy_columns post_columns post w1) as [[a|e] w'];
        cbn [snd] in Hw; subst w'
    end;
    cbn -[update_rows dict_update post_columns].
  all: split; [destruct (e_db_fault (w_env w) (S (w_db_calls w))); reflexivity|].
  all: intros Hc; rewrite Hcols in Hrun; specialize (Hrun Hc);
    rewrite Hcopy in Hrun; try discriminate Hrun; injection Hrun as ->.
  all: split;
    [destruct (e_db_fault (w_env w) (S (w_db_calls w)));
     cbn; rewrite <- app_assoc; reflexivity|].
  all: intros Hf2; rewrite Hf2; split; reflexivity.
Qed.

(** C7. Approval Transfer ([/admin/accept-twitter-post]) on a request that
    carries a [twitter_unique_id].  When no pending row matches it, the
    handler makes the one update call, which changes no row, inserts
    nothing, leaves all tables as they were, and answers 404 (the database
    answering the call).  When rows match, that update call stamps
    [status = accepted] on them before anything else happens; then the nine
    substantive fields of the first updated row, which the row has as it
    had them before the stamp, are inserted into the live table as a new
    record, and the handler answers 200 with it. *)
Theorem approval_transfer_contract :
  forall (o : dict) (tuid : json) (w : world),
    dict_lookup "twitter_unique_id" o = Some tuid ->
    py_truthy tuid = true ->
    (pending_matches tuid w = [] ->
     (next_db_fault w = None ->
      fst (Index.accept_twitter_post (JObj o) w)
        = Ok (failure "Twitter post not found" 404)) /\
     same_data w (snd (Index.accept_twitter_post (JObj o) w)) /\
     w_trace (snd (Index.accept_twitter_post (JObj o) w))
       = w_trace w ++ [accept_update tuid]) /\
    (forall (r : row) (rest : list row),
       pending_matches tuid w = r :: rest ->
       next_db_fault w = None ->
       w_twitter_posts (snd (Index.accept_twitter_post (JObj o) w)) =
         map (fun row => if row_matches "twitter_unique_id" tuid row
                         then dict_set "status" (JStr "accepted") row
                         else row)
             (w_twitter_posts w) /\
       (has_columns post_columns r = true ->
        w_trace (snd (Index.accept_twitter_post (JObj o) w)) =
          w_trace w ++ [accept_update tuid; EvDbInsert posts (copy_of r)] /\
        (second_db_fault w = None ->
         fst (Index.accept_twitter_post (JObj o) w) = Ok (transferred (copy_of r)) /\
         w_posts (snd (Index.accept_twitter_post (JObj o) w))
           = w_posts w ++ [copy_of r]))).
Proof.
  intros o tuid w Hl Ht. split.
  - intros Hm.
    destruct (accept_no_match o tuid w Hl Ht Hm) as (Hr & Hd & Htr).
    split; [|split; assumption].
    intros Hf. rewrite Hr, Hf. reflexivity.
  - intros r rest Hm Hf.
    exact (accept_match o tuid r rest w Hl Ht Hm Hf).
Qed.

(* ===================================================================== *)
(** * Post Ingestion: whose post a pending post is                         *)
(* ===================================================================== *)

Lemma validate_post_dict (o : dict) (k : M response) (w : world) :
  validate_post (JObj o) k w =
  match missing_item (JObj o) with
  | Some msg => (Ok (failure msg 400), w)
  | None => k w
  end.
Proof.
  unfold missing_item, validate_post, field, py_get. unfold_monad.
  destruct (py_truthy (JObj o)); cbn [negb]; [|reflexivity].
  destruct (dict_lookup "content" o) as [c|]; cbn;
    [destruct (py_truthy c); cbn|]; try reflexivity.
  destruct (dict_lookup "twitter_unique_id" o) as [t|]; cbn;
    [destruct (py_truthy t); cbn|]; reflexivity.
Qed.

(** The world after the mapping lookup for [username]. *)
Lemma resolve_user_id_run (username : json) (w : world) :
  exists w1,
    Index.resolve_user_id username w = (Ok (mapped_user_id username w), w1) /\
    w_env w1 = w_env w /\
    same_data w w1 /\
    w_trace w1 = w_trace w ++ lookup_events username.
Proof.
  unfold Index.resolve_user_id, mapped_user_id, lookup_events, next_db_fault,
    table_select_eq, db_call, py_getitem, project, default_identity, same_data.
  unfold_monad.
  destruct (py_truthy username); cbn.
  - destruct (e_db_fault (w_env w) (w_db_calls w)); cbn.
    + eexists. repeat split.
    + destruct (filter (row_matches "username" username) (w_twitter_id_map w))
        as [|m ms]; cbn.
      * eexists. repeat split.
      * destruct (dict_lookup "user_id" m) as [u|]; cbn.
        -- eexists. repeat split.
        -- eexists. repeat split.
  - exists w. rewrite app_nil_r. repeat split.
Qed.

Lemma insert_post_inv (t : table) (o : dict) (post_data : dict) (w w' : world) (r : response) :
  insert_post t (JObj o) post_data w = (Ok r, w') ->
  status r = 201%Z /\
  get_table t w' = get_table t w ++ [post_data] /\
  w_trace w' = w_trace w ++ [EvDbInsert t post_data].
Proof.
  unfold insert_post, table_insert, db_call, py_get, py_len. unfold_monad.
  intros H.
  repeat (break_in H; cbn in H; try discriminate H);
    injection H as <- <-; destruct t; repeat split.
Qed.

Lemma py_get_dict (o : dict) (k : string) (d : json) (w : world) :
  py_get (JObj o) k d w =
  (Ok (match dict_lookup k o with Some v => v | None => d end), w).
Proof. unfold py_get. destruct (dict_lookup k o); reflexivity. Qed.

Lemma bind_run {A B : Type} (m : M A) (k : A -> M B) (w : world) :
  bind m k w =
  match m w with
  | (Ok a, w') => k a w'
  | (Raise e, w') => (Raise e, w')
  end.
Proof. reflexivity. Qed.

Lemma mapped_user_id_admin (username : json) (w : world) :
  mapped_user_id username (set_supabase_admin true w) = mapped_user_id username w.
Proof. reflexivity. Qed.

Lemma index_records_mapped_identity :
  records_mapped_identity Index.create_post_by_bot_for_approval.
Proof.
  intros o w w' r H Hst.
  unfold Index.create_post_by_bot_for_approval,
    Index.create_post_by_bot_for_approval_try, try_except in H.
  rewrite validate_post_dict in H.
  destruct (missing_item (JObj o)) as [msg|].
  { injection H as <- _. discriminate Hst. }
  rewrite bind_run, py_get_dict in H. cbv beta iota in H.
  fold (field "twitter_username" o) in H.
  set (username := field "twitter_username" o) in *.
  rewrite bind_run in H.
  assert (Ha : exists w0, Index.get_supabase_admin w = (Ok tt, w0) /\
                          w_trace w0 = w_trace w /\ same_data w w0 /\
                          mapped_user_id username w0 = mapped_user_id username w).
  { unfold Index.get_supabase_admin. unfold_monad.
    destruct (w_supabase_admin w); eexists; repeat split. }
  destruct Ha as (w0 & Ha & Ht0 & Hd0 & Hm0).
  rewrite Ha in H. cbv beta iota in H.
  rewrite bind_run in H.
  destruct (resolve_user_id_run username w0) as (w1 & Hr & He1 & Hd1 & Ht1).
  rewrite Hr in H. cbv beta iota in H.
  repeat (rewrite bind_run, py_get_dict in H; cbv beta iota in H).
  match type of H with
  | context [insert_post twitter_posts (JObj o) ?pd w1] =>
      destruct (insert_post twitter_posts (JObj o) pd w1) as [[r2|e] w2] eqn:Hi;
      [ exists pd | ]
  end.
  - injection H as <- <-.
    destruct (insert_post_inv _ _ _ _ _ _ Hi) as (_ & Htab & Htr).
    cbn [get_table] in Htab.
    destruct Hd0 as (_ & Hq0 & _). destruct Hd1 as (_ & Hq1 & _).
    split; [cbn; rewrite Hm0; reflexivity|]. split.
    + rewrite Htab, Hq1, Hq0. reflexivity.
    + rewrite Htr, Ht1, Ht0, <- app_assoc. reflexivity.
  - apply ingestion_except_status in H. rewrite H in Hst. discriminate Hst.
Qed.

Lemma insert_post_auth (t : table) (data : json) (post_data : dict) (w : world) :
  w_auth (snd (insert_post t data post_data w)) = w_auth w.
Proof.
  unfold insert_post, table_insert, db_call, py_get, py_len. unfold_monad.
  repeat (break_goal; cbn); reflexivity.
Qed.

Lemma endpoints_acquire_user_id (w w1 : world) (uid : option string) :
  Endpoints.acquire_identity w = (Ok uid, w1) -> uid = user_id (w_auth w1).
Proof.
  unfold Endpoints.acquire_identity, Endpoints.get_user_id. unfold_monad.
  destruct (Endpoints.get_token w) as [[tok|e] w0]; [|discriminate].
  destruct (Endpoints.get_token w0) as [[tok2|e] w2]; [|discriminate].
  cbv beta iota. intros [= <- <-]. reflexivity.
Qed.

Lemma build_post_data_run (uid : option string) (o : dict) (w : world) :
  exists record : dict,
    Endpoints.build_post_data uid (JObj o) w = (Ok record, w) /\
    dict_lookup "user_id" record = Some (json_of_opt uid).
Proof.
  unfold Endpoints.build_post_data.
  repeat (rewrite bind_run, py_get_dict; cbv beta iota).
  eexists. split; reflexivity.
Qed.

Lemma endpoints_pending_records_bot_identity
    (o : dict) (w w' : world) (r : response) :
  Endpoints.create_post_by_bot_for_approval (JObj o) w = (Ok r, w') ->
  status r = 201%Z ->
  exists (record : dict) (n : nat),
    dict_lookup "user_id" record = Some (json_of_opt (user_id (w_auth w'))) /\
    w_twitter_posts w' = w_twitter_posts w ++ [record] /\
    w_trace w' = w_trace w ++ repeat EvLogin n ++ [EvDbInsert twitter_posts record].
Proof.
  intros H Hst.
  pose proof (acquire_only_logins _ _ w token_first_endpoints_pending) as Hl.
  unfold Endpoints.create_post_by_bot_for_approval,
    Endpoints.create_post_by_bot_for_approval_try, try_except in H.
  rewrite bind_run in H.
  destruct (Endpoints.acquire_identity w) as [[uid|e] w1] eqn:Ha;
    [|apply ingestion_except_status in H; rewrite H in Hst; discriminate Hst].
  cbn [snd] in Hl.
  rewrite validate_post_dict in H.
  destruct (missing_item (JObj o)) as [msg|].
  { injection H as <- _. discriminate Hst. }
  rewrite bind_run in H.
  destruct (build_post_data_run uid o w1) as (pd & Hb & Hu).
  rewrite Hb in H.
  pose proof (insert_post_auth twitter_posts (JObj o) pd w1) as Hau.
  destruct (insert_post twitter_posts (JObj o) pd w1) as [[r2|e] w2] eqn:Hi;
    [ exists pd, (w_logins w1 - w_logins w) | ].
  - injection H as <- <-.
    destruct (insert_post_inv _ _ _ _ _ _ Hi) as (_ & Htab & Htr).
    cbn [get_table] in Htab. cbn [snd] in Hau.
    destruct Hl as (_ & (_ & Hq & _) & _ & _ & _ & Ht).
    split; [rewrite Hu, Hau, (endpoints_acquire_user_id _ _ _ Ha); reflexivity|].
    split.
    + rewrite Htab, Hq. reflexivity.
    + rewrite Htr, Ht, <- app_assoc. reflexivity.
  - apply ingestion_except_status in H. rewrite H in Hst. discriminate Hst.
Qed.

(** C6, as the specification words it, fails on [/pendingbotposts] of
    [src/endpoints.py]: the mapping table knows the supplied username, yet
    the record is filed under the bot's own user id, and no lookup is
    made. *)
Lemma pending_post_filed_under_bot_identity :
  mapped_user_id (field "twitter_username" Sample.post_by_someone)
    (Sample.with_mapping [Sample.mapping_row] (Sample.boot Sample.calm)) = JStr "u9" /\
  map (dict_lookup "user_id")
      (w_twitter_posts
         (snd (Endpoints.create_post_by_bot_for_approval (JObj Sample.post_by_someone)
                 (Sample.with_mapping [Sample.mapping_row] (Sample.boot Sample.calm)))))
    = [Some (JStr "bot-7")] /\
  ~ records_mapped_identity Endpoints.create_post_by_bot_for_approval.
Proof.
  split; [vm_compute; reflexivity|].
  split; [vm_compute; reflexivity|].
  intros H.
  destruct (H Sample.post_by_someone
              (Sample.with_mapping [Sample.mapping_row] (Sample.boot Sample.calm))
              (snd (Endpoints.create_post_by_bot_for_approval (JObj Sample.post_by_someone)
                      (Sample.with_mapping [Sample.mapping_row] (Sample.boot Sample.calm))))
              {| status := 201;
                 body := JObj [("success", JBool true);
                               ("data", rows_json
                                  [[("user_id", JStr "bot-7"); ("content", JStr "hi");
                                    ("post_type", JStr "text"); ("media_url", JNull);
                                    ("twitter_unique_id", JStr "t2");
                                    ("twitter_username", JStr "someone");
                                    ("source", JStr "twitter"); ("location", JNull)]]);
                               ("message", JStr "Post created successfully")] |})
    as (record & Hu & Hp & _).
  - apply run_of_fst. vm_compute. reflexivity.
  - reflexivity.
  - vm_compute in Hp. injection Hp as <-.
    vm_compute in Hu. discriminate Hu.
Qed.

(** The mapping lookup never raises: what the database raises at it is
    caught, and the call is counted all the same. *)
Lemma resolve_user_id_world (username : json) (w : world) :
  exists w1,
    Index.resolve_user_id username w = (Ok (mapped_user_id username w), w1) /\
    w_env w1 = w_env w /\
    w_db_calls w1 = w_db_calls w + List.length (lookup_events username) /\
    same_data w w1 /\
    w_trace w1 = w_trace w ++ lookup_events username.
Proof.
  unfold Index.resolve_user_id, mapped_user_id, lookup_events, next_db_fault,
    table_select_eq, db_call, py_getitem, project, default_identity, same_data.
  unfold_monad.
  destruct (py_truthy username); cbn.
  - destruct (e_db_fault (w_env w) (w_db_calls w)); cbn.
    + eexists. repeat split; cbn; lia.
    + destruct (filter (row_matches "username" username) (w_twitter_id_map w))
        as [|m ms]; cbn.
      * eexists. repeat split; cbn; lia.
      * destruct (dict_lookup "user_id" m) as [u|]; cbn.
        -- eexists. repeat split; cbn; lia.
        -- eexists. repeat split; cbn; lia.
  - exists w. rewrite app_nil_r. repeat split; cbn; lia.
Qed.

(** With the database answering, the insert puts the record in the table
    and answers 201 with it. *)
Lemma insert_post_ok (t : table) (o : dict) (post_data : dict) (w : world) :
  media_listed o ->
  next_db_fault w = None ->
  insert_post t (JObj o) post_data w =
  (Ok (created post_data),
   set_table t (get_table t w ++ [post_data])
     (set_trace (w_trace w ++ [EvDbInsert t post_data])
        (set_db_calls (S (w_db_calls w)) w))).
Proof.
  unfold media_listed, next_db_fault, insert_post, table_insert, db_call, py_get, py_len,
    created.
  unfold_monad.
  intros Hm Hf.
  destruct Hm as [[Hm | [Hm | Hm]] | [urls Hm]]; rewrite Hm; cbn;
    try (destruct urls; cbn); rewrite Hf; cbn; reflexivity.
Qed.

Lemma except_answers_500 (cleanup : json -> M unit) (o : dict) (e : exn) (w : world) :
  cleanup_function cleanup -> media_listed o ->
  fst (ingestion_except cleanup (JObj o) e w) = Ok (failure (str_exn e) 500).
Proof.
  intros Hc [Hm | [urls Hm]].
  - rewrite (except_without_media cleanup o e w Hm). reflexivity.
  - destruct urls as [|u urls'].
    + rewrite (except_without_media cleanup o e w); [reflexivity|].
      right. right. exact Hm.
    + rewrite (except_with_media cleanup o (u :: urls') e w Hc Hm); [reflexivity|discriminate].
Qed.

(** [/pendingbotposts] of [src/api/index.py] on a complete request: the
    lookup, then the insert of the record under the identity it gave. *)
Lemma index_pending_run (o : dict) (w : world) :
  missing_item (JObj o) = None ->
  exists w1,
    w_env w1 = w_env w /\
    w_db_calls w1 = w_db_calls w + List.length (lookup_events (field "twitter_username" o)) /\
    w_twitter_posts w1 = w_twitter_posts w /\
    w_trace w1 = w_trace w ++ lookup_events (field "twitter_username" o) /\
    Index.create_post_by_bot_for_approval (JObj o) w =
    match insert_post twitter_posts (JObj o) (pending_record o w) w1 with
    | (Ok r, w2) => (Ok r, w2)
    | (Raise e, w2) => ingestion_except Index.delete_media_from_storage (JObj o) e w2
    end.
Proof.
  intros Hv.
  unfold Index.create_post_by_bot_for_approval,
    Index.create_post_by_bot_for_approval_try, try_except.
  rewrite validate_post_dict, Hv.
  rewrite bind_run, py_get_dict. cbv beta iota.
  fold (field "twitter_username" o).
  set (username := field "twitter_username" o) in *.
  rewrite bind_run.
  assert (Ha : exists w0, Index.get_supabase_admin w = (Ok tt, w0) /\
                          w_env w0 = w_env w /\ w_db_calls w0 = w_db_calls w /\
                          w_trace w0 = w_trace w /\ same_data w w0 /\
                          mapped_user_id username w0 = mapped_user_id username w).
  { unfold Index.get_supabase_admin. unfold_monad.
    destruct (w_supabase_admin w); eexists; repeat split. }
  destruct Ha as (w0 & Ha & He0 & Hc0 & Ht0 & Hd0 & Hm0).
  rewrite Ha. cbv beta iota.
  rewrite bind_run.
  destruct (resolve_user_id_world username w0) as (w1 & Hr & He1 & Hc1 & Hd1 & Ht1).
  rewrite Hr. cbv beta iota.
  repeat (rewrite bind_run, py_get_dict; cbv beta iota).
  exists w1.
  destruct Hd0 as (_ & Hq0 & _). destruct Hd1 as (_ & Hq1 & _).
  split; [congruence|]. split; [congruence|]. split; [congruence|].
  split; [congruence|].
  rewrite Hm0. reflexivity.
Qed.

Lemma index_pending_answer (o : dict) (w : world) :
  missing_item (JObj o) = None -> media_listed o ->
  (pending_insert_fault o w = None ->
   fst (Index.create_post_by_bot_for_approval (JObj o) w)
     = Ok (created (pending_record o w)) /\
   w_twitter_posts (snd (Index.create_post_by_bot_for_approval (JObj o) w))
     = w_twitter_posts w ++ [pending_record o w] /\
   w_trace (snd (Index.create_post_by_bot_for_approval (JObj o) w))
     = w_trace w ++ lookup_events (field "twitter_username" o)
       ++ [EvDbInsert twitter_posts (pending_record o w)]) /\
  (forall e : exn,
     pending_insert_fault o w = Some e ->
     fst (Index.create_post_by_bot_for_approval (JObj o) w)
       = Ok (failure (str_exn e) 500)).
Proof.
  intros Hv Hm.
  destruct (index_pending_run o w Hv) as (w1 & He & Hc & Hq & Ht & Hrun).
  assert (Hf : next_db_fault w1 = pending_insert_fault o w).
  { unfold next_db_fault, pending_insert_fault. rewrite He, Hc. reflexivity. }
  rewrite Hrun. split.
  - intros Hnone. rewrite <- Hf in Hnone.
    rewrite (insert_post_ok twitter_posts o _ w1 Hm Hnone).
    cbn [fst snd]. split; [reflexivity|]. split.
    + cbn. rewrite Hq. reflexivity.
    + cbn. rewrite Ht, <- app_assoc. reflexivity.
  - intros e Hsome. rewrite <- Hf in Hsome.
    destruct (insert_post_fault twitter_posts o (pending_record o w) w1 e Hm Hsome)
      as (Hr & _ & _).
    destruct (insert_post twitter_posts (JObj o) (pending_record o w) w1) as [res w2].
    cbn [fst] in Hr. subst res.
    apply except_answers_500; [left; reflexivity | exact Hm].
Qed.

(** C6, amended.  On [/pendingbotposts] of [src/api/index.py]: (1) a
    request that is accepted (201) has put one record in the pending table
    whose [user_id] is, with a non-empty [twitter_username] supplied, the
    [user_id] of the first row the mapping table has under that username,
    the lookup having been made, and the fixed default identity when no
    row matches, when the lookup raises and when no username is supplied;
    (2) resolving the identity never raises; (3) on a complete request
    whose [media_url] is absent, null or a list, the answer depends on the
    insert alone: 201 with the record under that identity when the
    database takes the insert, 500 with the insert's error otherwise;
    (4) in particular, when the lookup raises and the insert is taken, the
    request is answered 201, the record is filed under the default
    identity, and the calls made are the lookup and the insert: the lookup
    error is not surfaced.  (5) On [/pendingbotposts] of
    [src/endpoints.py] no lookup is made: the record is filed under the
    cached bot identity's user id, and the only calls before the insert
    are logins. *)
Theorem pending_post_identity :
  records_mapped_identity Index.create_post_by_bot_for_approval /\
  (forall (username : json) (w : world),
     exists w1 : world,
       Index.resolve_user_id username w = (Ok (mapped_user_id username w), w1) /\
       w_trace w1 = w_trace w ++ lookup_events username) /\
  (forall (o : dict) (w : world),
     missing_item (JObj o) = None -> media_listed o ->
     (pending_insert_fault o w = None ->
      fst (Index.create_post_by_bot_for_approval (JObj o) w)
        = Ok (created (pending_record o w)) /\
      w_twitter_posts (snd (Index.create_post_by_bot_for_approval (JObj o) w))
        = w_twitter_posts w ++ [pending_record o w] /\
      w_trace (snd (Index.create_post_by_bot_for_approval (JObj o) w))
        = w_trace w ++ lookup_events (field "twitter_username" o)
          ++ [EvDbInsert twitter_posts (pending_record o w)]) /\
     (forall e : exn,
        pending_insert_fault o w = Some e ->
        fst (Index.create_post_by_bot_for_approval (JObj o) w)
          = Ok (failure (str_exn e) 500))) /\
  (forall (o : dict) (w : world) (e : exn),
     missing_item (JObj o) = None -> media_listed o ->
     py_truthy (field "twitter_username" o) = true ->
     next_db_fault w = Some e ->
     second_db_fault w = None ->
     fst (Index.create_post_by_bot_for_approval (JObj o) w)
       = Ok (created (post_record default_identity o
                      ++ [("link_preview", field "link_preview" o)])) /\
     w_trace (snd (Index.create_post_by_bot_for_approval (JObj o) w))
       = w_trace w
         ++ [EvDbSelect twitter_id_map "username" (field "twitter_username" o);
             EvDbInsert twitter_posts
               (post_record default_identity o
                ++ [("link_preview", field "link_preview" o)])]) /\
  (forall (o : dict) (w w' : world) (r : response),
     Endpoints.create_post_by_bot_for_approval (JObj o) w = (Ok r, w') ->
     status r = 201%Z ->
     exists (record : dict) (n : nat),
       dict_lookup "user_id" record = Some (json_of_opt (user_id (w_auth w'))) /\
       w_twitter_posts w' = w_twitter_posts w ++ [record] /\
       w_trace w' = w_trace w ++ repeat EvLogin n ++ [EvDbInsert twitter_posts record]).
Proof.
  split; [exact index_records_mapped_identity|].
  split.
  { intros username w.
    destruct (resolve_user_id_world username w) as (w1 & Hr & _ & _ & _ & Ht).
    exists w1. split; assumption. }
  split; [exact index_pending_answer|].
  split; [|exact endpoints_pending_records_bot_identity].
  intros o w e Hv Hm Hu Hlookup Hinsert.
  assert (Hrec : pending_record o w
                 = post_record default_identity o
                   ++ [("link_preview", field "link_preview" o)]).
  { unfold pending_record, mapped_user_id. rewrite Hu, Hlookup. reflexivity. }
  assert (Hf : pending_insert_fault o w = None).
  { unfold pending_insert_fault, lookup_events. rewrite Hu. cbn [List.length].
    rewrite Nat.add_1_r. exact Hinsert. }
  destruct (proj1 (index_pending_answer o w Hv Hm) Hf) as (Hr & _ & Ht).
  rewrite Hrec in Hr, Ht. split; [exact Hr|].
  rewrite Ht. unfold lookup_events. rewrite Hu. reflexivity.
Qed.

(* ===================================================================== *)
(** * The theorems at work on concrete requests                            *)
(* ===================================================================== *)

Lemma failed_ingestion_cleans_up_media_witness :
  Index.create_post_by_bot (JObj Sample.good_post_fields) (Sample.boot Sample.db_down) =
    (Ok (failure "connection refused" 500),
     snd (Index.delete_media_from_storage
            (JList [JStr Sample.url1; JStr Sample.url2])
            (snd (Index.create_post_by_bot_try (JObj Sample.good_post_fields)
                    (Sample.boot Sample.db_down))))) /\
  Endpoints.create_post_by_bot_for_approval (JObj Sample.text_post_fields)
      (Sample.boot Sample.db_down) =
    (Ok (failure "connection refused" 500),
     snd (Endpoints.create_post_by_bot_for_approval_try (JObj Sample.text_post_fields)
            (Sample.boot Sample.db_down))).
Proof.
  split.
  - refine (proj1 (failed_ingestion_cleans_up_media
                     Index.create_post_by_bot_try Index.create_post_by_bot
                     Index.delete_media_from_storage
                     Sample.good_post_fields (Sample.boot Sample.db_down)
                     (snd (Index.create_post_by_bot_try (JObj Sample.good_post_fields)
                             (Sample.boot Sample.db_down)))
                     (Exception "connection refused") index_direct _)
                  [JStr Sample.url1; JStr Sample.url2] _ _).
    + apply run_of_fst. vm_compute. reflexivity.
    + vm_compute. reflexivity.
    + discriminate.
  - refine (proj2 (failed_ingestion_cleans_up_media
                     Endpoints.create_post_by_bot_for_approval_try
                     Endpoints.create_post_by_bot_for_approval
                     Endpoints.delete_media_from_storage
                     Sample.text_post_fields (Sample.boot Sample.db_down)
                     (snd (Endpoints.create_post_by_bot_for_approval_try
                             (JObj Sample.text_post_fields) (Sample.boot Sample.db_down)))
                     (Exception "connection refused") endpoints_pending _) _).
    + apply run_of_fst. vm_compute. reflexivity.
    + left. vm_compute. reflexivity.
Defined.

Lemma incomplete_request_rejected_witness :
  (fst (Index.create_post_by_bot_for_approval Sample.no_content
          (Sample.boot Sample.no_session))
     = Ok (failure "content is required" 400) /\
   same_data (Sample.boot Sample.no_session)
     (snd (Index.create_post_by_bot_for_approval Sample.no_content
             (Sample.boot Sample.no_session)))) /\
  (Index.create_post_by_bot Sample.no_content (Sample.boot Sample.calm)
     = (Ok (failure "content is required" 400),
        snd (Index.acquire_identity (Sample.boot Sample.calm))) /\
   same_data (Sample.boot Sample.calm)
     (snd (Index.acquire_identity (Sample.boot Sample.calm)))).
Proof.
  split.
  - refine (proj1 incomplete_request_rejected Sample.no_content
              "content is required" (Sample.boot Sample.no_session) _).
    vm_compute. reflexivity.
  - refine (proj2 incomplete_request_rejected
              Index.acquire_identity Index.create_post_by_bot
              Sample.no_content "content is required" (Sample.boot Sample.calm)
              (snd (Index.acquire_identity (Sample.boot Sample.calm)))
              (Some "bot-7") token_first_index_direct _ _).
    + vm_compute. reflexivity.
    + apply run_of_fst. vm_compute. reflexivity.
Defined.

Lemma incomplete_request_makes_no_database_or_storage_call_witness :
  w_trace (snd (Index.create_post_by_bot_for_approval Sample.no_content
                  (Sample.boot Sample.no_session)))
    = w_trace (Sample.boot Sample.no_session) /\
  only_logins (Sample.boot Sample.calm)
    (snd (Endpoints.create_post_by_bot Sample.no_content (Sample.boot Sample.calm))).
Proof.
  split.
  - refine (proj1 incomplete_request_makes_no_database_or_storage_call
              Sample.no_content "content is required"
              (Sample.boot Sample.no_session) _
              (failure "content is required" 400) _ _ _).
    + vm_compute. reflexivity.
    + apply run_of_fst. vm_compute. reflexivity.
    + reflexivity.
  - refine (proj2 incomplete_request_makes_no_database_or_storage_call
              Endpoints.acquire_identity Endpoints.create_post_by_bot
              Sample.no_content "content is required"
              (Sample.boot Sample.calm) _
              (failure "content is required" 400)
              token_first_endpoints_direct _ _ _).
    + vm_compute. reflexivity.
    + apply run_of_fst. vm_compute. reflexivity.
    + reflexivity.
Defined.

Lemma credential_cache_contract_witness :
  Index.get_token Sample.logged_in =
    (Ok (token (w_auth Sample.logged_in)),
     set_clock (S (w_clock Sample.logged_in)) Sample.logged_in) /\
  (fst (Endpoints.get_token (Sample.boot Sample.calm)) = Ok (Some "tok-1") /\
   w_auth (snd (Endpoints.get_token (Sample.boot Sample.calm))) =
     {| token := Some "tok-1"; user_id := Some "bot-7";
        expires_at :=
          Some (last_reading (snd (Endpoints.get_token (Sample.boot Sample.calm)))
                + one_hour)%Z |}) /\
  fst (Index.get_token (Sample.boot Sample.no_session))
    = Raise (Exception "Bot login failed").
Proof.
  split; [|split].
  - refine (proj1 (credential_cache_contract Index.get_token Sample.logged_in
                     (or_introl eq_refl)) _).
    vm_compute. reflexivity.
  - refine (proj1 (proj2 (proj2 (credential_cache_contract Endpoints.get_token
                                   (Sample.boot Sample.calm) (or_intror eq_refl)) _))
                  {| access_token := "tok-1" |} {| id := "bot-7" |} _).
    + vm_compute. reflexivity.
    + reflexivity.
  - refine (proj2 (proj2 (proj2 (credential_cache_contract Index.get_token
                                   (Sample.boot Sample.no_session) (or_introl eq_refl)) _))
                  _).
    + vm_compute. reflexivity.
    + vm_compute. reflexivity.
Defined.

Lemma failed_login_leaves_cache_untouched_witness :
  fst (Index.get_token (Sample.boot Sample.no_session))
    = Raise (Exception "Bot login failed") /\
  w_auth (snd (Index.get_token (Sample.boot Sample.no_session)))
    = w_auth (Sample.boot Sample.no_session) /\
  w_trace (snd (Index.get_token (snd (Index.get_token (Sample.boot Sample.no_session)))))
    = w_trace (snd (Index.get_token (Sample.boot Sample.no_session))) ++ [EvLogin].
Proof.
  pose proof (failed_login_leaves_cache_untouched Index.get_token
                (Sample.boot Sample.no_session) (or_introl eq_refl)) as H.
  assert (H1 : w_logins (snd (Index.get_token (Sample.boot Sample.no_session)))
               <> w_logins (Sample.boot Sample.no_session))
    by (vm_compute; discriminate).
  assert (H2 : login_without_session (Sample.boot Sample.no_session) = true)
    by (vm_compute; reflexivity).
  destruct (H H1 H2) as (Hr & Ha & Hn).
  split; [exact Hr|]. split; [exact Ha|].
  apply Hn.
  - intros i j Hij. change (1000000 * Z.of_nat i <= 1000000 * Z.of_nat j)%Z. lia.
  - reflexivity.
  - reflexivity.
  - vm_compute. auto.
Defined.

Lemma media_cleanup_best_effort_witness :
  fst (Index.delete_media_from_storage
         (JList (map JStr [Sample.url1; "https://elsewhere.example/x.png"; Sample.url2]))
         (Sample.boot Sample.s3_down)) = Ok tt /\
  w_trace (snd (Index.delete_media_from_storage
         (JList (map JStr [Sample.url1; "https://elsewhere.example/x.png"; Sample.url2]))
         (Sample.boot Sample.s3_down))) =
    w_trace (Sample.boot Sample.s3_down) ++
    deletions (e_bucket (w_env (Sample.boot Sample.s3_down)))
      [Sample.url1; "https://elsewhere.example/x.png"; Sample.url2].
Proof.
  exact (proj2 (media_cleanup_best_effort Index.delete_media_from_storage
                  (Sample.boot Sample.s3_down) (or_introl eq_refl))
               [Sample.url1; "https://elsewhere.example/x.png"; Sample.url2]).
Defined.

Lemma pending_post_identity_witness :
  (exists record : dict,
     dict_lookup "user_id" record
       = Some (mapped_user_id (field "twitter_username" Sample.post_by_someone)
                 (Sample.with_mapping [Sample.mapping_row] (Sample.boot Sample.calm))) /\
     w_twitter_posts
       (snd (Index.create_post_by_bot_for_approval (JObj Sample.post_by_someone)
               (Sample.with_mapping [Sample.mapping_row] (Sample.boot Sample.calm))))
       = w_twitter_posts (Sample.with_mapping [Sample.mapping_row] (Sample.boot Sample.calm))
         ++ [record] /\
     w_trace
       (snd (Index.create_post_by_bot_for_approval (JObj Sample.post_by_someone)
               (Sample.with_mapping [Sample.mapping_row] (Sample.boot Sample.calm))))
       = w_trace (Sample.with_mapping [Sample.mapping_row] (Sample.boot Sample.calm))
         ++ lookup_events (field "twitter_username" Sample.post_by_someone)
         ++ [EvDbInsert twitter_posts record]) /\
  (fst (Index.create_post_by_bot_for_approval (JObj Sample.post_by_someone)
          (Sample.with_mapping [Sample.mapping_row]
             (Sample.boot Sample.first_db_call_fails)))
     = Ok (created (post_record default_identity Sample.post_by_someone
                    ++ [("link_preview", field "link_preview" Sample.post_by_someone)])) /\
   w_trace
     (snd (Index.create_post_by_bot_for_approval (JObj Sample.post_by_someone)
             (Sample.with_mapping [Sample.mapping_row]
                (Sample.boot Sample.first_db_call_fails))))
     = w_trace (Sample.with_mapping [Sample.mapping_row]
                  (Sample.boot Sample.first_db_call_fails))
       ++ [EvDbSelect twitter_id_map "username"
             (field "twitter_username" Sample.post_by_someone);
           EvDbInsert twitter_posts
             (post_record default_identity Sample.post_by_someone
              ++ [("link_preview", field "link_preview" Sample.post_by_someone)])]) /\
  fst (Index.create_post_by_bot_for_approval (JObj Sample.post_by_someone)
         (Sample.with_mapping [Sample.mapping_row]
            (Sample.boot Sample.second_db_call_fails)))
    = Ok (failure (str_exn (Exception "duplicate key")) 500).
Proof.
  split; [|split].
  - refine (proj1 pending_post_identity Sample.post_by_someone
              (Sample.with_mapping [Sample.mapping_row] (Sample.boot Sample.calm))
              _
              {| status := 201;
                 body := JObj [("success", JBool true);
                               ("data", rows_json
                                  [[("user_id", JStr "u9"); ("content", JStr "hi");
                                    ("post_type", JStr "text"); ("media_url", JNull);
                                    ("twitter_unique_id", JStr "t2");
                                    ("twitter_username", JStr "someone");
                                    ("source", JStr "twitter"); ("location", JNull);
                                    ("link_preview", JNull)]]);
                               ("message", JStr "Post created successfully")] |}
              _ _).
    + apply run_of_fst. vm_compute. reflexivity.
    + reflexivity.
  - refine (proj1 (proj2 (proj2 (proj2 pending_post_identity)))
              Sample.post_by_someone
              (Sample.with_mapping [Sample.mapping_row]
                 (Sample.boot Sample.first_db_call_fails))
              (Exception "statement timeout") _ _ _ _ _).
    + vm_compute. reflexivity.
    + left. left. reflexivity.
    + reflexivity.
    + reflexivity.
    + reflexivity.
  - refine (proj2 (proj1 (proj2 (proj2 pending_post_identity))
                     Sample.post_by_someone
                     (Sample.with_mapping [Sample.mapping_row]
                        (Sample.boot Sample.second_db_call_fails)) _ _)
                  (Exception "duplicate key") _).
    + vm_compute. reflexivity.
    + left. left. reflexivity.
    + reflexivity.
Defined.

Lemma approval_transfer_contract_witness :
  (fst (Index.accept_twitter_post (JObj [("twitter_unique_id", JStr "zz")])
          (Sample.with_pending [Sample.pending_row] (Sample.boot Sample.calm)))
     = Ok (failure "Twitter post not found" 404) /\
   same_data (Sample.with_pending [Sample.pending_row] (Sample.boot Sample.calm))
     (snd (Index.accept_twitter_post (JObj [("twitter_unique_id", JStr "zz")])
             (Sample.with_pending [Sample.pending_row] (Sample.boot Sample.calm))))) /\
  (fst (Index.accept_twitter_post (JObj [("twitter_unique_id", JStr "t2")])
          (Sample.with_pending [Sample.pending_row] (Sample.boot Sample.calm)))
     = Ok (transferred (copy_of Sample.pending_row)) /\
   w_posts (snd (Index.accept_twitter_post (JObj [("twitter_unique_id", JStr "t2")])
                   (Sample.with_pending [Sample.pending_row] (Sample.boot Sample.calm))))
     = w_posts (Sample.with_pending [Sample.pending_row] (Sample.boot Sample.calm))
       ++ [copy_of Sample.pending_row]).
Proof.
  split.
  - pose proof (proj1 (approval_transfer_contract
                         [("twitter_unique_id", JStr "zz")] (JStr "zz")
                         (Sample.with_pending [Sample.pending_row] (Sample.boot Sample.calm))
                         eq_refl eq_refl)) as H.
    assert (Hm : pending_matches (JStr "zz")
                   (Sample.with_pending [Sample.pending_row] (Sample.boot Sample.calm)) = [])
      by (vm_compute; reflexivity).
    destruct (H Hm) as (H404 & Hd & _).
    split; [apply H404; reflexivity | exact Hd].
  - pose proof (proj2 (approval_transfer_contract
                         [("twitter_unique_id", JStr "t2")] (JStr "t2")
                         (Sample.with_pending [Sample.pending_row] (Sample.boot Sample.calm))
                         eq_refl eq_refl)) as H.
    assert (Hm : pending_matches (JStr "t2")
                   (Sample.with_pending [Sample.pending_row] (Sample.boot Sample.calm))
                 = [Sample.pending_row])
      by (vm_compute; reflexivity).
    destruct (H Sample.pending_row [] Hm eq_refl) as (_ & Hc).
    assert (Hcols : has_columns post_columns Sample.pending_row = true)
      by (vm_compute; reflexivity).
    destruct (Hc Hcols) as (_ & Hins).
    exact (Hins eq_refl).
Defined.

(* ===================================================================== *)
(** * From a public URL back to the storage key                            *)
(* ===================================================================== *)

Lemma string_app_assoc (a b c : string) :
  ((a ++ b) ++ c)%string = (a ++ (b ++ c))%string.
Proof. induction a as [|x a IH]; cbn; [reflexivity | rewrite IH; reflexivity]. Qed.

Lemma string_app_empty_r (a : string) : (a ++ "")%string = a.
Proof. induction a as [|x a IH]; cbn; [reflexivity | rewrite IH; reflexivity]. Qed.

Lemma rev_string_acc (acc s : string) :
  rev_string acc s = (rev_string "" s ++ acc)%string.
Proof.
  revert acc. induction s as [|c s IH]; intros acc; cbn; [reflexivity|].
  rewrite (IH (String c acc)), (IH (String c "")), string_app_assoc. reflexivity.
Qed.

Lemma prefix_app (p r : string) : String.prefix p (p ++ r) = true.
Proof.
  induction p as [|c p IH]; cbn; [destruct r; reflexivity|].
  destruct (ascii_dec c c) as [_ | n]; [exact IH | contradiction].
Qed.

Lemma prefix_get (p s : string) (n : nat) :
  String.prefix p s = true -> n < String.length p ->
  String.get n p = String.get n s.
Proof.
  revert s n. induction p as [|c p IH]; intros s n H Hn; cbn in Hn; [lia|].
  destruct s as [|d s]; cbn in H; [discriminate|].
  destruct (ascii_dec c d) as [-> | _]; [|discriminate].
  destruct n as [|n]; cbn; [reflexivity|]. apply IH; [exact H | lia].
Qed.

(** A string without an occurrence of the separator is one piece. *)
Lemma split_aux_one_piece (sep s cur : string) :
  py_contains sep s = false ->
  split_aux sep s 0 cur = [(rev_string "" cur ++ s)%string].
Proof.
  revert cur. induction s as [|c s IH]; intros cur H.
  - cbn. rewrite string_app_empty_r. reflexivity.
  - cbn [py_contains] in H. apply orb_false_iff in H. destruct H as [Hp Hc].
    cbn [split_aux]. rewrite Hp, (IH _ Hc). cbn [rev_string].
    rewrite (rev_string_acc (String c "") cur), string_app_assoc. reflexivity.
Qed.

Lemma split_aux_skip (sep a s cur : string) :
  split_aux sep (a ++ s) (String.length a) cur = split_aux sep s 0 cur.
Proof.
  induction a as [|c a IH]; cbn [String.append String.length].
  - reflexivity.
  - cbn [split_aux]. exact IH.
Qed.

Lemma split_aux_at_match (sep rest cur : string) :
  sep <> ""%string ->
  split_aux sep (sep ++ rest) 0 cur = rev_string "" cur :: split_aux sep rest 0 "".
Proof.
  intros Hne. destruct sep as [|c sep]; [contradiction|].
  pose proof (prefix_app (String c sep) rest) as Hp.
  cbn [String.append] in *. cbn [split_aux]. rewrite Hp.
  replace (String.length (String c sep) - 1) with (String.length sep)
    by (cbn [String.length]; lia).
  rewrite split_aux_skip. reflexivity.
Qed.

(** When the first occurrence of the separator starts right after [h],
    the first piece is [h]. *)
Lemma split_aux_first_piece (sep h rest cur : string) :
  sep <> ""%string ->
  no_match_inside sep h (sep ++ rest) ->
  split_aux sep (h ++ sep ++ rest) 0 cur =
  (rev_string "" cur ++ h)%string :: split_aux sep rest 0 "".
Proof.
  intros Hne. revert cur.
  induction h as [|c h IH]; intros cur Hin.
  - cbn [String.append]. rewrite string_app_empty_r.
    apply split_aux_at_match. exact Hne.
  - destruct Hin as [Hp Hin]. cbn [String.append] in *.
    cbn [split_aux]. rewrite Hp, (IH _ Hin). cbn [rev_string].
    rewrite (rev_string_acc (String c "") cur), string_app_assoc. reflexivity.
Qed.

Lemma py_contains_app (p h r : string) :
  p <> ""%string ->
  py_contains p (h ++ p ++ r) = true.
Proof.
  intros Hne.
  induction h as [|c h IH].
  - cbn [String.append]. destruct p as [|x p].
    + contradiction.
    + pose proof (prefix_app (String x p) r) as Hp.
      cbn [String.append] in *. cbn [py_contains]. rewrite Hp. reflexivity.
  - cbn [String.append py_contains]. rewrite IH. apply orb_true_r.
Qed.

Lemma string_length_app (a b : string) :
  String.length (a ++ b) = String.length a + String.length b.
Proof. induction a as [|c a IH]; cbn; [reflexivity | rewrite IH; reflexivity]. Qed.

Lemma bucket_prefix_nonempty (bucket : option string) : bucket_prefix bucket <> ""%string.
Proof.
  unfold bucket_prefix. intros H.
  apply (f_equal String.length) in H. rewrite string_length_app in H.
  cbn in H. lia.
Qed.

(** Up to its last character the public-URL prefix of a bucket whose name
    has no slash has no slash. *)
Lemma bucket_prefix_slash (b : string) (n : nat) :
  slashless b = true -> n <= 7 ->
  String.get n (b ++ ".s3.amazonaws.com/") <> Some "/"%char.
Proof.
  revert n. induction b as [|c b IH]; intros n Hb Hn.
  - do 8 (destruct n as [|n]; [cbn; discriminate|]). lia.
  - cbn in Hb. apply andb_true_iff in Hb. destruct Hb as [Hc Hb].
    destruct n as [|n]; cbn.
    + intros [= ->]. discriminate Hc.
    + apply IH; [exact Hb | lia].
Qed.

Lemma no_match_at_slash (bucket : option string) (s : string) (n : nat) :
  slashless (py_str_opt bucket) = true -> n <= 7 ->
  String.get n s = Some "/"%char ->
  String.prefix (bucket_prefix bucket) s = false.
Proof.
  intros Hb Hn Hs.
  destruct (String.prefix (bucket_prefix bucket) s) eqn:Hp; [|reflexivity].
  exfalso. apply (bucket_prefix_slash (py_str_opt bucket) n Hb Hn).
  unfold bucket_prefix in Hp.
  rewrite (prefix_get _ _ n Hp); [exact Hs|].
  rewrite string_length_app. cbn. lia.
Qed.

Lemma https_no_match (bucket : option string) (tail : string) :
  slashless (py_str_opt bucket) = true ->
  no_match_inside (bucket_prefix bucket) "https://" tail.
Proof.
  intros Hb. cbn [no_match_inside].
  repeat split.
  - apply (no_match_at_slash bucket _ 6 Hb); [lia | reflexivity].
  - apply (no_match_at_slash bucket _ 5 Hb); [lia | reflexivity].
  - apply (no_match_at_slash bucket _ 4 Hb); [lia | reflexivity].
  - apply (no_match_at_slash bucket _ 3 Hb); [lia | reflexivity].
  - apply (no_match_at_slash bucket _ 2 Hb); [lia | reflexivity].
  - apply (no_match_at_slash bucket _ 1 Hb); [lia | reflexivity].
  - apply (no_match_at_slash bucket _ 0 Hb); [lia | reflexivity].
  - apply (no_match_at_slash bucket _ 0 Hb); [lia | reflexivity].
Qed.

Lemma public_url_shape (bucket : option string) (k : string) :
  public_url_of bucket k = ("https://" ++ bucket_prefix bucket ++ k)%string.
Proof.
  unfold public_url_of, bucket_prefix.
  rewrite (string_app_assoc (py_str_opt bucket)). reflexivity.
Qed.

(** X1. The public URL of an object leads back to its key: for a bucket
    whose name has no slash and a key that does not itself contain the
    bucket's public-URL prefix, the URL [https://{bucket}.s3.amazonaws.com/{key}]
    is well formed for Media Cleanup, and the key Media Cleanup derives
    from it is that key. *)
Theorem public_url_round_trip :
  forall (bucket : option string) (k : string),
    slashless (py_str_opt bucket) = true ->
    py_contains (bucket_prefix bucket) k = false ->
    well_formed_url bucket (public_url_of bucket k) = true /\
    storage_key bucket (public_url_of bucket k) = k.
Proof.
  intros bucket k Hb Hk.
  pose proof (bucket_prefix_nonempty bucket) as Hne.
  unfold well_formed_url, storage_key. rewrite public_url_shape. split.
  - apply py_contains_app. exact Hne.
  - unfold py_split.
    rewrite (split_aux_first_piece _ _ _ _ Hne (https_no_match bucket _ Hb)).
    rewrite (split_aux_one_piece _ _ _ Hk). reflexivity.
Qed.

(* ===================================================================== *)
(** * The upload handlers: extension, answers, validation                  *)
(* ===================================================================== *)

Lemma dotless_rev (acc s : string) :
  dotless acc -> dotless s -> dotless (rev_string acc s).
Proof.
  revert acc. induction s as [|c s IH]; intros acc Ha Hs; cbn; [exact Ha|].
  apply IH.
  - intros d [<- | Hd]; [apply Hs; left; reflexivity | apply Ha; exact Hd].
  - intros d Hd. apply Hs. right. exact Hd.
Qed.

Lemma split_dot_pieces (s cur : string) :
  dotless cur -> Forall dotless (split_aux "." s 0 cur).
Proof.
  revert cur. induction s as [|c s IH]; intros cur Hc.
  - cbn. constructor; [|constructor].
    apply dotless_rev; [intros d [] | exact Hc].
  - cbn [split_aux String.prefix].
    destruct (ascii_dec "." c) as [<- | Hne].
    + destruct s; (constructor;
        [apply dotless_rev; [intros d [] | exact Hc] | apply IH; intros d []]).
    + apply IH. intros d [<- | Hd]; [congruence | apply Hc; exact Hd].
Qed.

Lemma dotless_no_dot (s : string) : dotless s -> py_contains "." s = false.
Proof.
  induction s as [|c s IH]; intros H; cbn [py_contains String.prefix]; [reflexivity|].
  destruct (ascii_dec "." c) as [<- | Hne].
  - exfalso. apply (H "."%char); [left; reflexivity | reflexivity].
  - cbn. apply IH. intros d Hd. apply H. right. exact Hd.
Qed.

Lemma last_Forall {A : Type} (P : A -> Prop) (l : list A) (d : A) :
  Forall P l -> P d -> P (last l d).
Proof.
  induction l as [|x l IH]; intros Hl Hd; [exact Hd|].
  inversion Hl as [|? ? Hx Hl']; subst.
  destruct l as [|y l]; [exact Hx|]. apply IH; assumption.
Qed.

(** X3. The extension [file_name.split('.')[-1]] never contains a dot, and
    a file name without a dot is its own extension. *)
Theorem extension_has_no_dot :
  forall file_name : string,
    dotless (extension file_name) /\
    (dotless file_name -> extension file_name = file_name).
Proof.
  intros file_name. unfold extension, py_split. split.
  - apply last_Forall; [apply split_dot_pieces; intros d [] | intros d []].
  - intros H. rewrite (split_aux_one_piece _ _ _ (dotless_no_dot _ H)). reflexivity.
Qed.

(* ===================================================================== *)
(** * Upload URL Issuer: the avatar key                                    *)
(* ===================================================================== *)





Lemma upload_answer (h : (json -> string) -> json -> M response)
    (fmt : json -> string) (data : json) (w w' : world) (r : response) :
  issues_upload_url h ->
  h fmt data w = (Ok r, w') -> status r = 200%Z ->
  exists presigned key,
    r = upload_response presigned (public_url_of (e_bucket (w_env w)) key) key.
Proof.
  intros [[-> | ->] | [-> | ->]] Hrun Hst;
    unfold Index.get_upload_url, Endpoints.get_upload_url,
      Index.get_avatar_upload_url, Endpoints.get_avatar_upload_url,
      Index.get_s3_client, Index.get_s3_bucket, Endpoints.S3_BUCKET,
      generate_presigned_url, time_millis, file_ext_of, py_split_method, py_get in Hrun;
    unfold_monad;
    repeat (break_in Hrun; cbn in Hrun; try discriminate Hrun);
    injection Hrun as <- <-; try discriminate Hst;
    eexists; eexists; reflexivity.
Qed.

(** X2. What the upload handlers hand out, Media Cleanup finds again: when
    any of the four upload handlers answers 200, the [public_url] of the
    answer, given to Media Cleanup of either file, makes it issue exactly
    one [delete_object] call, for the [s3_key] of the same answer (the
    bucket name having no slash, the key not containing the bucket's
    public-URL prefix). *)
Theorem issued_url_is_cleaned_up :
  forall (h : (json -> string) -> json -> M response) (fmt : json -> string)
         (data : json) (w w' : world) (r : response)
         (f : json -> M unit) (w2 : world),
    issues_upload_url h -> cleanup_function f ->
    h fmt data w = (Ok r, w') -> status r = 200%Z ->
    e_bucket (w_env w2) = e_bucket (w_env w) ->
    slashless (py_str_opt (e_bucket (w_env w))) = true ->
    exists url key : string,
      response_public_url r = Some (JStr url) /\
      response_s3_key r = Some (JStr key) /\
      (py_contains (bucket_prefix (e_bucket (w_env w))) key = false ->
       w_trace (snd (f (JList [JStr url]) w2)) =
       w_trace w2 ++ [EvS3Delete (e_bucket (w_env w)) key]).
Proof.
  intros h fmt data w w' r f w2 Hh Hf Hrun Hst Hb Hs.
  destruct (upload_answer h fmt data w w' r Hh Hrun Hst) as (presigned & key & ->).
  exists (public_url_of (e_bucket (w_env w)) key), key.
  split; [reflexivity|]. split; [reflexivity|].
  intros Hk.
  destruct (public_url_round_trip _ _ Hs Hk) as [Hwf Hkey].
  pose proof (cleanup_trace f [public_url_of (e_bucket (w_env w)) key] w2 Hf) as Ht.
  cbn [map] in Ht. rewrite Ht, Hb.
  unfold deletions. cbn [filter]. rewrite Hwf. cbn [map]. rewrite Hkey. reflexivity.
Qed.

Lemma json_or_empty_obj (o : dict) : Endpoints.json_or_empty (JObj o) = JObj o.
Proof. destruct o; reflexivity. Qed.

(** X4. An upload request that lacks one of its required fields, or
    carries it empty, is answered 400 [Missing required fields], and
    nothing else happens: the clock is not read, nothing is signed. *)
Theorem upload_request_missing_field :
  forall (h : (json -> string) -> json -> M response) (fmt : json -> string)
         (o : dict) (w : world),
    (upload_handler h -> all_present upload_fields o = false ->
     h fmt (JObj o) w = (Ok (error_only "Missing required fields" 400), w)) /\
    (avatar_upload_handler h -> all_present avatar_fields o = false ->
     h fmt (JObj o) w = (Ok (error_only "Missing required fields" 400), w)).
Proof.
  intros h fmt o w. split.
  - intros Hh H.
    change (forallb py_truthy [field "user_id" o; field "file_type" o;
                               field "file_name" o; field "content_type" o] = false) in H.
    unfold field in H.
    destruct Hh as [-> | ->];
      unfold Index.get_upload_url, Endpoints.get_upload_url;
      rewrite ?json_or_empty_obj;
      unfold try_except; repeat (rewrite bind_run, py_get_dict; cbv beta iota);
      rewrite H; reflexivity.
  - intros Hh H.
    change (forallb py_truthy [field "user_id" o; field "file_name" o;
                               field "content_type" o] = false) in H.
    unfold field in H.
    destruct Hh as [-> | ->];
      unfold Index.get_avatar_upload_url, Endpoints.get_avatar_upload_url;
      rewrite ?json_or_empty_obj;
      unfold try_except; repeat (rewrite bind_run, py_get_dict; cbv beta iota);
      rewrite H; reflexivity.
Qed.

(** X5. A body that is not a JSON object.  [src/api/index.py] calls
    [get] on it and answers 500 with the attribute error, also when there
    is no body at all; [src/endpoints.py] reads a missing or empty body as
    an empty request and answers 400, and answers 500 only for a non-empty
    body that is not an object. *)
Theorem upload_request_malformed_body :
  forall (fmt : json -> string) (data : json) (w : world),
    (match data with JObj _ => False | _ => True end ->
     Index.get_upload_url fmt data w
       = (Ok (error_only (str_exn (no_attribute data "get")) 500), w) /\
     Index.get_avatar_upload_url fmt data w
       = (Ok (error_only (str_exn (no_attribute data "get")) 500), w)) /\
    (py_truthy data = false ->
     Endpoints.get_upload_url fmt data w
       = (Ok (error_only "Missing required fields" 400), w) /\
     Endpoints.get_avatar_upload_url fmt data w
       = (Ok (error_only "Missing required fields" 400), w)) /\
    (not_an_object data = true ->
     Endpoints.get_upload_url fmt data w
       = (Ok (error_only (str_exn (no_attribute data "get")) 500), w) /\
     Endpoints.get_avatar_upload_url fmt data w
       = (Ok (error_only (str_exn (no_attribute data "get")) 500), w)).
Proof.
  intros fmt data w. split; [|split].
  - intros Hd. destruct data; try contradiction; split; reflexivity.
  - intros Hf.
    unfold Endpoints.get_upload_url, Endpoints.get_avatar_upload_url,
      Endpoints.json_or_empty.
    rewrite Hf. split; reflexivity.
  - unfold not_an_object. intros Hn.
    apply andb_true_iff in Hn. destruct Hn as [Ht Hd].
    unfold Endpoints.get_upload_url, Endpoints.get_avatar_upload_url,
      Endpoints.json_or_empty.
    rewrite Ht. destruct data; try discriminate Hd; split; reflexivity.
Qed.

(* ===================================================================== *)
(** * [/delete-media] and more on Media Cleanup                            *)
(* ===================================================================== *)

(** X6. [/delete-media] with a non-empty list answers 200 and reports
    every entry of the list as deleted, whatever Media Cleanup achieved:
    the answer counts the entries of the request, not the objects deleted,
    and is the same when URLs are malformed or deletions raise. *)
Theorem delete_media_reports_every_url :
  forall (h : json -> M response) (f : json -> M unit)
         (o : dict) (l : list json) (w : world),
    delete_media_route h f ->
    dict_lookup "media_urls" o = Some (JList l) -> l <> [] ->
    h (JObj o) w = (Ok (deleted (List.length l)), snd (f (JList l) w)).
Proof.
  intros h f o l w Hr Hl Hne.
  assert (Hok : fst (f (JList l) w) = Ok tt).
  { apply cleanup_never_raises. destruct Hr; [left | right]; reflexivity. }
  destruct l as [|u l']; [contradiction|].
  destruct Hr; unfold Index.delete_media, Endpoints.delete_media;
    rewrite ?json_or_empty_obj;
    unfold try_except; rewrite bind_run, py_get_dict, Hl; cbv beta iota;
    cbn [py_truthy negb]; unfold py_len; unfold_monad;
    match goal with
    | |- context [?c (JList (u :: l')) w] =>
        destruct (c (JList (u :: l')) w) as [res w1]
    end;
    cbn [fst] in Hok; subst res; reflexivity.
Qed.

(** X7. [/delete-media] with nothing to delete: [media_urls] absent, null
    or empty is answered 400 and nothing is touched.  Without a body,
    [src/endpoints.py] answers that same 400, while [src/api/index.py]
    calls [get] on the missing body and answers 500. *)
Theorem delete_media_nothing_named :
  forall (w : world),
    (forall (h : json -> M response) (f : json -> M unit) (o : dict),
       delete_media_route h f -> no_media_urls o ->
       h (JObj o) w = (Ok (failure "No media URLs provided" 400), w)) /\
    (forall data : json,
       py_truthy data = false ->
       Endpoints.delete_media data w = (Ok (failure "No media URLs provided" 400), w)) /\
    (forall data : json,
       match data with JObj _ => False | _ => True end ->
       Index.delete_media data w
         = (Ok (failure (str_exn (no_attribute data "get")) 500), w)).
Proof.
  intros w. split; [|split].
  - intros h f o Hr Hm.
    destruct Hr; unfold Index.delete_media, Endpoints.delete_media;
      rewrite ?json_or_empty_obj;
      unfold try_except; rewrite bind_run, py_get_dict; cbv beta iota;
      destruct Hm as [Hm | [Hm | Hm]]; rewrite Hm; reflexivity.
  - intros data Hf. unfold Endpoints.delete_media, Endpoints.json_or_empty.
    rewrite Hf. reflexivity.
  - intros data Hd. destruct data; try contradiction; reflexivity.
Qed.

Lemma prefix_single (p : string) (c : ascii) :
  2 <= String.length p -> String.prefix p (String c "") = false.
Proof.
  destruct p as [|x [|y p]]; cbn [String.length]; try lia.
  intros _. cbn. destruct (ascii_dec x c); reflexivity.
Qed.

Lemma delete_each_chars (bucket : option string) (s : string) (w : world) :
  delete_each bucket (chars_of s) w = (Ok tt, w).
Proof.
  induction s as [|c s IH]; [reflexivity|].
  cbn [chars_of delete_each].
  rewrite bind_run. unfold try_except, delete_one.
  rewrite bind_run. cbn [py_in py_contains]. 
  rewrite prefix_single.
  - cbn. exact IH.
  - unfold bucket_prefix. rewrite string_length_app. cbn. lia.
Qed.

(** X8. Media Cleanup given one URL as a bare string, not a list, deletes
    nothing: the loop visits the characters of the string, none of which
    contains the bucket's public-URL prefix. *)
Theorem cleanup_of_a_single_string_deletes_nothing :
  forall (f : json -> M unit) (s : string) (w : world),
    cleanup_function f ->
    w_trace (snd (f (JStr s) w)) = w_trace w /\
    w_bucket (snd (f (JStr s) w)) = w_bucket w /\
    w_s3_calls (snd (f (JStr s) w)) = w_s3_calls w.
Proof.
  intros f s w [-> | ->];
    unfold Index.delete_media_from_storage, Endpoints.delete_media_from_storage,
      Index.get_s3_client, Index.get_s3_bucket, Endpoints.S3_BUCKET, py_len, py_iter;
    (destruct (py_truthy (JStr s)); cbn [negb]; [|repeat split]);
    unfold_monad.
  - destruct (w_s3_client w); rewrite delete_each_chars; repeat split.
  - rewrite delete_each_chars. repeat split.
Qed.

Lemma only_deletes_by (evs : list event) (w w' : world) :
  w_env w' = w_env w -> w_auth w' = w_auth w ->
  w_posts w' = w_posts w -> w_twitter_posts w' = w_twitter_posts w ->
  w_twitter_id_map w' = w_twitter_id_map w ->
  w_logins w' = w_logins w -> w_db_calls w' = w_db_calls w ->
  w_clock w' = w_clock w ->
  (forall k, In k (w_bucket w') -> In k (w_bucket w)) ->
  w_trace w' = w_trace w ++ evs -> Forall is_delete evs ->
  only_deletes w w'.
Proof.
  intros. unfold only_deletes.
  do 9 (split; [assumption|]). exists evs. split; assumption.
Qed.

Lemma only_deletes_refl (w : world) : only_deletes w w.
Proof.
  apply (only_deletes_by []); rewrite ?app_nil_r; try reflexivity;
    [intros k Hk; exact Hk | constructor].
Qed.

Lemma only_deletes_trans (w1 w2 w3 : world) :
  only_deletes w1 w2 -> only_deletes w2 w3 -> only_deletes w1 w3.
Proof.
  unfold only_deletes.
  intros (E1 & A1 & P1 & Q1 & M1 & L1 & D1 & C1 & B1 & evs1 & T1 & F1)
         (E2 & A2 & P2 & Q2 & M2 & L2 & D2 & C2 & B2 & evs2 & T2 & F2).
  apply (only_deletes_by (evs1 ++ evs2)); try congruence.
  - intros k Hk. apply B1, B2, Hk.
  - rewrite T2, T1, app_assoc. reflexivity.
  - apply Forall_app. split; assumption.
Qed.

Lemma s3_delete_only_deletes (bucket : option string) (key : string) (w : world) :
  only_deletes w (snd (s3_delete_object bucket key w)).
Proof.
  unfold s3_delete_object. unfold_monad.
  destruct (e_s3_fault (w_env w) (w_s3_calls w)); cbn;
    apply (only_deletes_by [EvS3Delete bucket key]); cbn; try reflexivity;
    try (intros k Hk; try (apply filter_In in Hk; destruct Hk as [Hk _]); exact Hk);
    (constructor; [exists bucket, key; reflexivity | constructor]).
Qed.

Lemma delete_one_only_deletes (bucket : option string) (media_url : json) (w : world) :
  only_deletes w (snd (delete_one bucket media_url w)).
Proof.
  unfold delete_one, py_in, py_split_method. unfold_monad.
  destruct media_url as [| b | n | s | l | o]; cbv beta iota;
    try apply only_deletes_refl.
  - destruct (py_contains (bucket_prefix bucket) s); cbv beta iota;
      [|apply only_deletes_refl].
    destruct (nth_error (py_split (bucket_prefix bucket) s) 1);
      [apply s3_delete_only_deletes | apply only_deletes_refl].
  - destruct (existsb (json_eqb (JStr (bucket_prefix bucket))) l);
      apply only_deletes_refl.
  - destruct (existsb (fun kv => String.eqb (bucket_prefix bucket) (fst kv)) o);
      apply only_deletes_refl.
Qed.

Lemma delete_each_only_deletes (bucket : option string) (l : list json) (w : world) :
  only_deletes w (snd (delete_each bucket l w)).
Proof.
  revert w. induction l as [|u l IH]; intros w; [apply only_deletes_refl|].
  cbn [delete_each]. rewrite bind_run. unfold try_except.
  pose proof (delete_one_only_deletes bucket u w) as H1.
  destruct (delete_one bucket u w) as [[[]|e] w1]; cbn [snd] in H1; cbn;
    (eapply only_deletes_trans; [exact H1 | apply IH]).
Qed.

(** X9. Media Cleanup, given anything at all, touches nothing but the
    bucket: the tables, the credential cache and the counts of logins,
    database calls and clock readings are what they were, every call it
    issues is a [delete_object], and the bucket gains no object. *)
Theorem cleanup_touches_only_the_bucket :
  forall (f : json -> M unit) (media_urls : json) (w : world),
    cleanup_function f ->
    only_deletes w (snd (f media_urls w)).
Proof.
  intros f media_urls w [-> | ->];
    unfold Index.delete_media_from_storage, Endpoints.delete_media_from_storage,
      Index.get_s3_client, Index.get_s3_bucket, Endpoints.S3_BUCKET, py_len, py_iter;
    (destruct (py_truthy media_urls); cbn [negb]; [|apply only_deletes_refl]);
    unfold_monad.
  - assert (Hc : only_deletes w (if w_s3_client w then w else set_s3_client true w)).
    { destruct (w_s3_client w); [apply only_deletes_refl|].
      apply (only_deletes_by []); cbn; rewrite ?app_nil_r; try reflexivity;
        [intros k Hk; exact Hk | constructor]. }
    destruct (w_s3_client w); destruct media_urls; cbn;
      try exact Hc; try apply only_deletes_refl;
      match goal with
      | |- context [delete_each ?b ?l ?w0] =>
          pose proof (delete_each_only_deletes b l w0) as H;
          destruct (delete_each b l w0) as [[[]|e] w1]; cbn [snd] in H; cbn;
          try exact H; (eapply only_deletes_trans; [exact Hc | exact H])
      end.
  - destruct media_urls; cbn; try apply only_deletes_refl;
      match goal with
      | |- context [delete_each ?b ?l ?w0] =>
          pose proof (delete_each_only_deletes b l w0) as H;
          destruct (delete_each b l w0) as [[[]|e] w1]; cbn [snd] in H; cbn;
          exact H
      end.
Qed.

Lemma delete_round_bucket (bucket : option string) (url : string) (w : world) :
  exists w',
    try_except (delete_one bucket (JStr url)) (fun _ => ret tt) w = (Ok tt, w') /\
    w_env w' = w_env w /\
    (forall k, In k (w_bucket w') -> In k (w_bucket w)) /\
    (forall k, In k (w_bucket w) ->
               (well_formed_url bucket url = true -> k <> storage_key bucket url) ->
               In k (w_bucket w')) /\
    (storage_up (w_env w) -> well_formed_url bucket url = true ->
     ~ In (storage_key bucket url) (w_bucket w')).
Proof.
  unfold well_formed_url, storage_key, storage_up, delete_one, py_in, py_split_method,
    s3_delete_object.
  unfold_monad.
  destruct (py_contains (bucket_prefix bucket) url) eqn:Hc.
  - destruct (py_split_second _ _ Hc) as [key Hk].
    rewrite Hk. rewrite (nth_error_nth _ _ "" Hk).
    destruct (e_s3_fault (w_env w) (w_s3_calls w)) eqn:Hf; cbn;
      eexists; (split; [reflexivity|]); cbn; (split; [reflexivity|]);
      (split; [intros k Hin; try (apply filter_In in Hin; destruct Hin as [Hin _]); exact Hin|]);
      split.
    + intros k Hin _. exact Hin.
    + intros Hup _. rewrite Hup in Hf. discriminate Hf.
    + intros k Hin Hne. apply filter_In. split; [exact Hin|].
      apply negb_true_iff. apply String.eqb_neq. apply Hne. reflexivity.
    + intros _ _ Hin. apply filter_In in Hin. destruct Hin as [_ Hin].
      rewrite String.eqb_refl in Hin. discriminate Hin.
  - exists w. split; [reflexivity|]. split; [reflexivity|].
    split; [intros k Hin; exact Hin|]. split.
    + intros k Hin _. exact Hin.
    + intros _ Hwf. discriminate Hwf.
Qed.

Lemma delete_each_bucket (bucket : option string) (urls : list string) (w : world) :
  exists w',
    delete_each bucket (map JStr urls) w = (Ok tt, w') /\
    w_env w' = w_env w /\
    (forall k, In k (w_bucket w') -> In k (w_bucket w)) /\
    (forall k, In k (w_bucket w) -> ~ In k (named_keys bucket urls) ->
               In k (w_bucket w')) /\
    (storage_up (w_env w) ->
     forall k, In k (named_keys bucket urls) -> ~ In k (w_bucket w')).
Proof.
  revert w. induction urls as [|url urls IH]; intros w.
  - exists w. cbn. repeat split; auto.
  - destruct (delete_round_bucket bucket url w) as (w1 & H1 & E1 & S1 & K1 & G1).
    destruct (IH w1) as (w2 & H2 & E2 & S2 & K2 & G2).
    exists w2. split; [|split; [|split; [|split]]].
    + cbn [map delete_each]. rewrite bind_run, H1. exact H2.
    + congruence.
    + intros k Hin. apply S1, S2, Hin.
    + intros k Hin Hnot. unfold named_keys in *. cbn [filter] in Hnot.
      apply K2.
      * apply K1; [exact Hin|]. intros Hwf Heq. apply Hnot.
        rewrite Hwf. left. symmetry. exact Heq.
      * intros Hn. apply Hnot.
        destruct (well_formed_url bucket url); [right|]; exact Hn.
    + intros Hup k Hin. unfold named_keys in *. cbn [filter] in Hin.
      assert (Hup1 : storage_up (w_env w1)) by (rewrite E1; exact Hup).
      destruct (well_formed_url bucket url) eqn:Hwf.
      * destruct Hin as [<- | Hin].
        -- intros Hin2. apply (G1 Hup eq_refl). apply S2. exact Hin2.
        -- apply (G2 Hup1). exact Hin.
      * apply (G2 Hup1). exact Hin.
Qed.

Lemma cleanup_as_loop (f : json -> M unit) (urls : list string) (w : world) :
  cleanup_function f ->
  exists w0,
    w_env w0 = w_env w /\ w_bucket w0 = w_bucket w /\
    snd (f (JList (map JStr urls)) w) =
    snd (delete_each (e_bucket (w_env w)) (map JStr urls) w0).
Proof.
  intros Hf. destruct urls as [|url urls].
  { exists w. destruct Hf as [-> | ->]; repeat split. }
  destruct Hf as [-> | ->];
    unfold Index.delete_media_from_storage, Endpoints.delete_media_from_storage,
      Index.get_s3_client, Index.get_s3_bucket, Endpoints.S3_BUCKET, py_len, py_iter;
    cbn [py_truthy map negb]; unfold_monad.
  - destruct (w_s3_client w).
    + exists w. split; [reflexivity|]. split; [reflexivity|].
      destruct (delete_each (e_bucket (w_env w)) (JStr url :: map JStr urls) w)
        as [[[]|e] w1]; reflexivity.
    + exists (set_s3_client true w). split; [reflexivity|]. split; [reflexivity|].
      cbn [w_env set_s3_client].
      destruct (delete_each (e_bucket (w_env w)) (JStr url :: map JStr urls)
                  (set_s3_client true w)) as [[[]|e] w1]; reflexivity.
  - exists w. split; [reflexivity|]. split; [reflexivity|].
    destruct (delete_each (e_bucket (w_env w)) (JStr url :: map JStr urls) w)
      as [[[]|e] w1]; reflexivity.
Qed.

(** X10. What Media Cleanup does to the bucket, given a list of URLs: an
    object whose key none of the well-formed URLs names stays where it is,
    whichever calls raise; and when no [delete_object] call raises, every
    object named by a well-formed URL is gone afterwards. *)
Theorem cleanup_deletes_the_named_objects_only :
  forall (f : json -> M unit) (urls : list string) (w : world),
    cleanup_function f ->
    (forall k, In k (w_bucket w) ->
               ~ In k (named_keys (e_bucket (w_env w)) urls) ->
               In k (w_bucket (snd (f (JList (map JStr urls)) w)))) /\
    (storage_up (w_env w) ->
     forall k, In k (named_keys (e_bucket (w_env w)) urls) ->
               ~ In k (w_bucket (snd (f (JList (map JStr urls)) w)))).
Proof.
  intros f urls w Hf.
  destruct (cleanup_as_loop f urls w Hf) as (w0 & E0 & B0 & ->).
  destruct (delete_each_bucket (e_bucket (w_env w)) urls w0) as (w' & H & E & S & K & G).
  rewrite H. cbn [snd]. split.
  - intros k Hin Hnot. apply K; [rewrite B0; exact Hin | exact Hnot].
  - intros Hup k Hin. apply G; [rewrite E0; exact Hup | exact Hin].
Qed.

(* ===================================================================== *)
(** * Post Ingestion: bodies that are not objects, and accepted requests   *)
(* ===================================================================== *)

Lemma validate_post_not_object (data : json) (k : M response) (w : world) :
  not_an_object data = true ->
  validate_post data k w = (Raise (no_attribute data "get"), w).
Proof.
  unfold not_an_object, validate_post. intros H.
  apply andb_true_iff in H. destruct H as [Ht Hd].
  rewrite Ht. cbn [negb]. destruct data; try discriminate Hd; reflexivity.
Qed.

Lemma ingestion_except_not_object (cleanup : json -> M unit) (data : json)
    (e : exn) (w : world) :
  not_an_object data = true ->
  ingestion_except cleanup data e w = (Raise (no_attribute data "get"), w).
Proof.
  unfold not_an_object, ingestion_except. intros H.
  apply andb_true_iff in H. destruct H as [Ht Hd].
  rewrite Ht. destruct data; try discriminate Hd; reflexivity.
Qed.

(** X11. A Post Ingestion request whose body is not empty and is not a
    JSON object (a list, a string, a number) gets no JSON answer from any
    of the four handlers: [get] fails on the body in the [try] block and
    again in the [except] block, so the attribute error leaves the handler
    (and replaces whatever error came first).  No database or storage call
    has been made by then. *)
Theorem ingestion_of_a_non_object_raises :
  forall (h : json -> M response) (data : json) (w : world),
    ingestion_handler h ->
    not_an_object data = true ->
    fst (h data w) = Raise (no_attribute data "get") /\
    only_logins w (snd (h data w)).
Proof.
  intros h data w Hh Hn.
  destruct Hh as [-> | [-> | [-> | ->]]].
  - pose proof (acquire_only_logins _ _ w token_first_index_direct) as Hl.
    unfold Index.create_post_by_bot, Index.create_post_by_bot_try, try_except.
    rewrite bind_run.
    destruct (Index.acquire_identity w) as [[uid|e] w1]; cbn [snd] in Hl;
      rewrite ?validate_post_not_object by exact Hn;
      rewrite ingestion_except_not_object by exact Hn; split; [reflexivity | exact Hl | reflexivity | exact Hl].
  - unfold Index.create_post_by_bot_for_approval,
      Index.create_post_by_bot_for_approval_try, try_except.
    rewrite validate_post_not_object by exact Hn.
    rewrite ingestion_except_not_object by exact Hn.
    split; [reflexivity | apply only_logins_refl].
  - pose proof (acquire_only_logins _ _ w token_first_endpoints_direct) as Hl.
    unfold Endpoints.create_post_by_bot, Endpoints.create_post_by_bot_try, try_except.
    rewrite bind_run.
    destruct (Endpoints.acquire_identity w) as [[uid|e] w1]; cbn [snd] in Hl;
      rewrite ?validate_post_not_object by exact Hn;
      rewrite ingestion_except_not_object by exact Hn; split; [reflexivity | exact Hl | reflexivity | exact Hl].
  - pose proof (acquire_only_logins _ _ w token_first_endpoints_pending) as Hl.
    unfold Endpoints.create_post_by_bot_for_approval,
      Endpoints.create_post_by_bot_for_approval_try, try_except.
    rewrite bind_run.
    destruct (Endpoints.acquire_identity w) as [[uid|e] w1]; cbn [snd] in Hl;
      rewrite ?validate_post_not_object by exact Hn;
      rewrite ingestion_except_not_object by exact Hn; split; [reflexivity | exact Hl | reflexivity | exact Hl].
Qed.

Lemma insert_post_world (t : table) (o : dict) (post_data : dict) (w w' : world)
    (r : response) :
  insert_post t (JObj o) post_data w = (Ok r, w') ->
  r = created post_data /\
  w' = set_table t (get_table t w ++ [post_data])
         (set_trace (w_trace w ++ [EvDbInsert t post_data])
            (set_db_calls (S (w_db_calls w)) w)).
Proof.
  unfold insert_post, table_insert, db_call, py_get, py_len. unfold_monad.
  intros H.
  repeat (break_in H; cbn in H; try discriminate H);
    injection H as <- <-; split; reflexivity.
Qed.

Lemma index_acquire_user_id (w w1 : world) (uid : option string) :
  Index.acquire_identity w = (Ok uid, w1) -> uid = user_id (w_auth w1).
Proof.
  unfold Index.acquire_identity, Index.get_user_id, Index.get_supabase. unfold_monad.
  destruct (Index.get_token w) as [[tok|e] w0]; [|discriminate].
  destruct (Index.get_token w0) as [[tok2|e] w2]; [|discriminate].
  cbv beta iota. destruct (w_supabase w2); cbv beta iota; intros [= <- <-]; reflexivity.
Qed.

Lemma build_post_data_record (uid : option string) (o : dict) (w : world) :
  Endpoints.build_post_data uid (JObj o) w = (Ok (post_record (json_of_opt uid) o), w).
Proof.
  unfold Endpoints.build_post_data.
  repeat (rewrite bind_run, py_get_dict; cbv beta iota).
  reflexivity.
Qed.

Lemma endpoints_accepted (t : table) (o : dict) (w w' : world) (r : response) :
  try_except
    (user_id <- Endpoints.acquire_identity ;;
     validate_post (JObj o)
       (post_data <- Endpoints.build_post_data user_id (JObj o) ;;
        insert_post t (JObj o) post_data))%py
    (ingestion_except Endpoints.delete_media_from_storage (JObj o)) w = (Ok r, w') ->
  status r = 201%Z ->
  exists (w1 : world) (n : nat),
    let record := post_record (json_of_opt (user_id (w_auth w'))) o in
    r = created record /\
    only_logins w w1 /\
    w_trace w1 = w_trace w ++ repeat EvLogin n /\
    w' = set_table t (get_table t w1 ++ [record])
           (set_trace (w_trace w1 ++ [EvDbInsert t record])
              (set_db_calls (S (w_db_calls w1)) w1)).
Proof.
  intros H Hst.
  pose proof (acquire_only_logins _ _ w token_first_endpoints_pending) as Hl.
  unfold try_except in H. rewrite bind_run in H.
  destruct (Endpoints.acquire_identity w) as [[uid|e] w1] eqn:Ha;
    [|apply ingestion_except_status in H; rewrite H in Hst; discriminate Hst].
  cbn [snd] in Hl.
  rewrite validate_post_dict in H.
  destruct (missing_item (JObj o)) as [msg|].
  { injection H as <- _. discriminate Hst. }
  rewrite bind_run, build_post_data_record in H.
  destruct (insert_post t (JObj o) (post_record (json_of_opt uid) o) w1)
    as [[r2|e] w2] eqn:Hi;
    [|apply ingestion_except_status in H; rewrite H in Hst; discriminate Hst].
  injection H as <- <-.
  destruct (insert_post_world _ _ _ _ _ _ Hi) as [-> ->].
  exists w1, (w_logins w1 - w_logins w).
  rewrite (endpoints_acquire_user_id _ _ _ Ha).
  destruct t; cbn; (split; [reflexivity|]); (split; [exact Hl|]);
    (split; [apply Hl | reflexivity]).
Qed.

Lemma index_accepted (o : dict) (w w' : world) (r : response) :
  Index.create_post_by_bot (JObj o) w = (Ok r, w') ->
  status r = 201%Z ->
  exists (w1 : world),
    let record := post_record (json_of_opt (user_id (w_auth w'))) o
                  ++ [("link_preview", field "link_preview" o)] in
    r = created record /\
    only_logins w w1 /\
    w' = set_table posts (w_posts w1 ++ [record])
           (set_trace (w_trace w1 ++ [EvDbInsert posts record])
              (set_db_calls (S (w_db_calls w1)) w1)).
Proof.
  intros H Hst.
  pose proof (acquire_only_logins _ _ w token_first_index_direct) as Hl.
  unfold Index.create_post_by_bot, Index.create_post_by_bot_try, try_except in H.
  rewrite bind_run in H.
  destruct (Index.acquire_identity w) as [[uid|e] w1] eqn:Ha;
    [|apply ingestion_except_status in H; rewrite H in Hst; discriminate Hst].
  cbn [snd] in Hl.
  rewrite validate_post_dict in H.
  destruct (missing_item (JObj o)) as [msg|].
  { injection H as <- _. discriminate Hst. }
  repeat (rewrite bind_run, py_get_dict in H; cbv beta iota in H).
  match type of H with
  | context [insert_post posts (JObj o) ?pd w1] =>
      destruct (insert_post posts (JObj o) pd w1) as [[r2|e] w2] eqn:Hi;
      [|apply ingestion_except_status in H; rewrite H in Hst; discriminate Hst]
  end.
  injection H as <- <-.
  destruct (insert_post_world _ _ _ _ _ _ Hi) as [-> ->].
  exists w1.
  rewrite (index_acquire_user_id _ _ _ Ha).
  cbn. split; [reflexivity|]. split; [exact Hl | reflexivity].
Qed.

(** X12. A request that [/botposts] (either file) or [/pendingbotposts]
    of [src/endpoints.py] answers with 201 has added exactly one record to
    the route's table and has called nobody but the identity provider and
    the database, once: the record is the bot's user id followed by the
    fields of the request, [post_type] and [source] defaulting to [text]
    and [twitter] when absent; [src/api/index.py] stores [link_preview]
    too, [src/endpoints.py] does not store it.  The other table and the
    bucket are as they were. *)
Theorem accepted_post_is_one_record :
  forall (o : dict) (w w' : world) (r : response),
    (Index.create_post_by_bot (JObj o) w = (Ok r, w') -> status r = 201%Z ->
     exists n : nat,
       let record := post_record (json_of_opt (user_id (w_auth w'))) o
                     ++ [("link_preview", field "link_preview" o)] in
       r = created record /\
       w_posts w' = w_posts w ++ [record] /\
       w_twitter_posts w' = w_twitter_posts w /\
       w_bucket w' = w_bucket w /\
       w_trace w' = w_trace w ++ repeat EvLogin n ++ [EvDbInsert posts record]) /\
    (Endpoints.create_post_by_bot (JObj o) w = (Ok r, w') -> status r = 201%Z ->
     exists n : nat,
       let record := post_record (json_of_opt (user_id (w_auth w'))) o in
       r = created record /\
       w_posts w' = w_posts w ++ [record] /\
       w_twitter_posts w' = w_twitter_posts w /\
       w_bucket w' = w_bucket w /\
       w_trace w' = w_trace w ++ repeat EvLogin n ++ [EvDbInsert posts record]) /\
    (Endpoints.create_post_by_bot_for_approval (JObj o) w = (Ok r, w') ->
     status r = 201%Z ->
     exists n : nat,
       let record := post_record (json_of_opt (user_id (w_auth w'))) o in
       r = created record /\
       w_twitter_posts w' = w_twitter_posts w ++ [record] /\
       w_posts w' = w_posts w /\
       w_bucket w' = w_bucket w /\
       w_trace w' = w_trace w ++ repeat EvLogin n ++ [EvDbInsert twitter_posts record]).
Proof.
  intros o w w' r. split; [|split].
  - intros H Hst.
    destruct (index_accepted o w w' r H Hst) as (w1 & Hr & Hl & Hw).
    destruct Hl as (_ & (Hp & Hq & _ & Hb) & _ & _ & _ & Ht).
    exists (w_logins w1 - w_logins w). cbv zeta in *.
    pose proof (f_equal w_posts Hw) as E1.
    pose proof (f_equal w_twitter_posts Hw) as E2.
    pose proof (f_equal w_bucket Hw) as E3.
    pose proof (f_equal w_trace Hw) as E4.
    cbn in E1, E2, E3, E4.
    rewrite E1, E2, E3, E4, Hp, Hq, Hb, Ht, <- app_assoc.
    split; [exact Hr|]. repeat split.
  - intros H Hst.
    destruct (endpoints_accepted posts o w w' r H Hst) as (w1 & n & Hr & Hl & Ht & Hw).
    destruct Hl as (_ & (Hp & Hq & _ & Hb) & _).
    exists n. cbv zeta in *.
    pose proof (f_equal w_posts Hw) as E1.
    pose proof (f_equal w_twitter_posts Hw) as E2.
    pose proof (f_equal w_bucket Hw) as E3.
    pose proof (f_equal w_trace Hw) as E4.
    cbn in E1, E2, E3, E4.
    rewrite E1, E2, E3, E4, Hp, Hq, Hb, Ht, <- app_assoc.
    split; [exact Hr|]. repeat split.
  - intros H Hst.
    destruct (endpoints_accepted twitter_posts o w w' r H Hst)
      as (w1 & n & Hr & Hl & Ht & Hw).
    destruct Hl as (_ & (Hp & Hq & _ & Hb) & _).
    exists n. cbv zeta in *.
    pose proof (f_equal w_posts Hw) as E1.
    pose proof (f_equal w_twitter_posts Hw) as E2.
    pose proof (f_equal w_bucket Hw) as E3.
    pose proof (f_equal w_trace Hw) as E4.
    cbn in E1, E2, E3, E4.
    rewrite E1, E2, E3, E4, Hp, Hq, Hb, Ht, <- app_assoc.
    split; [exact Hr|]. repeat split.
Qed.

(* ===================================================================== *)
(** * Approval Transfer and [/api/delete-user]: the other paths            *)
(* ===================================================================== *)

(** X13. Approval Transfer does not undo its first step: when the update
    has stamped the matching rows and the insert into the live table then
    raises, the handler answers 500 with the database's error, the pending
    rows stay stamped [accepted], and the live table has no new record. *)
Theorem approval_transfer_is_not_atomic :
  forall (o : dict) (tuid : json) (r : row) (rest : list row) (w : world) (e : exn),
    dict_lookup "twitter_unique_id" o = Some tuid ->
    py_truthy tuid = true ->
    pending_matches tuid w = r :: rest ->
    has_columns post_columns r = true ->
    next_db_fault w = None ->
    second_db_fault w = Some e ->
    fst (Index.accept_twitter_post (JObj o) w) = Ok (failure (str_exn e) 500) /\
    w_twitter_posts (snd (Index.accept_twitter_post (JObj o) w)) =
      map (fun row => if row_matches "twitter_unique_id" tuid row
                      then dict_set "status" (JStr "accepted") row
                      else row)
          (w_twitter_posts w) /\
    w_posts (snd (Index.accept_twitter_post (JObj o) w)) = w_posts w.
Proof.
  unfold pending_matches, next_db_fault, second_db_fault.
  intros o tuid r rest w e Hl Ht Hm Hc Hf Hf2.
  destruct (copy_of_accepted r) as [Hcopy Hcols].
  unfold_accept. unfold table_insert, db_call. unfold_monad.
  destruct o as [|kv o']; [discriminate Hl|].
  cbn [py_truthy negb]. rewrite Hl, Ht. cbn [negb].
  destruct (w_supabase_admin w); cbn -[copy_columns update_rows dict_update post_columns];
    rewrite Hf; cbn -[copy_columns update_rows dict_update post_columns];
    rewrite Hm; cbn -[copy_columns update_rows dict_update post_columns];
    fold accepted;
    match goal with
    | |- context [copy_columns post_columns ?post ?w1] =>
        rewrite (copy_columns_run post_columns post w1) by (rewrite Hcols; exact Hc)
    end;
    cbn -[update_rows dict_update post_columns];
    rewrite Hf2; repeat split.
Qed.

(** X14. Approval Transfer without an identifier: a missing or empty
    body, or a [twitter_unique_id] that is missing or empty, is answered
    400 before anything is called or changed. *)
Theorem approval_transfer_without_id :
  forall (data : json) (w : world),
    py_truthy data = false \/
    (exists o, data = JObj o /\ py_truthy (field "twitter_unique_id" o) = false) ->
    Index.accept_twitter_post data w
      = (Ok (failure "twitter_unique_id is required" 400), w).
Proof.
  intros data w [Hf | (o & -> & Hf)];
    unfold Index.accept_twitter_post, try_except; rewrite bind_run.
  - rewrite Hf. reflexivity.
  - destruct (py_truthy (JObj o)); cbn [negb]; [|reflexivity].
    rewrite bind_run, py_get_dict. cbv beta iota.
    unfold field in Hf. rewrite Hf. reflexivity.
Qed.

(** X15. [/api/delete-user], whatever the admin call does.  Without a
    body, or without a [user_id], it answers 400 and the admin call is not
    made (nothing changes).  With a [user_id] it makes the admin call on
    that id: 200 when the call returns, 500 with the error's text when it
    raises. *)
Theorem delete_user_contract :
  forall (call : json -> M unit) (data : json) (w : world),
    (py_truthy data = false ->
     Index.delete_user call data w = (Ok (failure "No data provided" 400), w)) /\
    (forall o, data = JObj o -> py_truthy data = true ->
       py_truthy (field "user_id" o) = false ->
       Index.delete_user call data w = (Ok (failure "user_id is required" 400), w)) /\
    (forall o, data = JObj o -> py_truthy (field "user_id" o) = true ->
       forall w0, snd (Index.get_supabase_admin w) = w0 ->
       (forall w1, call (field "user_id" o) w0 = (Ok tt, w1) ->
          Index.delete_user call data w = (Ok user_deleted, w1)) /\
       (forall e w1, call (field "user_id" o) w0 = (Raise e, w1) ->
          Index.delete_user call data w = (Ok (failure (str_exn e) 500), w1))).
Proof.
  intros call data w. split; [|split].
  - intros Hf. unfold Index.delete_user, try_except. rewrite Hf. reflexivity.
  - intros o -> Ht Hu. unfold Index.delete_user, try_except. rewrite Ht. cbn [negb].
    rewrite bind_run, py_get_dict. cbv beta iota.
    unfold field in Hu. rewrite Hu. reflexivity.
  - intros o -> Hu w0 Hw0.
    assert (Ht : py_truthy (JObj o) = true).
    { destruct o; [discriminate Hu | reflexivity]. }
    assert (Ha : Index.get_supabase_admin w = (Ok tt, w0)).
    { subst w0. unfold Index.get_supabase_admin. unfold_monad.
      destruct (w_supabase_admin w); reflexivity. }
    unfold field in *.
    split; [intros w1 Hc | intros e w1 Hc];
      unfold Index.delete_user, try_except; rewrite Ht; cbn [negb];
      rewrite bind_run, py_get_dict; cbv beta iota; rewrite Hu; cbn [negb];
      rewrite bind_run, Ha; cbv beta iota; rewrite bind_run, Hc; reflexivity.
Qed.

(* ===================================================================== *)
(** * The credential cache over several calls; handlers that always answer *)
(* ===================================================================== *)

(** X16. Two calls in a row: after a call that found the cache stale and
    was granted a non-empty token, the next call, made while the clock is
    still before the new expiry, returns that same token from the cache;
    the two calls together have issued one login. *)
Theorem refreshed_token_is_served_from_cache :
  forall (g : M (option string)) (w : world) (s : Session) (u : User),
    token_getter g ->
    cache_stale w = true ->
    next_login w = Returned (Some {| session := Some s; user := Some u |}) ->
    access_token s <> ""%string ->
    (e_now (w_env w) (w_clock (snd (g w))) < last_reading (snd (g w)) + one_hour)%Z ->
    g (snd (g w)) =
      (Ok (Some (access_token s)), set_clock (S (w_clock (snd (g w)))) (snd (g w))) /\
    w_trace (snd (g (snd (g w)))) = w_trace w ++ [EvLogin].
Proof.
  intros g w s u Hg Hs Hl Hne Hnow.
  destruct (get_token_stale_granted g w s u Hg Hs Hl) as [_ Ha].
  destruct (get_token_stale_trace g w Hg Hs) as [Ht _].
  pose proof (get_token_only_logins g w Hg) as (He & _).
  assert (Hf : cache_fresh (snd (g w)) = true).
  { unfold cache_fresh. rewrite Ha, He. cbn.
    apply andb_true_iff. split.
    - apply negb_true_iff. apply String.eqb_neq. exact Hne.
    - apply Z.ltb_lt. exact Hnow. }
  pose proof (get_token_fresh g (snd (g w)) Hg Hf) as Hrun.
  rewrite Hrun. rewrite Ha. cbn. split; [reflexivity | exact Ht].
Qed.

(** X17. A login that returns a session but no user leaves the cache half
    updated: [token] is assigned before [auth.user.id] raises, [user_id]
    and [expires_at] are not.  If there was no expiry before (as after a
    start) and the token is non-empty, every later call finds a token
    without an expiry: in [src/endpoints.py] the cache test itself then
    raises a type error and no login is ever made again, while in
    [src/api/index.py], whose test asks for the expiry first, the call logs
    in again. *)
Theorem login_without_user_half_updates_cache :
  forall (g : M (option string)) (w : world) (s : Session),
    token_getter g ->
    cache_stale w = true ->
    session_without_user w s ->
    (fst (g w) = Raise (AttributeError "'NoneType' object has no attribute 'id'") /\
     w_auth (snd (g w)) = with_token (Some (access_token s)) (w_auth w)) /\
    (access_token s <> ""%string -> expires_at (w_auth w) = None ->
     forall w2 : world,
       w_auth w2 = w_auth (snd (g w)) ->
       (fst (Endpoints.get_token w2) =
          Raise (TypeError "'<' not supported between instances of 'datetime.datetime' and 'NoneType'") /\
        w_trace (snd (Endpoints.get_token w2)) = w_trace w2) /\
       w_trace (snd (Index.get_token w2)) = w_trace w2 ++ [EvLogin]).
Proof.
  unfold session_without_user, next_login.
  intros g w s Hg Hs Hl.
  assert (H1 : fst (g w) = Raise (AttributeError "'NoneType' object has no attribute 'id'") /\
               w_auth (snd (g w)) = with_token (Some (access_token s)) (w_auth w)).
  { unfold cache_stale in Hs.
    destruct Hg as [-> | ->]; unfold_get_token;
      (destruct (token_truthy (token (w_auth w))); cbn in *;
       [destruct (expires_at (w_auth w)) as [e|]; cbn in *; [|discriminate];
        destruct (e_now (w_env w) (w_clock w) <? e)%Z; cbn in *; [discriminate|]|]);
      try destruct (w_supabase w); cbn;
      rewrite Hl; cbn; split; reflexivity. }
  split; [exact H1|].
  destruct H1 as [_ Ha].
  intros Hne He w2 Ha2.
  assert (Htr : token_truthy (token (w_auth w2)) = true).
  { rewrite Ha2, Ha. cbn. apply negb_true_iff. apply String.eqb_neq. exact Hne. }
  assert (Hex : expires_at (w_auth w2) = None).
  { rewrite Ha2, Ha. cbn. exact He. }
  split.
  - unfold_get_token. rewrite Htr, Hex. cbn. split; reflexivity.
  - rewrite index_get_token_trace. unfold cache_fresh. rewrite Htr, Hex. reflexivity.
Qed.

(** X18. The upload handlers, [/delete-media], [/api/delete-user] and
    Approval Transfer always answer: whatever the body and whatever the
    services do, no exception leaves them (unlike the Post Ingestion
    handlers, whose [except] block can raise). *)
Theorem handlers_always_answer :
  forall (h : json -> M response) (data : json) (w : world),
    answering_handler h ->
    exists r : response, fst (h data w) = Ok r.
Proof.
  intros h data w Hh.
  destruct Hh;
    unfold Index.get_upload_url, Index.get_avatar_upload_url, Index.delete_media,
      Index.delete_user, Index.accept_twitter_post, Endpoints.get_upload_url,
      Endpoints.get_avatar_upload_url, Endpoints.delete_media;
    unfold try_except;
    match goal with
    | |- context [let (_, _) := ?m w in _] => destruct (m w) as [[r|e] w']
    end;
    eexists; reflexivity.
Qed.

(* ===================================================================== *)
(** * The further theorems at work on concrete requests                    *)
(* ===================================================================== *)

Lemma public_url_round_trip_witness :
  well_formed_url (Some "media") (public_url_of (Some "media") "post-images/u1/1.png") = true /\
  storage_key (Some "media") (public_url_of (Some "media") "post-images/u1/1.png")
    = "post-images/u1/1.png".
Proof.
  apply (public_url_round_trip (Some "media") "post-images/u1/1.png");
    vm_compute; reflexivity.
Defined.

Lemma issued_url_is_cleaned_up_witness :
  exists url key : string,
    response_public_url (Sample.answer "avatars/u1/avatar.png") = Some (JStr url) /\
    response_s3_key (Sample.answer "avatars/u1/avatar.png") = Some (JStr key) /\
    (py_contains (bucket_prefix (e_bucket (w_env (Sample.boot Sample.calm)))) key = false ->
     w_trace (snd (Endpoints.delete_media_from_storage (JList [JStr url])
                     (Sample.boot Sample.s3_down))) =
     w_trace (Sample.boot Sample.s3_down)
       ++ [EvS3Delete (e_bucket (w_env (Sample.boot Sample.calm))) key]).
Proof.
  refine (issued_url_is_cleaned_up
            Index.get_avatar_upload_url py_str_scalar
            (JObj (Sample.avatar_request "me.png" "image/png"))
            (Sample.boot Sample.calm) _
            (Sample.answer "avatars/u1/avatar.png")
            Endpoints.delete_media_from_storage (Sample.boot Sample.s3_down)
            (or_intror (or_introl eq_refl)) (or_intror eq_refl) _ _ _ _).
  - apply run_of_fst. vm_compute. reflexivity.
  - reflexivity.
  - reflexivity.
  - vm_compute. reflexivity.
Defined.

Lemma extension_has_no_dot_witness :
  dotless (extension "holiday.2024.png") /\ extension "README" = "README".
Proof.
  split.
  - exact (proj1 (extension_has_no_dot "holiday.2024.png")).
  - apply (proj2 (extension_has_no_dot "README")).
    intros c Hc. cbn in Hc.
    repeat (destruct Hc as [<- | Hc]; [discriminate|]). contradiction.
Defined.

Lemma upload_request_missing_field_witness :
  Index.get_upload_url py_str_scalar
      (JObj [("user_id", JStr "u1"); ("file_type", JStr "image"); ("file_name", JStr "")])
      (Sample.boot Sample.calm)
    = (Ok (error_only "Missing required fields" 400), Sample.boot Sample.calm) /\
  Endpoints.get_avatar_upload_url py_str_scalar
      (JObj [("file_name", JStr "me.png"); ("content_type", JStr "image/png")])
      (Sample.boot Sample.calm)
    = (Ok (error_only "Missing required fields" 400), Sample.boot Sample.calm).
Proof.
  split.
  - apply (proj1 (upload_request_missing_field Index.get_upload_url py_str_scalar
                    [("user_id", JStr "u1"); ("file_type", JStr "image");
                     ("file_name", JStr "")] (Sample.boot Sample.calm)));
      [left; reflexivity | vm_compute; reflexivity].
  - apply (proj2 (upload_request_missing_field Endpoints.get_avatar_upload_url
                    py_str_scalar
                    [("file_name", JStr "me.png"); ("content_type", JStr "image/png")]
                    (Sample.boot Sample.calm)));
      [right; reflexivity | vm_compute; reflexivity].
Defined.

Lemma upload_request_malformed_body_witness :
  Index.get_upload_url py_str_scalar JNull (Sample.boot Sample.calm)
    = (Ok (error_only "'NoneType' object has no attribute 'get'" 500),
       Sample.boot Sample.calm) /\
  Endpoints.get_upload_url py_str_scalar JNull (Sample.boot Sample.calm)
    = (Ok (error_only "Missing required fields" 400), Sample.boot Sample.calm) /\
  Endpoints.get_avatar_upload_url py_str_scalar (JList [JNum 1]) (Sample.boot Sample.calm)
    = (Ok (error_only "'list' object has no attribute 'get'" 500),
       Sample.boot Sample.calm).
Proof.
  split; [|split].
  - exact (proj1 (proj1 (upload_request_malformed_body py_str_scalar JNull
                           (Sample.boot Sample.calm)) I)).
  - exact (proj1 (proj1 (proj2 (upload_request_malformed_body py_str_scalar JNull
                                  (Sample.boot Sample.calm))) eq_refl)).
  - exact (proj2 (proj2 (proj2 (upload_request_malformed_body py_str_scalar
                                  (JList [JNum 1]) (Sample.boot Sample.calm))) eq_refl)).
Defined.

Lemma delete_media_reports_every_url_witness :
  Index.delete_media
      (JObj [("media_urls", JList [JStr Sample.url1; JStr "not a url"])])
      (Sample.boot Sample.s3_down)
    = (Ok (deleted 2),
       snd (Index.delete_media_from_storage (JList [JStr Sample.url1; JStr "not a url"])
              (Sample.boot Sample.s3_down))).
Proof.
  apply (delete_media_reports_every_url Index.delete_media Index.delete_media_from_storage
           [("media_urls", JList [JStr Sample.url1; JStr "not a url"])]
           [JStr Sample.url1; JStr "not a url"] (Sample.boot Sample.s3_down)
           delete_media_index).
  - reflexivity.
  - discriminate.
Defined.

Lemma delete_media_nothing_named_witness :
  Endpoints.delete_media (JObj [("media_urls", JList [])]) (Sample.boot Sample.calm)
    = (Ok (failure "No media URLs provided" 400), Sample.boot Sample.calm) /\
  Endpoints.delete_media JNull (Sample.boot Sample.calm)
    = (Ok (failure "No media URLs provided" 400), Sample.boot Sample.calm) /\
  Index.delete_media JNull (Sample.boot Sample.calm)
    = (Ok (failure "'NoneType' object has no attribute 'get'" 500), Sample.boot Sample.calm).
Proof.
  split; [|split].
  - apply (proj1 (delete_media_nothing_named (Sample.boot Sample.calm))
             Endpoints.delete_media Endpoints.delete_media_from_storage
             [("media_urls", JList [])] delete_media_endpoints).
    right. right. reflexivity.
  - apply (proj1 (proj2 (delete_media_nothing_named (Sample.boot Sample.calm))) JNull).
    reflexivity.
  - exact (proj2 (proj2 (delete_media_nothing_named (Sample.boot Sample.calm))) JNull I).
Defined.

Lemma cleanup_of_a_single_string_deletes_nothing_witness :
  w_trace (snd (Index.delete_media_from_storage (JStr Sample.url1)
                  (Sample.boot Sample.calm)))
    = w_trace (Sample.boot Sample.calm) /\
  w_bucket (snd (Index.delete_media_from_storage (JStr Sample.url1)
                   (Sample.boot Sample.calm)))
    = w_bucket (Sample.boot Sample.calm) /\
  w_s3_calls (snd (Index.delete_media_from_storage (JStr Sample.url1)
                     (Sample.boot Sample.calm)))
    = w_s3_calls (Sample.boot Sample.calm).
Proof.
  exact (cleanup_of_a_single_string_deletes_nothing Index.delete_media_from_storage
           Sample.url1 (Sample.boot Sample.calm) (or_introl eq_refl)).
Defined.

Lemma cleanup_touches_only_the_bucket_witness :
  only_deletes (Sample.boot Sample.s3_down)
    (snd (Endpoints.delete_media_from_storage
            (JList [JStr Sample.url1; JNum 7; JStr Sample.url2])
            (Sample.boot Sample.s3_down))).
Proof.
  exact (cleanup_touches_only_the_bucket Endpoints.delete_media_from_storage
           (JList [JStr Sample.url1; JNum 7; JStr Sample.url2])
           (Sample.boot Sample.s3_down) (or_intror eq_refl)).
Defined.

Lemma cleanup_deletes_the_named_objects_only_witness :
  In "post-images/u1/2.png"
     (w_bucket (snd (Index.delete_media_from_storage (JList (map JStr [Sample.url1]))
                       (Sample.boot Sample.calm)))) /\
  ~ In "post-images/u1/1.png"
       (w_bucket (snd (Index.delete_media_from_storage (JList (map JStr [Sample.url1]))
                         (Sample.boot Sample.calm)))).
Proof.
  pose proof (cleanup_deletes_the_named_objects_only Index.delete_media_from_storage
                [Sample.url1] (Sample.boot Sample.calm) (or_introl eq_refl)) as [Hk Hg].
  split.
  - apply Hk.
    + right. left. reflexivity.
    + vm_compute. intros [H | H]; [discriminate H | exact H].
  - apply Hg.
    + intros n. reflexivity.
    + vm_compute. left. reflexivity.
Defined.

Lemma ingestion_of_a_non_object_raises_witness :
  fst (Index.create_post_by_bot (JList [JStr "hello"]) (Sample.boot Sample.calm))
    = Raise (no_attribute (JList [JStr "hello"]) "get") /\
  only_logins (Sample.boot Sample.calm)
    (snd (Index.create_post_by_bot (JList [JStr "hello"]) (Sample.boot Sample.calm))).
Proof.
  apply (ingestion_of_a_non_object_raises Index.create_post_by_bot
           (JList [JStr "hello"]) (Sample.boot Sample.calm)).
  - left. reflexivity.
  - reflexivity.
Defined.

Lemma accepted_post_is_one_record_witness :
  exists n : nat,
    let w' := snd (Index.create_post_by_bot (JObj Sample.text_post_fields)
                     (Sample.boot Sample.calm)) in
    let record := post_record (json_of_opt (user_id (w_auth w'))) Sample.text_post_fields
                  ++ [("link_preview", field "link_preview" Sample.text_post_fields)] in
    created (post_record (JStr "bot-7") Sample.text_post_fields
             ++ [("link_preview", JNull)]) = created record /\
    w_posts w' = w_posts (Sample.boot Sample.calm) ++ [record] /\
    w_twitter_posts w' = w_twitter_posts (Sample.boot Sample.calm) /\
    w_bucket w' = w_bucket (Sample.boot Sample.calm) /\
    w_trace w' = w_trace (Sample.boot Sample.calm) ++ repeat EvLogin n
                 ++ [EvDbInsert posts record].
Proof.
  refine (proj1 (accepted_post_is_one_record Sample.text_post_fields
                   (Sample.boot Sample.calm)
                   (snd (Index.create_post_by_bot (JObj Sample.text_post_fields)
                           (Sample.boot Sample.calm)))
                   (created (post_record (JStr "bot-7") Sample.text_post_fields
                             ++ [("link_preview", JNull)]))) _ _).
  - apply run_of_fst. vm_compute. reflexivity.
  - reflexivity.
Defined.

Lemma approval_transfer_is_not_atomic_witness :
  fst (Index.accept_twitter_post (JObj [("twitter_unique_id", JStr "t2")])
         (Sample.with_pending [Sample.pending_row]
            (Sample.boot Sample.second_db_call_fails)))
    = Ok (failure "duplicate key" 500) /\
  w_twitter_posts
    (snd (Index.accept_twitter_post (JObj [("twitter_unique_id", JStr "t2")])
            (Sample.with_pending [Sample.pending_row]
               (Sample.boot Sample.second_db_call_fails))))
    = map (fun row => if row_matches "twitter_unique_id" (JStr "t2") row
                      then dict_set "status" (JStr "accepted") row
                      else row)
          (w_twitter_posts (Sample.with_pending [Sample.pending_row]
                              (Sample.boot Sample.second_db_call_fails))) /\
  w_posts
    (snd (Index.accept_twitter_post (JObj [("twitter_unique_id", JStr "t2")])
            (Sample.with_pending [Sample.pending_row]
               (Sample.boot Sample.second_db_call_fails))))
    = w_posts (Sample.with_pending [Sample.pending_row]
                 (Sample.boot Sample.second_db_call_fails)).
Proof.
  apply (approval_transfer_is_not_atomic
           [("twitter_unique_id", JStr "t2")] (JStr "t2") Sample.pending_row []
           (Sample.with_pending [Sample.pending_row]
              (Sample.boot Sample.second_db_call_fails))
           (Exception "duplicate key"));
    vm_compute; reflexivity.
Defined.

Lemma approval_transfer_without_id_witness :
  Index.accept_twitter_post (JObj [("twitter_unique_id", JStr "")])
      (Sample.with_pending [Sample.pending_row] (Sample.boot Sample.db_down))
    = (Ok (failure "twitter_unique_id is required" 400),
       Sample.with_pending [Sample.pending_row] (Sample.boot Sample.db_down)).
Proof.
  apply approval_transfer_without_id.
  right. exists [("twitter_unique_id", JStr "")]. split; reflexivity.
Defined.

Lemma delete_user_contract_witness :
  Index.delete_user Sample.admin_ok JNull (Sample.boot Sample.calm)
    = (Ok (failure "No data provided" 400), Sample.boot Sample.calm) /\
  Index.delete_user Sample.admin_ok (JObj [("user", JStr "u1")]) (Sample.boot Sample.calm)
    = (Ok (failure "user_id is required" 400), Sample.boot Sample.calm) /\
  Index.delete_user Sample.admin_ok (JObj [("user_id", JStr "u1")]) (Sample.boot Sample.calm)
    = (Ok user_deleted, set_supabase_admin true (Sample.boot Sample.calm)) /\
  Index.delete_user Sample.admin_refused (JObj [("user_id", JStr "u1")])
      (Sample.boot Sample.calm)
    = (Ok (failure "User not found" 500), set_supabase_admin true (Sample.boot Sample.calm)).
Proof.
  split; [|split; [|split]].
  - apply (proj1 (delete_user_contract Sample.admin_ok JNull (Sample.boot Sample.calm))).
    reflexivity.
  - apply (proj1 (proj2 (delete_user_contract Sample.admin_ok
                           (JObj [("user", JStr "u1")]) (Sample.boot Sample.calm)))
             [("user", JStr "u1")]); reflexivity.
  - apply (proj1 (proj2 (proj2 (delete_user_contract Sample.admin_ok
                                  (JObj [("user_id", JStr "u1")]) (Sample.boot Sample.calm)))
                        [("user_id", JStr "u1")] eq_refl eq_refl
                        (set_supabase_admin true (Sample.boot Sample.calm)) eq_refl)).
    reflexivity.
  - apply (proj2 (proj2 (proj2 (delete_user_contract Sample.admin_refused
                                  (JObj [("user_id", JStr "u1")]) (Sample.boot Sample.calm)))
                        [("user_id", JStr "u1")] eq_refl eq_refl
                        (set_supabase_admin true (Sample.boot Sample.calm)) eq_refl)
             (Exception "User not found")
             (set_supabase_admin true (Sample.boot Sample.calm))).
    reflexivity.
Defined.

Lemma refreshed_token_is_served_from_cache_witness :
  Endpoints.get_token (snd (Endpoints.get_token (Sample.boot Sample.calm))) =
    (Ok (Some "tok-1"),
     set_clock (S (w_clock (snd (Endpoints.get_token (Sample.boot Sample.calm)))))
       (snd (Endpoints.get_token (Sample.boot Sample.calm)))) /\
  w_trace (snd (Endpoints.get_token (snd (Endpoints.get_token (Sample.boot Sample.calm)))))
    = w_trace (Sample.boot Sample.calm) ++ [EvLogin].
Proof.
  apply (refreshed_token_is_served_from_cache Endpoints.get_token
           (Sample.boot Sample.calm) {| access_token := "tok-1" |} {| id := "bot-7" |}).
  - right. reflexivity.
  - reflexivity.
  - reflexivity.
  - discriminate.
  - vm_compute. reflexivity.
Defined.

Lemma login_without_user_half_updates_cache_witness :
  (fst (Endpoints.get_token (Sample.boot Sample.no_user))
     = Raise (AttributeError "'NoneType' object has no attribute 'id'") /\
   w_auth (snd (Endpoints.get_token (Sample.boot Sample.no_user)))
     = with_token (Some "tok-1") (w_auth (Sample.boot Sample.no_user))) /\
  (fst (Endpoints.get_token (snd (Endpoints.get_token (Sample.boot Sample.no_user))))
     = Raise (TypeError "'<' not supported between instances of 'datetime.datetime' and 'NoneType'") /\
   w_trace (snd (Endpoints.get_token (snd (Endpoints.get_token (Sample.boot Sample.no_user)))))
     = w_trace (snd (Endpoints.get_token (Sample.boot Sample.no_user)))) /\
  w_trace (snd (Index.get_token (snd (Endpoints.get_token (Sample.boot Sample.no_user)))))
    = w_trace (snd (Endpoints.get_token (Sample.boot Sample.no_user))) ++ [EvLogin].
Proof.
  pose proof (login_without_user_half_updates_cache Endpoints.get_token
                (Sample.boot Sample.no_user) {| access_token := "tok-1" |}
                (or_intror eq_refl) eq_refl eq_refl) as [H1 H2].
  split; [exact H1|].
  refine (H2 _ eq_refl (snd (Endpoints.get_token (Sample.boot Sample.no_user))) eq_refl).
  discriminate.
Defined.

Lemma handlers_always_answer_witness :
  exists r : response,
    fst (Index.accept_twitter_post (JList [JNum 1]) (Sample.boot Sample.db_down)) = Ok r.
Proof.
  exact (handlers_always_answer Index.accept_twitter_post (JList [JNum 1])
           (Sample.boot Sample.db_down) answers_index_accept).
Defined.
